(** * habitat_sim.agent.agent: agent state and sensor-pose synchronisation

    A shallow embedding of [src/habitat_sim/agent/agent.py].  Floating-point
    scalars are idealised as real numbers.  Python objects that the code
    mutates in place (numpy arrays, [AgentState] instances) live in a store
    and are handled through addresses, so that aliasing is visible.  Every
    operation of [Agent] is a function from the world to the world after the
    call together with either a value or the exception raised; the world
    after a raise keeps the mutations made before it. *)

From Stdlib Require Import Reals Lra List String Bool Arith ZArith Lia.
Import ListNotations.

Open Scope R_scope.

(** ** Vectors and quaternions *)

Record Vector3 : Type := mkVector3 { vx : R; vy : R; vz : R }.

Definition vzero : Vector3 := mkVector3 0 0 0.

Definition vadd (a b : Vector3) : Vector3 :=
  mkVector3 (vx a + vx b) (vy a + vy b) (vz a + vz b).

Definition vsub (a b : Vector3) : Vector3 :=
  mkVector3 (vx a - vx b) (vy a - vy b) (vz a - vz b).

Definition vscale (k : R) (a : Vector3) : Vector3 :=
  mkVector3 (k * vx a) (k * vy a) (k * vz a).

Definition vdot (a b : Vector3) : R :=
  vx a * vx b + vy a * vy b + vz a * vz b.

Definition vcross (a b : Vector3) : Vector3 :=
  mkVector3 (vy a * vz b - vz a * vy b)
            (vz a * vx b - vx a * vz b)
            (vx a * vy b - vy a * vx b).

(** Magnum's [Quaternion]: a vector part and a scalar part. *)
Module mn.

Record Quaternion : Type := mkQuaternion { vector : Vector3; scalar : R }.

Definition identity : Quaternion := mkQuaternion vzero 1.

(** [Quaternion::operator*], the Hamilton product. *)
Definition mul (p q : Quaternion) : Quaternion :=
  mkQuaternion
    (vadd (vadd (vscale (scalar p) (vector q)) (vscale (scalar q) (vector p)))
          (vcross (vector p) (vector q)))
    (scalar p * scalar q - vdot (vector p) (vector q)).

(** The rotation part of a node's transformation matrix,
    [Quaternion::toMatrix], applied to a vector. *)
Definition transformVector (q : Quaternion) (v : Vector3) : Vector3 :=
  let x := vx (vector q) in
  let y := vy (vector q) in
  let z := vz (vector q) in
  let w := scalar q in
  mkVector3
    ((1 - 2 * (y * y + z * z)) * vx v + (2 * (x * y - z * w)) * vy v
       + (2 * (x * z + y * w)) * vz v)
    ((2 * (x * y + z * w)) * vx v + (1 - 2 * (x * x + z * z)) * vy v
       + (2 * (y * z - x * w)) * vz v)
    ((2 * (x * z - y * w)) * vx v + (2 * (y * z + x * w)) * vy v
       + (1 - 2 * (x * x + y * y)) * vz v).

End mn.

(** numpy-quaternion's [np.quaternion]: components w, x, y, z. *)
Module np.

Record quaternion : Type := mkquaternion { w : R; x : R; y : R; z : R }.

Definition one : quaternion := mkquaternion 1 0 0 0.

Definition mul (p q : quaternion) : quaternion :=
  mkquaternion
    (w p * w q - x p * x q - y p * y q - z p * z q)
    (w p * x q + x p * w q + y p * z q - z p * y q)
    (w p * y q - x p * z q + y p * w q + z p * x q)
    (w p * z q + x p * y q - y p * x q + z p * w q).

Definition conjugate (q : quaternion) : quaternion :=
  mkquaternion (w q) (- x q) (- y q) (- z q).

(** numpy-quaternion calls the sum of squares the norm. *)
Definition norm (q : quaternion) : R :=
  w q * w q + x q * x q + y q * y q + z q * z q.

(** The Euclidean length, [q.abs()]. *)
Definition abs (q : quaternion) : R := sqrt (norm q).

Definition scale (k : R) (q : quaternion) : quaternion :=
  mkquaternion (k * w q) (k * x q) (k * y q) (k * z q).

(** [q.inverse()]: the conjugate divided by the sum of squares. *)
Definition inverse (q : quaternion) : quaternion :=
  scale (/ norm q) (conjugate q).

Definition imag (q : quaternion) : Vector3 := mkVector3 (x q) (y q) (z q).

Definition of_imag (v : Vector3) : quaternion :=
  mkquaternion 0 (vx v) (vy v) (vz v).

End np.

(** A raw coefficient sequence, as a Python list or a numpy array holds it. *)
Record Coeffs : Type := mkCoeffs { c0 : R; c1 : R; c2 : R; c3 : R }.

(** ** Helpers of [habitat_sim.utils.common] *)

(** Modelled from the spec: [quat_from_coeffs] is defined in
    [habitat_sim/utils/common.py], which is not among the sources.  The spec
    says a rotation given as a raw coefficient sequence "is normalized into a
    unit quaternion before use"; the coefficients are read in the order
    x, y, z, w and the quaternion is divided by its length. *)
Definition quat_from_coeffs (c : Coeffs) : np.quaternion :=
  let q := np.mkquaternion (c3 c) (c0 c) (c1 c) (c2 c) in
  np.scale (/ np.abs q) q.

(** Modelled from the spec: [quat_to_magnum] and [quat_from_magnum] are
    defined in [habitat_sim/utils/common.py], which is not among the sources.
    The spec treats the rotation handed to the node and the one read back as
    the same rotation, so both are changes of representation. *)
Definition quat_to_magnum (q : np.quaternion) : mn.Quaternion :=
  mn.mkQuaternion (np.imag q) (np.w q).

Definition quat_from_magnum (q : mn.Quaternion) : np.quaternion :=
  np.mkquaternion (mn.scalar q) (vx (mn.vector q)) (vy (mn.vector q))
                  (vz (mn.vector q)).

(** Modelled from the spec: [quat_rotate_vector] is defined in
    [habitat_sim/utils/common.py], which is not among the sources.  The spec
    speaks of a rotation "applied to" a vector: the vector is conjugated by
    the quaternion. *)
Definition quat_rotate_vector (q : np.quaternion) (v : Vector3) : Vector3 :=
  np.imag (np.mul (np.mul q (np.of_imag v)) (np.inverse q)).

(** ** The transform hierarchy *)

(** A scene node carries the translation and the rotation of its
    transformation relative to its parent.  The agent code never sets a
    scaling, so none is carried. *)
Record SceneNode : Type := mkSceneNode {
  translation : Vector3;
  rotation : mn.Quaternion
}.

Definition reset_transformation (n : SceneNode) : SceneNode :=
  mkSceneNode vzero mn.identity.

Definition translate (v : Vector3) (n : SceneNode) : SceneNode :=
  mkSceneNode (vadd (translation n) v) (rotation n).

Definition set_rotation (q : mn.Quaternion) (n : SceneNode) : SceneNode :=
  mkSceneNode (translation n) q.

(** The root of the scene graph, whose transformation is the identity.  The
    simulator hangs the agent's body node directly under it. *)
Definition root : SceneNode := mkSceneNode vzero mn.identity.

(** [child.absolute_translation] for a child of [parent], where [parent]
    itself hangs under the root: the parent's transformation applied to the
    child's translation. *)
Definition absolute_translation (parent child : SceneNode) : Vector3 :=
  vadd (translation parent)
       (mn.transformVector (rotation parent) (translation child)).

(** A feature attached to a node holds the node without owning it;
    [is_valid] tells whether the node still exists. *)
Record Feature : Type := mkFeature { object : SceneNode; is_valid : bool }.

(** Modelled from the spec: [SensorSpec] and [set_transformation_from_spec]
    belong to the native bindings, which are not among the sources.  The spec
    says that every sensor has a unique name and a "configured default (as
    defined by its original specification)" to which its transform is
    reset. *)
Record SensorSpec : Type := mkSensorSpec {
  uuid : string;
  spec_position : Vector3;
  spec_rotation : mn.Quaternion
}.

Record Sensor : Type := mkSensor {
  node : SceneNode;
  specification : SensorSpec;
  sensor_is_valid : bool
}.

Definition with_node (n : SceneNode) (s : Sensor) : Sensor :=
  mkSensor n (specification s) (sensor_is_valid s).

Definition set_transformation_from_spec (s : Sensor) : Sensor :=
  with_node
    (set_rotation (spec_rotation (specification s))
       (translate (spec_position (specification s))
          (reset_transformation (node s))))
    s.

(** ** Python dictionaries

    A [dict] keeps its keys in insertion order; assigning to a key that is
    present replaces the value where it stands. *)
Section Dict.

Context {V : Type}.

Definition dict : Type := list (string * V).

Fixpoint dict_get (k : string) (d : dict) : option V :=
  match d with
  | [] => None
  | (k', v) :: rest => if String.eqb k k' then Some v else dict_get k rest
  end.

Definition dict_mem (k : string) (d : dict) : bool :=
  match dict_get k d with Some _ => true | None => false end.

Fixpoint dict_set (k : string) (v : V) (d : dict) : dict :=
  match d with
  | [] => [(k, v)]
  | (k', v') :: rest =>
      if String.eqb k k' then (k', v) :: rest else (k', v') :: dict_set k v rest
  end.

Definition keys (d : dict) : list string := map fst d.

End Dict.

Arguments dict V : clear implicits.

(** ** Configuration objects *)

(** Modelled from the spec: [ActuationSpec] is defined in
    [habitat_sim/agent/controls], which is not among the sources; the spec
    calls it "a small set of named numeric magnitudes". *)
Record ActuationSpec : Type := mkActuationSpec { amount : R }.

Record ActionSpec : Type := mkActionSpec {
  name : string;
  actuation : option ActuationSpec
}.

Definition _default_action_space : dict ActionSpec :=
  [ ("move_forward"%string,
      mkActionSpec "move_forward" (Some (mkActuationSpec 0.25)));
    ("turn_left"%string,
      mkActionSpec "turn_left" (Some (mkActuationSpec 10)));
    ("turn_right"%string,
      mkActionSpec "turn_right" (Some (mkActuationSpec 10))) ].

Record AgentConfiguration : Type := mkAgentConfiguration {
  height : R;
  radius : R;
  mass : R;
  linear_acceleration : R;
  angular_acceleration : R;
  linear_friction : R;
  angular_friction : R;
  coefficient_of_restitution : R;
  sensor_specifications : list SensorSpec;
  action_space : dict ActionSpec;
  body_type : string
}.

(** ** The object store *)

Definition addr : Type := nat.

(** [Union[np.quaternion, List, np.ndarray]] *)
Inductive Rotation : Type :=
| RotQuaternion (q : np.quaternion)
| RotList (c : Coeffs)
| RotArray (c : Coeffs).

(** [Union[np.quaternion, List]] *)
Inductive PoseRotation : Type :=
| PoseQuaternion (q : np.quaternion)
| PoseList (c : Coeffs).

(** Positions are numpy arrays: a field holds the address of the array. *)
Module SixDOFPose.

Record t : Type := mk { position : addr; rotation : PoseRotation }.

Definition with_rotation (r : PoseRotation) (p : t) : t := mk (position p) r.

End SixDOFPose.

Module AgentState.

Record t : Type := mk {
  position : addr;
  rotation : Rotation;
  velocity : addr;
  angular_velocity : addr;
  force : addr;
  torque : addr;
  sensor_states : dict SixDOFPose.t
}.

Definition with_rotation (r : Rotation) (s : t) : t :=
  mk (position s) r (velocity s) (angular_velocity s) (force s) (torque s)
     (sensor_states s).

Definition with_sensor_states (d : dict SixDOFPose.t) (s : t) : t :=
  mk (position s) (rotation s) (velocity s) (angular_velocity s) (force s)
     (torque s) d.

End AgentState.

Record Agent : Type := mkAgent {
  agent_config : AgentConfiguration;
  _sensors : dict Sensor;
  body : Feature;
  initial_state : option addr;
  gripped_object_id : Z;
  gripped_object_transformation : option SceneNode
}.

(** The world: the arrays and the [AgentState] objects allocated so far, and
    the agent.  A pose object is held by the one dictionary entry that names
    it. *)
Record World : Type := mkWorld {
  arrays : addr -> Vector3;
  next_array : addr;
  states : addr -> AgentState.t;
  next_state : addr;
  agent : Agent
}.

Definition with_agent (a : Agent) (w : World) : World :=
  mkWorld (arrays w) (next_array w) (states w) (next_state w) a.

Definition with_agent_config (c : AgentConfiguration) (a : Agent) : Agent :=
  mkAgent c (_sensors a) (body a) (initial_state a) (gripped_object_id a)
          (gripped_object_transformation a).

Definition with_sensors (s : dict Sensor) (a : Agent) : Agent :=
  mkAgent (agent_config a) s (body a) (initial_state a) (gripped_object_id a)
          (gripped_object_transformation a).

Definition with_body_object (n : SceneNode) (a : Agent) : Agent :=
  mkAgent (agent_config a) (_sensors a) (mkFeature n (is_valid (body a)))
          (initial_state a) (gripped_object_id a)
          (gripped_object_transformation a).

Definition with_initial_state (s : option addr) (a : Agent) : Agent :=
  mkAgent (agent_config a) (_sensors a) (body a) s (gripped_object_id a)
          (gripped_object_transformation a).

Definition with_gripped (id : Z) (t : option SceneNode) (a : Agent) : Agent :=
  mkAgent (agent_config a) (_sensors a) (body a) (initial_state a) id t.

(** ** Exceptions and the monad of operations *)

(** [InvalidObjectError] is raised by [habitat_sim.errors.assert_obj_valid];
    [UnknownActionError] and [UnknownSensorError] are the spec's names for
    the failure of the two [assert] statements of [act] and [set_state]. *)
Inductive Error : Type :=
| InvalidObjectError
| UnknownActionError
| UnknownSensorError
| AttributeError
| IndexError
| NonTermination.

Inductive result (A : Type) : Type :=
| Ok (a : A)
| Raise (e : Error).

Arguments Ok {A} a.
Arguments Raise {A} e.

Definition M (A : Type) : Type := World -> World * result A.

Definition ret {A : Type} (a : A) : M A := fun w => (w, Ok a).

Definition raise {A : Type} (e : Error) : M A := fun w => (w, Raise e).

Definition bind {A B : Type} (m : M A) (k : A -> M B) : M B :=
  fun w =>
    match m w with
    | (w', Ok a) => k a w'
    | (w', Raise e) => (w', Raise e)
    end.

Declare Scope monad_scope.
Delimit Scope monad_scope with monad.
Notation "x <- m ;; k" := (bind m (fun x => k))
  (at level 61, m at next level, right associativity) : monad_scope.
Notation "m ;; k" := (bind m (fun _ => k))
  (at level 61, right associativity) : monad_scope.
Open Scope monad_scope.

Definition get_agent : M Agent := fun w => (w, Ok (agent w)).

Definition modify_agent (f : Agent -> Agent) : M unit :=
  fun w => (with_agent (f (agent w)) w, Ok tt).

Definition when (b : bool) (m : M unit) : M unit := if b then m else ret tt.

(** Modelled from the spec: [assert_obj_valid] is defined in
    [habitat_sim/errors.py], which is not among the sources.  The spec says
    the operation "fails with InvalidObjectError if the body node's owning
    hierarchy has been torn down". *)
Definition assert_obj_valid (valid : bool) : M unit :=
  if valid then ret tt else raise InvalidObjectError.

(** ** Arrays and state objects in the store *)

(** [np.zeros(3)] and [np.array(v)]: a new array. *)
Definition np_array (v : Vector3) : M addr :=
  fun w =>
    let a := next_array w in
    (mkWorld (fun a' => if Nat.eqb a' a then v else arrays w a') (S a)
             (states w) (next_state w) (agent w),
     Ok a).

Definition read_array (a : addr) : M Vector3 := fun w => (w, Ok (arrays w a)).

Definition vset (i : nat) (r : R) (v : Vector3) : option Vector3 :=
  match i with
  | 0%nat => Some (mkVector3 r (vy v) (vz v))
  | 1%nat => Some (mkVector3 (vx v) r (vz v))
  | 2%nat => Some (mkVector3 (vx v) (vy v) r)
  | _ => None
  end.

(** [arr[i] = r]: the array is changed where it is. *)
Definition array_setitem (a : addr) (i : nat) (r : R) : M unit :=
  fun w =>
    match vset i r (arrays w a) with
    | Some v =>
        (mkWorld (fun a' => if Nat.eqb a' a then v else arrays w a')
                 (next_array w) (states w) (next_state w) (agent w),
         Ok tt)
    | None => (w, Raise IndexError)
    end.

Definition new_state (s : AgentState.t) : M addr :=
  fun w =>
    let a := next_state w in
    (mkWorld (arrays w) (next_array w)
             (fun a' => if Nat.eqb a' a then s else states w a') (S a)
             (agent w),
     Ok a).

Definition read_state (a : addr) : M AgentState.t :=
  fun w => (w, Ok (states w a)).

Definition modify_state (a : addr) (f : AgentState.t -> AgentState.t)
  : M unit :=
  fun w =>
    (mkWorld (arrays w) (next_array w)
             (fun a' => if Nat.eqb a' a then f (states w a) else states w a')
             (next_state w) (agent w),
     Ok tt).

(** ** Class defaults

    A default written as a plain value in an attrs class body is evaluated
    once, when the class is created, and every instance built without that
    argument receives this one object.  A default written as [attr.Factory]
    is called anew for each instance.  The arrays below are the six
    [np.zeros(3)] of the class bodies of [SixDOFPose] and [AgentState], in
    the order in which the module creates them. *)
Definition SixDOFPose_position_default : addr := 0%nat.
Definition AgentState_position_default : addr := 1%nat.
Definition AgentState_velocity_default : addr := 2%nat.
Definition AgentState_angular_velocity_default : addr := 3%nat.
Definition AgentState_force_default : addr := 4%nat.
Definition AgentState_torque_default : addr := 5%nat.

Definition default_rotation : np.quaternion := np.one.

(** The store once the module is imported. *)
Definition module_world (a : Agent) : World :=
  mkWorld (fun _ => vzero) 6%nat
          (fun _ => AgentState.mk AgentState_position_default
                      (RotQuaternion default_rotation)
                      AgentState_velocity_default
                      AgentState_angular_velocity_default
                      AgentState_force_default AgentState_torque_default [])
          0%nat a.

Definition or_default {A : Type} (given : option A) (default : A) : A :=
  match given with Some a => a | None => default end.

(** [SixDOFPose(position, rotation)] *)
Definition SixDOFPose_init (position : option addr)
  (rotation : option PoseRotation) : SixDOFPose.t :=
  SixDOFPose.mk (or_default position SixDOFPose_position_default)
                (or_default rotation (PoseQuaternion default_rotation)).

(** [AgentState(position, rotation)]; the agent code never passes the other
    fields. *)
Definition AgentState_init (position : option addr)
  (rotation : option Rotation) : M addr :=
  new_state
    (AgentState.mk (or_default position AgentState_position_default)
                   (or_default rotation (RotQuaternion default_rotation))
                   AgentState_velocity_default
                   AgentState_angular_velocity_default
                   AgentState_force_default AgentState_torque_default []).

(** ** Agent.reconfigure *)

(** [node.create_child()]: a new node under [node], at the identity. *)
Definition create_child (parent : SceneNode) : SceneNode :=
  mkSceneNode vzero mn.identity.

(** Modelled from the spec: [hsim.CameraSensor] belongs to the native
    bindings, which are not among the sources.  The spec has a configured
    sensor sit "at relative offset" given by its specification: the new
    sensor's node is placed from the specification. *)
Definition CameraSensor (n : SceneNode) (spec : SensorSpec) : Sensor :=
  set_transformation_from_spec (mkSensor n spec true).

(** The [scene_node] property. *)
Definition scene_node : M SceneNode :=
  a <- get_agent ;;
  assert_obj_valid (is_valid (body a)) ;;
  ret (object (body a)).

(** Modelled from the spec: [SensorSuite] is defined in
    [habitat_sim/sensors/sensor_suite.py], which is not among the sources.
    The spec calls it a "mapping from sensor name (unique key)": [add] files
    the sensor under the name of its specification. *)
Definition SensorSuite_add (s : Sensor) : M unit :=
  modify_agent
    (fun a => with_sensors (dict_set (uuid (specification s)) s (_sensors a)) a).

Definition SensorSuite_clear : M unit := modify_agent (with_sensors []).

Fixpoint add_sensors (specs : list SensorSpec) : M unit :=
  match specs with
  | [] => ret tt
  | spec :: rest =>
      n <- scene_node ;;
      SensorSuite_add (CameraSensor (create_child n) spec) ;;
      add_sensors rest
  end.

Definition reconfigure (agent_config : AgentConfiguration)
  (reconfigure_sensors : bool) : M unit :=
  a <- get_agent ;;
  assert_obj_valid (is_valid (body a)) ;;
  modify_agent (with_agent_config agent_config) ;;
  when reconfigure_sensors
    (SensorSuite_clear ;;
     add_sensors (sensor_specifications agent_config)).

(** ** Agent.get_state *)

Definition set_sensor_state (state : addr) (k : string) (p : SixDOFPose.t)
  : M unit :=
  modify_state state
    (fun s =>
       AgentState.with_sensor_states
         (dict_set k p (AgentState.sensor_states s)) s).

(** The loop over [self._sensors.items()].  [rot] is the body's rotation,
    which the source keeps in [state.rotation] as a Magnum quaternion until
    the loop is over. *)
Fixpoint get_sensor_states (state : addr) (rot : mn.Quaternion)
  (items : list (string * Sensor)) : M unit :=
  match items with
  | [] => ret tt
  | (k, v) :: rest =>
      assert_obj_valid (sensor_is_valid v) ;;
      a <- get_agent ;;
      p <- np_array (absolute_translation (object (body a)) (node v)) ;;
      set_sensor_state state k
        (SixDOFPose_init (Some p)
           (Some (PoseQuaternion
                    (quat_from_magnum (mn.mul rot (rotation (node v))))))) ;;
      get_sensor_states state rot rest
  end.

(** The source stores the body's Magnum rotation in the new state, runs the
    loop and converts the field last; here the field holds the converted
    value from the start and the loop is given the Magnum rotation. *)
Definition get_state : M addr :=
  a <- get_agent ;;
  assert_obj_valid (is_valid (body a)) ;;
  p <- np_array (absolute_translation root (object (body a))) ;;
  let rot := rotation (object (body a)) in
  state <- AgentState_init (Some p)
             (Some (RotQuaternion (quat_from_magnum rot))) ;;
  get_sensor_states state rot (_sensors a) ;;
  ret state.

(** ** Agent.set_state *)

(** [isinstance(state.rotation, (list, np.ndarray))] and the assignment. *)
Definition convert_rotation (state : addr) : M unit :=
  s <- read_state state ;;
  match AgentState.rotation s with
  | RotQuaternion _ => ret tt
  | RotList c | RotArray c =>
      modify_state state
        (AgentState.with_rotation (RotQuaternion (quat_from_coeffs c)))
  end.

(** [state.rotation] where a quaternion is called for: a list or an array
    has none of its attributes. *)
Definition state_rotation (state : addr) : M np.quaternion :=
  s <- read_state state ;;
  match AgentState.rotation s with
  | RotQuaternion q => ret q
  | RotList _ | RotArray _ => raise AttributeError
  end.

Definition state_position (state : addr) : M Vector3 :=
  s <- read_state state ;;
  read_array (AgentState.position s).

Definition modify_body (f : SceneNode -> SceneNode) : M unit :=
  modify_agent (fun a => with_body_object (f (object (body a))) a).

(** [isinstance(v.rotation, list)] and the assignment, for the pose filed
    under [k]; the result is [v.rotation] after it. *)
Definition convert_pose_rotation (state : addr) (k : string)
  (v : SixDOFPose.t) : M np.quaternion :=
  match SixDOFPose.rotation v with
  | PoseQuaternion q => ret q
  | PoseList c =>
      let q := quat_from_coeffs c in
      set_sensor_state state k
        (SixDOFPose.with_rotation (PoseQuaternion q) v) ;;
      ret q
  end.

(** The node of a sensor placed from an absolute pose, given the base
    pose. *)
Definition place_node (base_rotation : np.quaternion)
  (base_position sensor_position : Vector3)
  (sensor_rotation : np.quaternion) (n : SceneNode) : SceneNode :=
  set_rotation
    (quat_to_magnum (np.mul (np.inverse base_rotation) sensor_rotation))
    (translate
       (quat_rotate_vector (np.inverse base_rotation)
          (vsub sensor_position base_position))
       (reset_transformation n)).

(** The loop over [state.sensor_states.items()]. *)
Fixpoint place_sensors (state : addr) (items : list (string * SixDOFPose.t))
  : M unit :=
  match items with
  | [] => ret tt
  | (k, v) :: rest =>
      a <- get_agent ;;
      match dict_get k (_sensors a) with
      | None => raise UnknownSensorError
      | Some s =>
          vrot <- convert_pose_rotation state k v ;;
          vpos <- read_array (SixDOFPose.position v) ;;
          pos <- state_position state ;;
          rot <- state_rotation state ;;
          modify_agent
            (with_sensors
               (dict_set k (with_node (place_node rot pos vpos vrot (node s)) s)
                  (_sensors a))) ;;
          place_sensors state rest
      end
  end.

(** Lines 280 to 286: the conversion of [state.rotation] and the three steps
    on the body node. *)
Definition set_base_pose (state : addr) : M unit :=
  convert_rotation state ;;
  modify_body reset_transformation ;;
  pos <- state_position state ;;
  modify_body (translate pos) ;;
  rot <- state_rotation state ;;
  modify_body (set_rotation (quat_to_magnum rot)).

(** The loop over [self._sensors.items()] under [reset_sensors]. *)
Definition reset_all_sensors : M unit :=
  modify_agent
    (fun a =>
       with_sensors
         (map (fun kv => (fst kv, set_transformation_from_spec (snd kv)))
            (_sensors a))
         a).

Definition set_state (state : addr)
  (reset_sensors infer_sensor_states is_initial : bool) : M unit :=
  a <- get_agent ;;
  assert_obj_valid (is_valid (body a)) ;;
  set_base_pose state ;;
  when reset_sensors reset_all_sensors ;;
  when (negb infer_sensor_states)
    (s <- read_state state ;;
     place_sensors state (AgentState.sensor_states s)) ;;
  when is_initial (modify_agent (with_initial_state (Some state))).

(** The [state] property. *)
Definition state_getter : M addr := get_state.

Definition state_setter (new_state : addr) : M unit :=
  set_state new_state true true false.

(** ** Agent.act *)

(** The collaborators of [act]: the controls ([habitat_sim/agent/controls],
    not among the sources) and the simulator.  Both are taken as parameters;
    [S] is the simulator's state. *)
Class Controls (S : Type) : Type := {
  is_body_action : string -> bool;
  is_interact_action : string -> bool;
  (** [controls.action(node, name, actuation, apply_filter)]: the node after
      the action, and whether it collided *)
  controls_action :
    SceneNode -> string -> option ActuationSpec -> bool -> SceneNode * bool;
  (** the same call with [sim] and [ref_point], for an interact action: the
      node and the simulator after it, and [data["nearest_object_id"]] *)
  controls_interact :
    SceneNode -> string -> option ActuationSpec -> S -> Vector3 ->
    SceneNode * S * Z
}.

Class Simulator (S : Type) : Type := {
  (** [unproject(get_crosshair_position()).direction] *)
  crosshair_direction : S -> Vector3;
  (** [find_floor_position_under_crosshair(point, ref, get_resolution(), 1.5).point] *)
  find_floor_position_under_crosshair :
    S -> Vector3 -> Vector3 -> option Vector3;
  (** [get_object_from_scene(id)["objectHandle"]] *)
  get_object_handle : S -> Z -> string;
  add_object_by_handle : S -> string -> S * Z;
  set_translation : S -> Vector3 -> Z -> S;
  contact_test : S -> Z -> bool;
  update_object_in_scene : S -> Z -> Z -> S;
  get_transformation : S -> Z -> SceneNode;
  remove_object : S -> Z -> S
}.

Section Act.

Context {S : Type} `{Controls S} `{Simulator S}.

(** The [while self.sim.contact_test(new_object_id)] loop; [None] when the
    object is still in contact after [fuel] rounds. *)
Fixpoint lift_until_free (fuel : nat) (sim : S) (p : Vector3) (id : Z)
  : option S :=
  match fuel with
  | O => None
  | Datatypes.S fuel' =>
      if contact_test sim id then
        let p' := mkVector3 (vx p) (vy p + 0.25) (vz p) in
        lift_until_free fuel' (set_translation sim p' id) p' id
      else Some sim
  end.

(** The loop over [self._sensors.items()] of a sensor action. *)
Fixpoint act_on_sensors (action : ActionSpec) (items : list (string * Sensor))
  : M unit :=
  match items with
  | [] => ret tt
  | (k, v) :: rest =>
      assert_obj_valid (sensor_is_valid v) ;;
      modify_agent
        (fun a =>
           with_sensors
             (dict_set k
                (with_node
                   (fst (controls_action (node v) (name action)
                           (actuation action) false))
                   v)
                (_sensors a))
             a) ;;
      act_on_sensors action rest
  end.

(** The branch of an interact action, with the simulator at hand. *)
Definition act_interact (fuel : nat) (action : ActionSpec) (sim : S)
  (w : World) : World * S * result bool :=
  let a := agent w in
  let cross_hair_point := crosshair_direction sim in
  let ref_point := absolute_translation root (object (body a)) in
  let '(n, sim1, nearest_object_id) :=
    controls_interact (object (body a)) (name action) (actuation action) sim
      ref_point in
  let a1 := with_body_object n a in
  if negb (Z.eqb (gripped_object_id a1) (-1)) then
    match find_floor_position_under_crosshair sim1 cross_hair_point ref_point
    with
    | None => (with_agent a1 w, sim1, Ok true)
    | Some floor_position =>
        match gripped_object_transformation a1 with
        | None => (with_agent a1 w, sim1, Raise AttributeError)
        | Some t =>
            let y_value := Rmax (vy (translation t)) (vy floor_position) in
            let new_object_position :=
              mkVector3 (vx floor_position) y_value (vz floor_position) in
            let '(sim2, new_object_id) :=
              add_object_by_handle sim1
                (get_object_handle sim1 (gripped_object_id a1)) in
            let sim3 :=
              set_translation sim2 new_object_position new_object_id in
            match lift_until_free fuel sim3 new_object_position new_object_id
            with
            | None => (with_agent a1 w, sim3, Raise NonTermination)
            | Some sim4 =>
                (with_agent
                   (with_gripped (-1) (gripped_object_transformation a1) a1) w,
                 update_object_in_scene sim4 (gripped_object_id a1)
                   new_object_id,
                 Ok false)
            end
        end
    end
  else if negb (Z.eqb nearest_object_id (-1)) then
    (with_agent
       (with_gripped nearest_object_id
          (Some (get_transformation sim1 nearest_object_id)) a1)
       w,
     remove_object sim1 nearest_object_id,
     Ok false)
  else (with_agent a1 w, sim1, Ok false).

(** [sim] is [self.sim], which may be [None]. *)
Definition act (fuel : nat) (action_id : string) (sim : option S) (w : World)
  : World * option S * result bool :=
  let a := agent w in
  if negb (is_valid (body a)) then (w, sim, Raise InvalidObjectError)
  else
    match dict_get action_id (action_space (agent_config a)) with
    | None => (w, sim, Raise UnknownActionError)
    | Some action =>
        if is_body_action (name action) then
          let '(n, did_collide) :=
            controls_action (object (body a)) (name action) (actuation action)
              true in
          (with_agent (with_body_object n a) w, sim, Ok did_collide)
        else if is_interact_action (name action) then
          match sim with
          | None => (w, sim, Raise AttributeError)
          | Some s =>
              let '(w', s', r) := act_interact fuel action s w in
              (w', Some s', r)
          end
        else
          let '(w', r) := act_on_sensors action (_sensors a) w in
          (w', sim,
           match r with Ok _ => Ok false | Raise e => Raise e end)
    end.

End Act.

(** ** Notions used in the statements *)

Definition all_sensors_valid (items : dict Sensor) : Prop :=
  Forall (fun kv => sensor_is_valid (snd kv) = true) items.

(** What [get_state] reports for a sensor, given the body node. *)
Definition reported_rotation (b : SceneNode) (v : Sensor) : PoseRotation :=
  PoseQuaternion (quat_from_magnum (mn.mul (rotation b) (rotation (node v)))).

(** [state.rotation] once [set_state] has converted it. *)
Definition rotation_quaternion (r : Rotation) : np.quaternion :=
  match r with
  | RotQuaternion q => q
  | RotList c | RotArray c => quat_from_coeffs c
  end.

Definition pose_quaternion (r : PoseRotation) : np.quaternion :=
  match r with
  | PoseQuaternion q => q
  | PoseList c => quat_from_coeffs c
  end.

(** The base pose that [set_state] reads from the state at [state]. *)
Definition base_rotation (w : World) (state : addr) : np.quaternion :=
  rotation_quaternion (AgentState.rotation (states w state)).

Definition base_position (w : World) (state : addr) : Vector3 :=
  arrays w (AgentState.position (states w state)).

(** The store after [v.rotation] has been converted for the pose [v] filed
    under [k] in the state at [state]. *)
Definition pose_converted (state : addr) (k : string) (v : SixDOFPose.t)
  (w : World) : World :=
  match SixDOFPose.rotation v with
  | PoseQuaternion _ => w
  | PoseList c =>
      mkWorld (arrays w) (next_array w)
        (fun a' =>
           if Nat.eqb a' state
           then AgentState.with_sensor_states
                  (dict_set k
                     (SixDOFPose.with_rotation
                        (PoseQuaternion (quat_from_coeffs c)) v)
                     (AgentState.sensor_states (states w state)))
                  (states w state)
           else states w a')
        (next_state w) (agent w)
  end.

(** The world after one round of the loop of [place_sensors]. *)
Definition sensor_placed (state : addr) (k : string) (v : SixDOFPose.t)
  (s : Sensor) (w : World) : World :=
  with_agent
    (with_sensors
       (dict_set k
          (with_node
             (place_node (base_rotation w state) (base_position w state)
                (arrays w (SixDOFPose.position v))
                (pose_quaternion (SixDOFPose.rotation v)) (node s))
             s)
          (_sensors (agent w)))
       (agent w))
    (pose_converted state k v w).

(** The sensors once the [reset_sensors] pass is over. *)
Definition sensors_after_reset (reset_sensors : bool) (d : dict Sensor)
  : dict Sensor :=
  if reset_sensors
  then map (fun kv => (fst kv, set_transformation_from_spec (snd kv))) d
  else d.

(** The body node once [set_state] has set the base pose. *)
Definition base_node (w : World) (state : addr) : SceneNode :=
  set_rotation (quat_to_magnum (base_rotation w state))
    (translate (base_position w state)
       (reset_transformation (object (body (agent w))))).

(** ** A concrete agent

    One colour sensor mounted 1.5 above the body, the default action space,
    and controls that know the three default actions and two sensor
    actions.  The simulator holds no objects. *)
Definition rgb_spec : SensorSpec :=
  mkSensorSpec "rgb" (mkVector3 0 1.5 0) mn.identity.

Definition example_config : AgentConfiguration :=
  mkAgentConfiguration 1.5 0.1 32 20 (4 * PI) 0.5 1 0 [rgb_spec]
                       _default_action_space "cylinder".

Definition example_agent : Agent :=
  mkAgent example_config
          [("rgb"%string, CameraSensor (create_child root) rgb_spec)]
          (mkFeature root true) None (-1) None.

Definition example_world : World := module_world example_agent.

#[export] Instance example_controls : Controls unit := {
  is_body_action n :=
    String.eqb n "move_forward" || String.eqb n "turn_left"
    || String.eqb n "turn_right";
  is_interact_action n := String.eqb n "grab_release";
  controls_action n nm act _ :=
    match act with
    | Some a =>
        if String.eqb nm "move_forward"
        then (translate (mkVector3 0 0 (- amount a)) n, false)
        else (n, false)
    | None => (n, false)
    end;
  controls_interact n _ _ s _ := (n, s, (-1)%Z)
}.

#[export] Instance example_simulator : Simulator unit := {
  crosshair_direction _ := mkVector3 0 0 (-1);
  find_floor_position_under_crosshair _ _ _ := None;
  get_object_handle _ _ := EmptyString;
  add_object_by_handle s _ := (s, 0%Z);
  set_translation s _ _ := s;
  contact_test _ _ := false;
  update_object_in_scene s _ _ := s;
  get_transformation _ _ := root;
  remove_object s _ := s
}.

(** The body node of a world has been torn down. *)
Definition invalidate (w : World) : World :=
  with_agent
    (mkAgent (agent_config (agent w)) (_sensors (agent w))
             (mkFeature (object (body (agent w))) false)
             (initial_state (agent w)) (gripped_object_id (agent w))
             (gripped_object_transformation (agent w)))
    w.

(** A caller's state for the example agent: base at (5, 0, 1) with the
    rotation given as the coefficient list of the identity, and one pose
    for each name of [names], 1.5 above the base, its rotation given as a
    coefficient list too. *)
Definition identity_coeffs : Coeffs := mkCoeffs 0 0 0 1.

Fixpoint example_poses (names : list string) (p : addr)
  : dict SixDOFPose.t :=
  match names with
  | [] => []
  | n :: rest =>
      dict_set n (SixDOFPose_init (Some p) (Some (PoseList identity_coeffs)))
        (example_poses rest p)
  end.

Definition make_example_state (names : list string) : M addr :=
  p <- np_array (mkVector3 5 0 1) ;;
  ps <- np_array (mkVector3 5 1.5 1) ;;
  state <- AgentState_init (Some p) (Some (RotList identity_coeffs)) ;;
  modify_state state
    (AgentState.with_sensor_states (example_poses names ps)) ;;
  ret state.

(** The example world with a state that names the attached sensor. *)
Definition world_with_state : World :=
  fst (make_example_state ["rgb"%string] example_world).

(** The example world with a state that names a sensor that is not
    attached. *)
Definition world_with_unknown_sensor : World :=
  fst (make_example_state ["depth"%string] example_world).

(** The example agent after its sensor has been moved half a unit above
    its mount, as a sensor action or an explicit placement leaves it. *)
Definition displaced_agent : Agent :=
  mkAgent example_config
          [("rgb"%string,
            mkSensor (mkSceneNode (mkVector3 0 2 0) mn.identity) rgb_spec true)]
          (mkFeature root true) None (-1) None.

Definition displaced_world : World := module_world displaced_agent.

(** A pose by value: the contents of its position array and its rotation. *)
Definition pose_value (w : World) (p : option SixDOFPose.t)
  : option (Vector3 * PoseRotation) :=
  option_map
    (fun v => (arrays w (SixDOFPose.position v), SixDOFPose.rotation v)) p.

(** Two states built with no argument, then [s1.position[i] = r]. *)
Definition state_position_setitem (state : addr) (i : nat) (r : R)
  : M unit :=
  s <- read_state state ;;
  array_setitem (AgentState.position s) i r.

Definition two_default_states_one_written : M (addr * addr) :=
  s1 <- AgentState_init None None ;;
  s2 <- AgentState_init None None ;;
  state_position_setitem s1 0 1 ;;
  ret (s1, s2).

(** ** Agent.__init__ *)

(** [AgentConfiguration()].  Its one sensor specification is
    [hsim.SensorSpec()], which belongs to the native bindings and is taken
    as a parameter. *)
Definition AgentConfiguration_default (default_spec : SensorSpec)
  : AgentConfiguration :=
  mkAgentConfiguration 1.5 0.1 32 20 (4 * PI) 0.5 1 0 [default_spec]
                       _default_action_space "cylinder".

(** [Agent(scene_node, agent_config, _sensors)]: the new agent takes the
    place of the world's agent.  [scene_node] comes with its validity; the
    node's type tag, which the constructor sets, is not part of the
    transform model.  The attributes assigned after [reconfigure] are
    assigned last, as in the source. *)
Definition Agent_init (default_spec : SensorSpec) (scene_node : Feature)
  (agent_config : option AgentConfiguration)
  (_sensors : option (dict Sensor)) : M unit :=
  let config := or_default agent_config (AgentConfiguration_default default_spec) in
  modify_agent
    (fun _ => mkAgent config (or_default _sensors []) scene_node None (-1) None) ;;
  reconfigure config true ;;
  modify_agent
    (fun a =>
       with_gripped (-1) (gripped_object_transformation a)
         (with_initial_state None a)).

(** An agent that holds an object has recorded that object's
    transformation. *)
Definition grip_consistent (a : Agent) : Prop :=
  gripped_object_id a = (-1)%Z \/ gripped_object_transformation a <> None.

(** The sensor that [reconfigure] files under [k]: the one made from the
    last specification of that name. *)
Definition configured_sensor (parent : SceneNode) (specs : list SensorSpec)
  (k : string) : option Sensor :=
  option_map (CameraSensor (create_child parent))
    (find (fun spec => String.eqb k (uuid spec)) (rev specs)).

(** The world after one round of the loop of [get_state]: a new array
    holds the sensor's absolute translation and the pose is filed under
    [k]. *)
Definition sensor_read (state : addr) (rot : mn.Quaternion) (k : string)
  (v : Sensor) (w : World) : World :=
  mkWorld
    (fun a' =>
       if Nat.eqb a' (next_array w)
       then absolute_translation (object (body (agent w))) (node v)
       else arrays w a')
    (S (next_array w))
    (fun a' =>
       if Nat.eqb a' state
       then AgentState.with_sensor_states
              (dict_set k
                 (SixDOFPose.mk (next_array w)
                    (PoseQuaternion
                       (quat_from_magnum (mn.mul rot (rotation (node v))))))
                 (AgentState.sensor_states (states w state)))
              (states w state)
       else states w a')
    (next_state w) (agent w).

(** The world of [get_state] when its loop starts: the position array and
    the state object are allocated. *)
Definition state_allocated (w : World) : World :=
  mkWorld
    (fun a' =>
       if Nat.eqb a' (next_array w)
       then absolute_translation root (object (body (agent w)))
       else arrays w a')
    (S (next_array w))
    (fun a' =>
       if Nat.eqb a' (next_state w)
       then AgentState.mk (next_array w)
              (RotQuaternion
                 (quat_from_magnum (rotation (object (body (agent w))))))
              AgentState_velocity_default AgentState_angular_velocity_default
              AgentState_force_default AgentState_torque_default []
       else states w a')
    (S (next_state w)) (agent w).

(** The example agent with a second sensor whose node has been torn
    down. *)
Definition depth_spec : SensorSpec :=
  mkSensorSpec "depth" (mkVector3 0 1.5 0) mn.identity.

Definition stale_sensor_agent : Agent :=
  mkAgent example_config
          [("rgb"%string, CameraSensor (create_child root) rgb_spec);
           ("depth"%string,
            mkSensor (mkSceneNode (mkVector3 0 1.5 0) mn.identity) depth_spec
              false)]
          (mkFeature root true) None (-1) None.

Definition stale_sensor_world : World := module_world stale_sensor_agent.

(** The example agent with two more actions in its action space: one that
    the example controls apply to the sensors and one that they treat as an
    interaction. *)
Definition acting_config : AgentConfiguration :=
  mkAgentConfiguration 1.5 0.1 32 20 (4 * PI) 0.5 1 0 [rgb_spec]
    (dict_set "grab_release" (mkActionSpec "grab_release" None)
       (dict_set "look_up"
          (mkActionSpec "look_up" (Some (mkActuationSpec 10)))
          _default_action_space))
    "cylinder".

Definition acting_agent (sensors : dict Sensor) : Agent :=
  mkAgent acting_config sensors (mkFeature root true) None (-1) None.

Definition acting_world : World :=
  module_world
    (acting_agent [("rgb"%string, CameraSensor (create_child root) rgb_spec)]).

Definition acting_stale_world : World :=
  module_world (acting_agent (_sensors stale_sensor_agent)).

(** The sensor after a sensor action has been applied to its node. *)
Definition sensor_acted {S : Type} `{Controls S} (action : ActionSpec)
  (v : Sensor) : Sensor :=
  with_node
    (fst (controls_action (node v) (name action) (actuation action) false)) v.

(** What every branch of [act] leaves alone. *)
Definition act_untouched (w w' : World) : Prop :=
  arrays w' = arrays w /\
  states w' = states w /\
  agent_config (agent w') = agent_config (agent w) /\
  initial_state (agent w') = initial_state (agent w) /\
  is_valid (body (agent w')) = is_valid (body (agent w)).

(** The acting agent while it holds object 3. *)
Definition holding_world : World :=
  module_world
    (mkAgent acting_config
       [("rgb"%string, CameraSensor (create_child root) rgb_spec)]
       (mkFeature root true) None 3 (Some root)).

(** A caller's state for the example agent with the base at (5, 0, 1), the
    rotation the identity quaternion, and one pose for each name of [names],
    in that order, 2 above the base. *)
Definition make_state_naming (names : list string) : M addr :=
  p <- np_array (mkVector3 5 0 1) ;;
  ps <- np_array (mkVector3 5 2 1) ;;
  state <- AgentState_init (Some p) (Some (RotQuaternion np.one)) ;;
  modify_state state
    (AgentState.with_sensor_states
       (map (fun n => (n, SixDOFPose_init (Some ps) None)) names)) ;;
  ret state.

(** The state names the attached sensor first and then one that is not
    attached. *)
Definition world_known_then_unknown : World :=
  fst (make_state_naming ["rgb"%string; "depth"%string] example_world).

(** The state names a sensor that is not attached first and then the
    attached one. *)
Definition world_unknown_then_known : World :=
  fst (make_state_naming ["depth"%string; "rgb"%string] example_world).

(** The position [i] steps of 0.25 above [p]. *)
Definition raised (p : Vector3) (i : nat) : Vector3 :=
  mkVector3 (vx p) (vy p + 0.25 * INR i) (vz p).

(** The simulator after the object has been moved to the steps [i + 1] to
    [i + n] above [p], one after the other. *)
Fixpoint lifted_from {S : Type} `{Simulator S} (i n : nat) (sim : S)
  (p : Vector3) (id : Z) : S :=
  match n with
  | O => sim
  | Datatypes.S n' =>
      lifted_from (Datatypes.S i) n'
        (set_translation sim (raised p (Datatypes.S i)) id) p id
  end.

(** A simulator that only counts how often an object has been moved; the
    object is in contact until it has been moved twice. *)
#[export] Instance counting_simulator : Simulator nat := {
  crosshair_direction _ := mkVector3 0 0 (-1);
  find_floor_position_under_crosshair _ _ _ := Some vzero;
  get_object_handle _ _ := EmptyString;
  add_object_by_handle s _ := (s, 0%Z);
  set_translation s _ _ := Datatypes.S s;
  contact_test s _ := Nat.ltb s 2;
  update_object_in_scene s _ _ := s;
  get_transformation _ _ := root;
  remove_object s _ := s
}.

(** * Properties *)

(** ** Validity is checked first *)

(** C6: when the body node is no longer valid, each of [reconfigure], [act],
    [get_state] and [set_state] raises InvalidObjectError and leaves the
    world (agent, sensors, store) exactly as it was. *)
Theorem invalid_body_raises_before_mutation
  {S : Type} `{Controls S} `{Simulator S} (w : World) :
  is_valid (body (agent w)) = false ->
  (forall c b, reconfigure c b w = (w, Raise InvalidObjectError)) /\
  (forall fuel id (sim : option S),
      act fuel id sim w = (w, sim, Raise InvalidObjectError)) /\
  get_state w = (w, Raise InvalidObjectError) /\
  (forall state r i ini,
      set_state state r i ini w = (w, Raise InvalidObjectError)).
Proof.
  intro Hv.
  repeat split; intros.
  - unfold reconfigure, bind, get_agent, assert_obj_valid. now rewrite Hv.
  - unfold act. now rewrite Hv.
  - unfold get_state, bind, get_agent, assert_obj_valid. now rewrite Hv.
  - unfold set_state, bind, get_agent, assert_obj_valid. now rewrite Hv.
Qed.

Lemma invalid_body_raises_before_mutation_witness :
  let w := invalidate example_world in
  is_valid (body (agent w)) = false /\
  (forall c b, reconfigure c b w = (w, Raise InvalidObjectError)) /\
  (forall fuel id (sim : option unit),
      act fuel id sim w = (w, sim, Raise InvalidObjectError)) /\
  get_state w = (w, Raise InvalidObjectError) /\
  (forall state r i ini,
      set_state state r i ini w = (w, Raise InvalidObjectError)).
Proof.
  split; [reflexivity |].
  apply (invalid_body_raises_before_mutation (invalidate example_world)).
  reflexivity.
Defined.

(** ** Unknown actions *)

(** C5: on an agent whose body is valid, for an identifier that is not a key
    of the configuration's action space, [act] raises UnknownActionError and
    hands back the world (agent, body node, sensors, store) and the
    simulator exactly as it was given them. *)
Theorem act_unknown_action_no_mutation
  {S : Type} `{Controls S} `{Simulator S}
  (fuel : nat) (action_id : string) (sim : option S) (w : World) :
  is_valid (body (agent w)) = true ->
  dict_get action_id (action_space (agent_config (agent w))) = None ->
  act fuel action_id sim w = (w, sim, Raise UnknownActionError).
Proof.
  intros Hv Hk. unfold act. rewrite Hv, Hk. reflexivity.
Qed.

Lemma act_unknown_action_no_mutation_witness :
  is_valid (body (agent example_world)) = true /\
  dict_get "undefined_action" (action_space (agent_config (agent example_world)))
  = None /\
  act 0 "undefined_action" (Some tt) example_world
  = (example_world, Some tt, Raise UnknownActionError).
Proof.
  split; [reflexivity |]. split; [reflexivity |].
  apply (act_unknown_action_no_mutation 0 "undefined_action" (Some tt)
           example_world); reflexivity.
Defined.

(** ** Reconfiguration *)

Lemma add_sensors_body (specs : list SensorSpec) (w : World) :
  body (agent (fst (add_sensors specs w))) = body (agent w).
Proof.
  revert w. induction specs as [| spec rest IH]; intro w; simpl.
  - reflexivity.
  - unfold bind, scene_node, get_agent, assert_obj_valid, SensorSuite_add,
      modify_agent, bind.
    destruct (is_valid (body (agent w))); simpl.
    + rewrite IH. reflexivity.
    + reflexivity.
Qed.

(** C8: on a valid body, [reconfigure config False] returns normally, the
    stored configuration is [config] afterwards, and the sensors with their
    nodes are as before; and whatever the flag, the body node (the base
    pose) after [reconfigure] is the one before. *)
Theorem reconfigure_keeps_sensors_and_base_pose
  (config : AgentConfiguration) (w : World) :
  is_valid (body (agent w)) = true ->
  (exists w',
     reconfigure config false w = (w', Ok tt) /\
     agent_config (agent w') = config /\
     _sensors (agent w') = _sensors (agent w) /\
     body (agent w') = body (agent w) /\
     initial_state (agent w') = initial_state (agent w) /\
     arrays w' = arrays w /\
     states w' = states w) /\
  forall flag,
    body (agent (fst (reconfigure config flag w))) = body (agent w).
Proof.
  intro Hv.
  assert (E : reconfigure config false w
              = (with_agent (with_agent_config config (agent w)) w, Ok tt)).
  { unfold reconfigure, bind, get_agent, assert_obj_valid. rewrite Hv.
    reflexivity. }
  split.
  { eexists. split; [exact E |]. simpl. repeat split. }
  intros [|]; [| rewrite E; reflexivity].
  unfold reconfigure, bind, get_agent, assert_obj_valid. rewrite Hv. simpl.
  unfold SensorSuite_clear, modify_agent, bind. simpl.
  match goal with
  | |- context [add_sensors ?l ?w0] =>
      pose proof (add_sensors_body l w0) as Hb;
      destruct (add_sensors l w0) as [w1 [u | e]]
  end; simpl in *; exact Hb.
Qed.

Lemma reconfigure_keeps_sensors_and_base_pose_witness :
  is_valid (body (agent displaced_world)) = true /\
  agent_config (agent displaced_world) <> acting_config /\
  (exists w',
     reconfigure acting_config false displaced_world = (w', Ok tt) /\
     agent_config (agent w') = acting_config /\
     _sensors (agent w') = _sensors (agent displaced_world) /\
     body (agent w') = body (agent displaced_world) /\
     initial_state (agent w') = initial_state (agent displaced_world) /\
     arrays w' = arrays displaced_world /\
     states w' = states displaced_world) /\
  forall flag,
    body (agent (fst (reconfigure acting_config flag displaced_world)))
    = body (agent displaced_world).
Proof.
  split; [reflexivity |].
  split; [intro E; apply (f_equal action_space) in E;
          apply (f_equal (@List.length _)) in E; discriminate |].
  apply (reconfigure_keeps_sensors_and_base_pose acting_config displaced_world).
  reflexivity.
Defined.

(** ** Geometry and dictionaries *)

Lemma vector3_eq (a b : Vector3) :
  vx a = vx b -> vy a = vy b -> vz a = vz b -> a = b.
Proof. destruct a, b; simpl; intros; subst; reflexivity. Qed.

Lemma vadd_zero_l (v : Vector3) : vadd vzero v = v.
Proof. apply vector3_eq; simpl; ring. Qed.

Lemma transformVector_identity (v : Vector3) :
  mn.transformVector mn.identity v = v.
Proof. apply vector3_eq; simpl; ring. Qed.

Lemma absolute_translation_root (n : SceneNode) :
  absolute_translation root n = translation n.
Proof.
  unfold absolute_translation, root; simpl.
  rewrite transformVector_identity. apply vadd_zero_l.
Qed.

Lemma mn_mul_identity_r (q : mn.Quaternion) : mn.mul q mn.identity = q.
Proof.
  destruct q as [[a b c] s]. unfold mn.mul, mn.identity; simpl.
  f_equal; [apply vector3_eq; simpl; ring | unfold vdot; simpl; ring].
Qed.

Lemma quat_to_from_magnum (q : mn.Quaternion) :
  quat_to_magnum (quat_from_magnum q) = q.
Proof. destruct q as [[a b c] s]. reflexivity. Qed.

Section DictFacts.

Context {V : Type}.
Implicit Types (d : dict V) (k : string) (v : V).

Lemma dict_get_set_same k v d : dict_get k (dict_set k v d) = Some v.
Proof.
  induction d as [| [k' v'] rest IH]; simpl.
  - now rewrite String.eqb_refl.
  - destruct (String.eqb k k') eqn:E; simpl; rewrite E; [reflexivity | exact IH].
Qed.

Lemma dict_get_set_other k k' v d :
  k' <> k -> dict_get k' (dict_set k v d) = dict_get k' d.
Proof.
  intro Hne. induction d as [| [k0 v0] rest IH]; simpl.
  - destruct (String.eqb k' k) eqn:E; [| reflexivity].
    apply String.eqb_eq in E. contradiction.
  - destruct (String.eqb k k0) eqn:E; simpl.
    + apply String.eqb_eq in E. subst k0.
      destruct (String.eqb k' k) eqn:E'; [| reflexivity].
      apply String.eqb_eq in E'. contradiction.
    + destruct (String.eqb k' k0); [reflexivity | exact IH].
Qed.

Lemma dict_get_In k v d : dict_get k d = Some v -> In (k, v) d.
Proof.
  induction d as [| [k' v'] rest IH]; simpl; [discriminate |].
  destruct (String.eqb k k') eqn:E.
  - apply String.eqb_eq in E. intros [= ->]. left. now subst.
  - intro Hg. right. auto.
Qed.

Lemma dict_get_None k d : dict_get k d = None <-> ~ In k (keys d).
Proof.
  induction d as [| [k' v'] rest IH]; simpl.
  - tauto.
  - destruct (String.eqb k k') eqn:E.
    + apply String.eqb_eq in E. subst. split; [discriminate | tauto].
    + apply String.eqb_neq in E. rewrite IH. split.
      * intros Hn [Hk | Hk]; [congruence | tauto].
      * tauto.
Qed.

Lemma keys_dict_set_present k v d :
  In k (keys d) -> keys (dict_set k v d) = keys d.
Proof.
  induction d as [| [k' v'] rest IH]; simpl; [tauto |].
  destruct (String.eqb k k') eqn:E; simpl; [reflexivity |].
  apply String.eqb_neq in E. intros [Hk | Hk]; [congruence |].
  now rewrite IH.
Qed.

Lemma dict_get_map k (f : V -> V) d :
  dict_get k (map (fun kv => (fst kv, f (snd kv))) d)
  = option_map f (dict_get k d).
Proof.
  induction d as [| [k' v'] rest IH]; simpl; [reflexivity |].
  destruct (String.eqb k k'); [reflexivity | exact IH].
Qed.

End DictFacts.

(** ** Reading the state *)

Lemma get_sensor_states_spec (state : addr) (items : dict Sensor) :
  forall w : World,
    all_sensors_valid items ->
    NoDup (keys items) ->
    exists w',
      get_sensor_states state (rotation (object (body (agent w)))) items w
      = (w', Ok tt) /\
      agent w' = agent w /\
      next_state w' = next_state w /\
      (next_array w <= next_array w')%nat /\
      (forall a, (a < next_array w)%nat -> arrays w' a = arrays w a) /\
      (forall a, a <> state -> states w' a = states w a) /\
      AgentState.position (states w' state)
      = AgentState.position (states w state) /\
      AgentState.rotation (states w' state)
      = AgentState.rotation (states w state) /\
      (forall k, ~ In k (keys items) ->
         dict_get k (AgentState.sensor_states (states w' state))
         = dict_get k (AgentState.sensor_states (states w state))) /\
      (forall k v, In (k, v) items ->
         exists pose,
           dict_get k (AgentState.sensor_states (states w' state)) = Some pose
           /\ arrays w' (SixDOFPose.position pose)
              = absolute_translation (object (body (agent w))) (node v)
           /\ SixDOFPose.rotation pose
              = reported_rotation (object (body (agent w))) v).
Proof.
  induction items as [| [k v] rest IH]; intros w Hvalid Hnd.
  - exists w. simpl. unfold ret.
    repeat split; auto. intros k v [].
  - inversion Hvalid as [| ? ? Hv Hrest]; subst.
    inversion Hnd as [| ? ? Hk Hnd']; subst.
    simpl in Hv.
    set (p := next_array w).
    set (pose := SixDOFPose.mk p (reported_rotation (object (body (agent w))) v)).
    set (w1 :=
           mkWorld
             (fun a' =>
                if Nat.eqb a' p
                then absolute_translation (object (body (agent w))) (node v)
                else arrays w a')
             (S p)
             (fun a' =>
                if Nat.eqb a' state
                then AgentState.with_sensor_states
                       (dict_set k pose (AgentState.sensor_states (states w state)))
                       (states w state)
                else states w a')
             (next_state w) (agent w)).
    destruct (IH w1 Hrest Hnd')
      as (w' & Hrun & Hag & Hns & Hna & Harr & Hst & Hpos & Hrot & Hout & Hin).
    exists w'.
    assert (Estate : states w1 state
                     = AgentState.with_sensor_states
                         (dict_set k pose
                            (AgentState.sensor_states (states w state)))
                         (states w state)).
    { unfold w1; simpl. now rewrite Nat.eqb_refl. }
    split.
    { simpl. unfold bind at 1. unfold assert_obj_valid. rewrite Hv.
      unfold ret at 1. unfold bind at 1. unfold get_agent at 1.
      unfold bind at 1. unfold np_array at 1.
      unfold bind at 1. unfold set_sensor_state, modify_state. simpl.
      exact Hrun. }
    split; [exact Hag |].
    split; [exact Hns |].
    split; [simpl in Hna; unfold p in *; lia |].
    split.
    { intros a Ha. rewrite Harr by (simpl; unfold p; lia).
      unfold w1; simpl.
      destruct (Nat.eqb a p) eqn:E; [| reflexivity].
      apply Nat.eqb_eq in E. unfold p in E. lia. }
    split.
    { intros a Ha. rewrite Hst by exact Ha. unfold w1; simpl.
      destruct (Nat.eqb a state) eqn:E; [| reflexivity].
      apply Nat.eqb_eq in E. contradiction. }
    split; [rewrite Hpos, Estate; reflexivity |].
    split; [rewrite Hrot, Estate; reflexivity |].
    split.
    { intros k' Hk'. simpl in Hk'.
      rewrite Hout by tauto. rewrite Estate. simpl.
      apply dict_get_set_other. intro; subst; tauto. }
    intros k' v' [Heq | Hin'].
    + inversion Heq; subst k' v'. exists pose.
      split.
      { rewrite Hout by exact Hk. rewrite Estate. simpl.
        apply dict_get_set_same. }
      split; [| reflexivity].
      simpl. rewrite Harr by (simpl; lia).
      unfold w1; simpl. now rewrite Nat.eqb_refl.
    + destruct (Hin k' v' Hin') as (pose' & Hg & Ha & Hr).
      exists pose'. repeat split; assumption.
Qed.

Lemma get_state_spec (w : World) :
  is_valid (body (agent w)) = true ->
  all_sensors_valid (_sensors (agent w)) ->
  NoDup (keys (_sensors (agent w))) ->
  exists w',
    get_state w = (w', Ok (next_state w)) /\
    agent w' = agent w /\
    (forall a, (a < next_array w)%nat -> arrays w' a = arrays w a) /\
    (forall a, a <> next_state w -> states w' a = states w a) /\
    arrays w' (AgentState.position (states w' (next_state w)))
    = absolute_translation root (object (body (agent w))) /\
    AgentState.rotation (states w' (next_state w))
    = RotQuaternion (quat_from_magnum (rotation (object (body (agent w))))) /\
    (forall k,
       dict_get k (_sensors (agent w)) = None ->
       dict_get k (AgentState.sensor_states (states w' (next_state w)))
       = None) /\
    (forall k v,
       dict_get k (_sensors (agent w)) = Some v ->
       exists pose,
         dict_get k (AgentState.sensor_states (states w' (next_state w)))
         = Some pose
         /\ arrays w' (SixDOFPose.position pose)
            = absolute_translation (object (body (agent w))) (node v)
         /\ SixDOFPose.rotation pose
            = reported_rotation (object (body (agent w))) v).
Proof.
  intros Hv Hvalid Hnd.
  set (p := next_array w). set (s := next_state w).
  set (st0 :=
         AgentState.mk p
           (RotQuaternion (quat_from_magnum (rotation (object (body (agent w))))))
           AgentState_velocity_default AgentState_angular_velocity_default
           AgentState_force_default AgentState_torque_default []).
  set (w1 :=
         mkWorld
           (fun a' =>
              if Nat.eqb a' p
              then absolute_translation root (object (body (agent w)))
              else arrays w a')
           (S p)
           (fun a' => if Nat.eqb a' s then st0 else states w a')
           (S s) (agent w)).
  destruct (get_sensor_states_spec s (_sensors (agent w)) w1 Hvalid Hnd)
    as (w' & Hrun & Hag & Hns & Hna & Harr & Hst & Hpos & Hrot & Hout & Hin).
  assert (Es : states w1 s = st0) by (unfold w1; simpl; now rewrite Nat.eqb_refl).
  exists w'.
  split.
  { unfold get_state. unfold bind at 1. unfold get_agent at 1.
    unfold bind at 1. unfold assert_obj_valid. rewrite Hv. unfold ret at 1.
    unfold bind at 1. unfold np_array at 1.
    unfold bind at 1. unfold AgentState_init, new_state. simpl.
    unfold bind. fold p s st0. change (agent w) with (agent w1) at 1.
    unfold w1 in Hrun |- *. rewrite Hrun. reflexivity. }
  split; [exact Hag |].
  split.
  { intros a Ha. rewrite Harr by (simpl; unfold p; lia). unfold w1; simpl.
    destruct (Nat.eqb a p) eqn:E; [| reflexivity].
    apply Nat.eqb_eq in E. unfold p in E. lia. }
  split.
  { intros a Ha. rewrite Hst by exact Ha. unfold w1; simpl.
    destruct (Nat.eqb a s) eqn:E; [| reflexivity].
    apply Nat.eqb_eq in E. contradiction. }
  split.
  { fold s. rewrite Hpos, Es. simpl. rewrite Harr by (simpl; lia).
    unfold w1; simpl. now rewrite Nat.eqb_refl. }
  split; [fold s; rewrite Hrot, Es; reflexivity |].
  split.
  { intros k Hk. fold s. rewrite Hout by (apply dict_get_None; exact Hk).
    rewrite Es. reflexivity. }
  intros k v Hk. fold s. apply Hin. apply dict_get_In. exact Hk.
Qed.

(** C2: on a valid agent, [get_state] returns a state in which every
    attached sensor has a pose whose position is the sensor node's absolute
    translation and whose rotation is the body's rotation multiplied on the
    right by the sensor node's own rotation; when that rotation is the
    identity, the pose's rotation is the base rotation reported in the same
    state. *)
Theorem get_state_sensor_pose (w : World) (k : string) (v : Sensor) :
  is_valid (body (agent w)) = true ->
  all_sensors_valid (_sensors (agent w)) ->
  NoDup (keys (_sensors (agent w))) ->
  dict_get k (_sensors (agent w)) = Some v ->
  exists w' state pose,
    get_state w = (w', Ok state) /\
    agent w' = agent w /\
    dict_get k (AgentState.sensor_states (states w' state)) = Some pose /\
    arrays w' (SixDOFPose.position pose)
    = absolute_translation (object (body (agent w))) (node v) /\
    SixDOFPose.rotation pose
    = PoseQuaternion
        (quat_from_magnum
           (mn.mul (rotation (object (body (agent w)))) (rotation (node v)))) /\
    AgentState.rotation (states w' state)
    = RotQuaternion (quat_from_magnum (rotation (object (body (agent w))))) /\
    (rotation (node v) = mn.identity ->
     SixDOFPose.rotation pose
     = PoseQuaternion (quat_from_magnum (rotation (object (body (agent w)))))).
Proof.
  intros Hv Hvalid Hnd Hk.
  destruct (get_state_spec w Hv Hvalid Hnd)
    as (w' & Hrun & Hag & _ & _ & _ & Hrot & _ & Hin).
  destruct (Hin k v Hk) as (pose & Hg & Ha & Hr).
  exists w', (next_state w), pose.
  repeat split; try assumption.
  intro Hid. rewrite Hr. unfold reported_rotation.
  rewrite Hid, mn_mul_identity_r. reflexivity.
Qed.

Lemma example_sensors_valid :
  all_sensors_valid (_sensors (agent example_world)).
Proof. repeat constructor. Defined.

Lemma example_sensors_nodup : NoDup (keys (_sensors (agent example_world))).
Proof. repeat constructor. simpl. tauto. Defined.

Lemma get_state_sensor_pose_witness :
  let w := example_world in
  let v := CameraSensor (create_child root) rgb_spec in
  is_valid (body (agent w)) = true /\
  all_sensors_valid (_sensors (agent w)) /\
  NoDup (keys (_sensors (agent w))) /\
  dict_get "rgb" (_sensors (agent w)) = Some v /\
  exists w' state pose,
    get_state w = (w', Ok state) /\
    agent w' = agent w /\
    dict_get "rgb" (AgentState.sensor_states (states w' state)) = Some pose /\
    arrays w' (SixDOFPose.position pose)
    = absolute_translation (object (body (agent w))) (node v) /\
    SixDOFPose.rotation pose
    = PoseQuaternion
        (quat_from_magnum
           (mn.mul (rotation (object (body (agent w)))) (rotation (node v)))) /\
    AgentState.rotation (states w' state)
    = RotQuaternion (quat_from_magnum (rotation (object (body (agent w))))) /\
    (rotation (node v) = mn.identity ->
     SixDOFPose.rotation pose
     = PoseQuaternion (quat_from_magnum (rotation (object (body (agent w)))))).
Proof.
  split; [reflexivity |].
  split; [exact example_sensors_valid |].
  split; [exact example_sensors_nodup |].
  split; [reflexivity |].
  apply (get_state_sensor_pose example_world "rgb"
           (CameraSensor (create_child root) rgb_spec)).
  - reflexivity.
  - exact example_sensors_valid.
  - exact example_sensors_nodup.
  - reflexivity.
Defined.

(** ** Writing the state *)

Lemma with_rotation_same (s : AgentState.t) (q : np.quaternion) :
  AgentState.rotation s = RotQuaternion q ->
  AgentState.with_rotation (RotQuaternion q) s = s.
Proof. destruct s; simpl; intros ->; reflexivity. Qed.

Lemma set_base_pose_spec (state : addr) (w : World) :
  exists w1,
    set_base_pose state w = (w1, Ok tt) /\
    arrays w1 = arrays w /\
    next_array w1 = next_array w /\
    next_state w1 = next_state w /\
    states w1 state
    = AgentState.with_rotation (RotQuaternion (base_rotation w state))
        (states w state) /\
    (forall a, a <> state -> states w1 a = states w a) /\
    agent w1
    = with_body_object
        (set_rotation (quat_to_magnum (base_rotation w state))
           (translate (base_position w state)
              (reset_transformation (object (body (agent w))))))
        (agent w).
Proof.
  unfold base_rotation, base_position.
  unfold set_base_pose, convert_rotation. unfold bind at 1.
  unfold read_state at 1. unfold bind at 1.
  destruct (AgentState.rotation (states w state)) as [q | c | c] eqn:E.
  - eexists. split.
    { unfold ret at 1. unfold bind, modify_body, modify_agent, state_position,
        state_rotation, read_state, read_array, bind. simpl. rewrite E.
      unfold ret. reflexivity. }
    simpl. repeat split; auto.
    symmetry. apply with_rotation_same. exact E.
  - eexists. split.
    { unfold modify_state at 1.
      unfold bind, modify_body, modify_agent, state_position,
        state_rotation, read_state, read_array, bind. simpl.
      rewrite Nat.eqb_refl. simpl. unfold ret. reflexivity. }
    simpl. rewrite Nat.eqb_refl. repeat split; auto.
    intros a Ha. apply Nat.eqb_neq in Ha. now rewrite Ha.
  - eexists. split.
    { unfold modify_state at 1.
      unfold bind, modify_body, modify_agent, state_position,
        state_rotation, read_state, read_array, bind. simpl.
      rewrite Nat.eqb_refl. simpl. unfold ret. reflexivity. }
    simpl. rewrite Nat.eqb_refl. repeat split; auto.
    intros a Ha. apply Nat.eqb_neq in Ha. now rewrite Ha.
Qed.

Lemma place_sensors_step (state : addr) (k : string) (v : SixDOFPose.t)
  (rest : dict SixDOFPose.t) (w : World) (s : Sensor) (R : np.quaternion) :
  dict_get k (_sensors (agent w)) = Some s ->
  AgentState.rotation (states w state) = RotQuaternion R ->
  place_sensors state ((k, v) :: rest) w
  = place_sensors state rest (sensor_placed state k v s w).
Proof.
  intros Hs HR. simpl. unfold bind at 1. unfold get_agent at 1. rewrite Hs.
  unfold sensor_placed, pose_converted, base_rotation, base_position.
  unfold convert_pose_rotation.
  destruct (SixDOFPose.rotation v) as [q | c] eqn:E.
  - unfold bind, ret, read_array, state_position, state_rotation, read_state,
      modify_agent, bind. simpl. rewrite HR. reflexivity.
  - unfold bind, ret, read_array, state_position, state_rotation, read_state,
      set_sensor_state, modify_state, modify_agent, bind. simpl.
    rewrite Nat.eqb_refl. simpl. rewrite HR. reflexivity.
Qed.

Lemma pose_converted_facts (state : addr) (k : string) (v : SixDOFPose.t)
  (w : World) :
  let w1 := pose_converted state k v w in
  arrays w1 = arrays w /\
  agent w1 = agent w /\
  AgentState.rotation (states w1 state)
  = AgentState.rotation (states w state) /\
  AgentState.position (states w1 state)
  = AgentState.position (states w state) /\
  (forall a, a <> state -> states w1 a = states w a) /\
  (forall k', k' <> k ->
     dict_get k' (AgentState.sensor_states (states w1 state))
     = dict_get k' (AgentState.sensor_states (states w state))) /\
  (dict_get k (AgentState.sensor_states (states w state)) = Some v ->
   dict_get k (AgentState.sensor_states (states w1 state))
   = Some (SixDOFPose.with_rotation
             (PoseQuaternion (pose_quaternion (SixDOFPose.rotation v))) v)).
Proof.
  unfold pose_converted.
  destruct v as [p [q | c]]; simpl.
  - repeat split; auto.
  - rewrite Nat.eqb_refl. simpl. repeat split; auto.
    + intros a Ha. apply Nat.eqb_neq in Ha. now rewrite Ha.
    + intros k' Hk'. now apply dict_get_set_other.
    + intros _. apply dict_get_set_same.
Qed.

Lemma place_sensors_ok (state : addr) (R : np.quaternion)
  (items : dict SixDOFPose.t) :
  forall w : World,
    AgentState.rotation (states w state) = RotQuaternion R ->
    NoDup (keys items) ->
    (forall k, In k (keys items) -> dict_get k (_sensors (agent w)) <> None) ->
    (forall k v, In (k, v) items ->
       dict_get k (AgentState.sensor_states (states w state)) = Some v) ->
    exists w',
      place_sensors state items w = (w', Ok tt) /\
      arrays w' = arrays w /\
      body (agent w') = body (agent w) /\
      initial_state (agent w') = initial_state (agent w) /\
      agent_config (agent w') = agent_config (agent w) /\
      AgentState.rotation (states w' state) = RotQuaternion R /\
      AgentState.position (states w' state)
      = AgentState.position (states w state) /\
      (forall a, a <> state -> states w' a = states w a) /\
      (forall k, ~ In k (keys items) ->
         dict_get k (_sensors (agent w')) = dict_get k (_sensors (agent w))) /\
      (forall k v, In (k, v) items ->
         exists s,
           dict_get k (_sensors (agent w)) = Some s /\
           dict_get k (_sensors (agent w'))
           = Some (with_node
                     (place_node R (base_position w state)
                        (arrays w (SixDOFPose.position v))
                        (pose_quaternion (SixDOFPose.rotation v)) (node s))
                     s)) /\
      (forall k, ~ In k (keys items) ->
         dict_get k (AgentState.sensor_states (states w' state))
         = dict_get k (AgentState.sensor_states (states w state))) /\
      (forall k v, In (k, v) items ->
         dict_get k (AgentState.sensor_states (states w' state))
         = Some (SixDOFPose.with_rotation
                   (PoseQuaternion (pose_quaternion (SixDOFPose.rotation v)))
                   v)).
Proof.
  induction items as [| [k v] rest IH]; intros w HR Hnd Hatt Hposes.
  - exists w. simpl. unfold ret. repeat split; auto; intros ? ? [].
  - inversion Hnd as [| ? ? Hk Hnd']; subst.
    destruct (dict_get k (_sensors (agent w))) as [s |] eqn:Hs;
      [| exfalso; apply (Hatt k); [left; reflexivity | exact Hs]].
    pose proof (pose_converted_facts state k v w)
      as (Harr1 & Hag1 & Hrot1 & Hpos1 & Hst1 & Hss1 & Hssk1).
    set (w1 := sensor_placed state k v s w).
    assert (Ew1 : states w1 = states (pose_converted state k v w))
      by reflexivity.
    assert (Ea1 : arrays w1 = arrays w) by (unfold w1; simpl; exact Harr1).
    assert (Es1 : _sensors (agent w1)
                  = dict_set k
                      (with_node
                         (place_node R (base_position w state)
                            (arrays w (SixDOFPose.position v))
                            (pose_quaternion (SixDOFPose.rotation v)) (node s))
                         s)
                      (_sensors (agent w))).
    { unfold w1, sensor_placed, base_rotation; simpl. rewrite HR. reflexivity. }
    assert (Hne : forall k', In k' (keys rest) -> k' <> k)
      by (intros k' Hin ->; contradiction).
    destruct (IH w1) as
      (w' & Hrun & Harr & Hbody & Hinit & Hcfg & HR' & Hpos' & Hst' & Hout
         & Hin & Hssout & Hssin).
    { rewrite Ew1, Hrot1. exact HR. }
    { exact Hnd'. }
    { intros k' Hk'. rewrite Es1, dict_get_set_other by (apply Hne; exact Hk').
      apply Hatt. right. exact Hk'. }
    { intros k' v' Hin'. rewrite Ew1, Hss1.
      - apply Hposes. right. exact Hin'.
      - apply Hne. apply (in_map fst) in Hin'. exact Hin'. }
    exists w'.
    split; [rewrite (place_sensors_step state k v rest w s R Hs HR); exact Hrun |].
    split; [rewrite Harr; exact Ea1 |].
    split; [rewrite Hbody; reflexivity |].
    split; [rewrite Hinit; reflexivity |].
    split; [rewrite Hcfg; reflexivity |].
    split; [exact HR' |].
    split; [rewrite Hpos', Ew1; exact Hpos1 |].
    split; [intros a Ha; rewrite Hst', Ew1 by exact Ha; apply Hst1; exact Ha |].
    assert (Ebp : base_position w1 state = base_position w state).
    { unfold base_position. rewrite Ea1, Ew1, Hpos1. reflexivity. }
    split.
    { intros k' Hk'. simpl in Hk'. rewrite Hout by tauto. rewrite Es1.
      apply dict_get_set_other. intro; subst; tauto. }
    split.
    { intros k' v' [Heq | Hin'].
      - inversion Heq; subst k' v'. exists s. split; [exact Hs |].
        rewrite Hout by exact Hk. rewrite Es1. apply dict_get_set_same.
      - destruct (Hin k' v' Hin') as (s' & Hg1 & Hg').
        assert (Hk' : k' <> k)
          by (apply Hne; apply (in_map fst) in Hin'; exact Hin').
        exists s'. split.
        + rewrite Es1, dict_get_set_other in Hg1 by exact Hk'. exact Hg1.
        + rewrite Hg', Ebp, Ea1. reflexivity. }
    split.
    { intros k' Hk'. simpl in Hk'. rewrite Hssout by tauto. rewrite Ew1.
      apply Hss1. intro; subst; tauto. }
    intros k' v' [Heq | Hin'].
    + inversion Heq; subst k' v'. rewrite Hssout by exact Hk. rewrite Ew1.
      apply Hssk1. apply Hposes. left. reflexivity.
    + apply Hssin. exact Hin'.
Qed.

Lemma place_sensors_unknown (state : addr) (R : np.quaternion)
  (items : dict SixDOFPose.t) :
  forall w : World,
    AgentState.rotation (states w state) = RotQuaternion R ->
    (exists k, In k (keys items) /\ dict_get k (_sensors (agent w)) = None) ->
    exists w',
      place_sensors state items w = (w', Raise UnknownSensorError) /\
      body (agent w') = body (agent w) /\
      initial_state (agent w') = initial_state (agent w).
Proof.
  induction items as [| [k v] rest IH]; intros w HR (k0 & Hin & Hnone).
  - destruct Hin.
  - destruct (dict_get k (_sensors (agent w))) as [s |] eqn:Hs.
    + rewrite (place_sensors_step state k v rest w s R Hs HR).
      assert (Hk0 : k0 <> k) by (intros ->; congruence).
      pose proof (pose_converted_facts state k v w)
        as (_ & _ & Hrot1 & _).
      destruct (IH (sensor_placed state k v s w)) as (w' & Hrun & Hb & Hi).
      * change (states (sensor_placed state k v s w))
          with (states (pose_converted state k v w)).
        rewrite Hrot1. exact HR.
      * exists k0. split.
        -- destruct Hin as [Heq | Hin]; [simpl in Heq; congruence | exact Hin].
        -- unfold sensor_placed; simpl.
           rewrite dict_get_set_other by exact Hk0. exact Hnone.
      * exists w'. repeat split; assumption.
    + exists w. simpl. unfold bind, get_agent. rewrite Hs.
      repeat split; reflexivity.
Qed.

Lemma NoDup_dict_get {V : Type} (d : dict V) (k : string) (v : V) :
  NoDup (keys d) -> In (k, v) d -> dict_get k d = Some v.
Proof.
  induction d as [| [k' v'] rest IH]; simpl; intros Hnd Hin; [contradiction |].
  inversion Hnd as [| ? ? Hk Hnd']; subst.
  destruct Hin as [Heq | Hin].
  - inversion Heq; subst. now rewrite String.eqb_refl.
  - destruct (String.eqb k k') eqn:E.
    + apply String.eqb_eq in E. subst k'. exfalso. apply Hk.
      apply (in_map fst) in Hin. exact Hin.
    + auto.
Qed.

(** The first four steps of [set_state]: the base pose and the reset pass. *)
Lemma set_state_base_and_reset (state : addr) (reset_sensors : bool)
  (w : World) :
  exists w2,
    (set_base_pose state ;; when reset_sensors reset_all_sensors) w
    = (w2, Ok tt) /\
    arrays w2 = arrays w /\
    states w2 state
    = AgentState.with_rotation (RotQuaternion (base_rotation w state))
        (states w state) /\
    (forall a, a <> state -> states w2 a = states w a) /\
    agent w2
    = with_sensors (sensors_after_reset reset_sensors (_sensors (agent w)))
        (with_body_object (base_node w state) (agent w)).
Proof.
  destruct (set_base_pose_spec state w)
    as (w1 & Hrun & Harr & _ & _ & Hst & Hother & Hag).
  unfold bind. rewrite Hrun.
  destruct reset_sensors; simpl.
  - eexists. split; [reflexivity |]. simpl.
    repeat split; auto. rewrite Hag. reflexivity.
  - exists w1. split; [reflexivity |].
    repeat split; auto.
Qed.

Lemma bind_assoc {A B C : Type} (m : M A) (f : A -> M B) (g : B -> M C)
  (w : World) :
  bind (bind m f) g w = bind m (fun a => bind (f a) g) w.
Proof.
  unfold bind. destruct (m w) as [w1 [a | e]]; reflexivity.
Qed.

Lemma set_state_unfold (state : addr) (reset infer ini : bool) (w w2 : World) :
  is_valid (body (agent w)) = true ->
  (set_base_pose state ;; when reset reset_all_sensors) w = (w2, Ok tt) ->
  set_state state reset infer ini w
  = (when (negb infer)
       (s <- read_state state ;;
        place_sensors state (AgentState.sensor_states s)) ;;
     when ini (modify_agent (with_initial_state (Some state)))) w2.
Proof.
  intros Hv Hrun. unfold set_state.
  unfold bind at 1. unfold get_agent at 1.
  unfold bind at 1. unfold assert_obj_valid. rewrite Hv. unfold ret at 1.
  rewrite <- bind_assoc. unfold bind at 1. rewrite Hrun. reflexivity.
Qed.

(** ** Explicit sensor placement *)


Lemma world_with_state_nodup :
  NoDup (keys (AgentState.sensor_states (states world_with_state 0%nat))).
Proof. simpl. repeat constructor. simpl. tauto. Defined.

Lemma world_with_state_attached :
  forall k,
    In k (keys (AgentState.sensor_states (states world_with_state 0%nat))) ->
    dict_get k (_sensors (agent world_with_state)) <> None.
Proof. simpl. intros k [<- | []]. discriminate. Defined.

(** ** A sensor that is not attached *)

(** C4: on a valid agent, [set_state] with [infer_sensor_states] false, given
    a state that names a sensor which is not attached, raises
    UnknownSensorError, and the body node in the world it leaves behind is
    the one the base-pose steps produced: reset, translated by
    [state.position], rotated to [state.rotation]. *)
Theorem set_state_unknown_sensor_keeps_base_pose
  (state : addr) (reset_sensors is_initial : bool) (w : World) (k : string) :
  is_valid (body (agent w)) = true ->
  In k (keys (AgentState.sensor_states (states w state))) ->
  dict_get k (_sensors (agent w)) = None ->
  exists w',
    set_state state reset_sensors false is_initial w
    = (w', Raise UnknownSensorError) /\
    object (body (agent w'))
    = set_rotation (quat_to_magnum (base_rotation w state))
        (translate (base_position w state)
           (reset_transformation (object (body (agent w))))).
Proof.
  intros Hv Hin Hnone.
  destruct (set_state_base_and_reset state reset_sensors w)
    as (w2 & Hrun2 & Harr2 & Hst2 & Hother2 & Hag2).
  rewrite (set_state_unfold state reset_sensors false is_initial w w2 Hv Hrun2).
  destruct (place_sensors_unknown state (base_rotation w state)
              (AgentState.sensor_states (states w2 state)) w2)
    as (w3 & Hrun3 & Hbody3 & _).
  { rewrite Hst2. reflexivity. }
  { exists k. split.
    - rewrite Hst2. exact Hin.
    - rewrite Hag2. simpl. unfold sensors_after_reset.
      destruct reset_sensors; [| exact Hnone].
      rewrite dict_get_map, Hnone. reflexivity. }
  exists w3. split.
  - simpl. unfold bind at 1. unfold bind at 1. unfold read_state at 1.
    rewrite Hrun3. reflexivity.
  - rewrite Hbody3, Hag2. reflexivity.
Qed.

Lemma set_state_unknown_sensor_keeps_base_pose_witness :
  let w := world_with_unknown_sensor in
  let state := 0%nat in
  is_valid (body (agent w)) = true /\
  In "depth"%string (keys (AgentState.sensor_states (states w state))) /\
  dict_get "depth" (_sensors (agent w)) = None /\
  exists w',
    set_state state true false false w = (w', Raise UnknownSensorError) /\
    object (body (agent w'))
    = set_rotation (quat_to_magnum (base_rotation w state))
        (translate (base_position w state)
           (reset_transformation (object (body (agent w))))).
Proof.
  split; [reflexivity |].
  split; [simpl; tauto |].
  split; [reflexivity |].
  apply (set_state_unknown_sensor_keeps_base_pose 0%nat true false
           world_with_unknown_sensor "depth").
  - reflexivity.
  - simpl. tauto.
  - reflexivity.
Defined.

(** ** Reading a state and writing it back *)

Lemma set_state_default (state : addr) (w : World) :
  is_valid (body (agent w)) = true ->
  exists w2,
    set_state state true true false w = (w2, Ok tt) /\
    arrays w2 = arrays w /\
    next_array w2 = next_array w /\
    next_state w2 = next_state w /\
    agent w2
    = with_sensors (sensors_after_reset true (_sensors (agent w)))
        (with_body_object (base_node w state) (agent w)).
Proof.
  intro Hv.
  destruct (set_base_pose_spec state w)
    as (w1 & Hrun & Harr & Hna & Hns & _ & _ & Hag).
  eexists. split.
  { apply (set_state_unfold state true true false w _ Hv).
    unfold bind. rewrite Hrun. reflexivity. }
  simpl. rewrite Harr, Hna, Hns, Hag. repeat split.
Qed.

Lemma base_node_of_read_pose (n : SceneNode) :
  set_rotation (quat_to_magnum (quat_from_magnum (rotation n)))
    (translate (absolute_translation root n) (reset_transformation n))
  = n.
Proof.
  rewrite quat_to_from_magnum, absolute_translation_root.
  unfold set_rotation, translate, reset_transformation; simpl.
  rewrite vadd_zero_l. destruct n; reflexivity.
Qed.

Lemma reset_sensors_at_default (d : dict Sensor) :
  (forall k s, In (k, s) d -> set_transformation_from_spec s = s) ->
  sensors_after_reset true d = d.
Proof.
  intro Hd. unfold sensors_after_reset.
  rewrite <- (map_id d) at 2. apply map_ext_in.
  intros [k s] Hin. simpl. rewrite (Hd k s Hin). reflexivity.
Qed.

(** C3 as stated fails: the sensor of [displaced_world] is read at
    (0, 2, 0); after [set_state(get_state())] with the default flags it is
    read at (0, 1.5, 0), the position of its specification. *)
Lemma set_state_of_get_state_resets_displaced_sensor :
  exists w1 state w2 w3 state' pose pose',
    get_state displaced_world = (w1, Ok state) /\
    set_state state true true false w1 = (w2, Ok tt) /\
    get_state w2 = (w3, Ok state') /\
    dict_get "rgb" (AgentState.sensor_states (states w1 state)) = Some pose /\
    dict_get "rgb" (AgentState.sensor_states (states w3 state')) = Some pose' /\
    arrays w1 (SixDOFPose.position pose) = mkVector3 0 2 0 /\
    arrays w3 (SixDOFPose.position pose') = mkVector3 0 1.5 0 /\
    arrays w3 (SixDOFPose.position pose')
    <> arrays w1 (SixDOFPose.position pose).
Proof.
  assert (Hvalid : all_sensors_valid (_sensors (agent displaced_world)))
    by (repeat constructor).
  assert (Hnd : NoDup (keys (_sensors (agent displaced_world))))
    by (repeat constructor; simpl; tauto).
  destruct (get_state_spec displaced_world eq_refl Hvalid Hnd)
    as (w1 & Hrun1 & Hag1 & _ & _ & Hpos1 & Hrot1 & _ & Hsome1).
  assert (Hv1 : is_valid (body (agent w1)) = true) by (rewrite Hag1; reflexivity).
  destruct (set_state_default (next_state displaced_world) w1 Hv1)
    as (w2 & Hrun2 & _ & _ & _ & Hag2).
  assert (Es2 : _sensors (agent w2)
                = [("rgb"%string, set_transformation_from_spec
                                    (mkSensor (mkSceneNode (mkVector3 0 2 0)
                                                 mn.identity) rgb_spec true))])
    by (rewrite Hag2, Hag1; reflexivity).
  assert (Eb2 : object (body (agent w2)) = root).
  { rewrite Hag2, Hag1. unfold base_node, base_rotation, base_position.
    rewrite Hrot1, Hpos1. simpl rotation_quaternion.
    apply (base_node_of_read_pose root). }
  destruct (get_state_spec w2) as
    (w3 & Hrun3 & _ & _ & _ & _ & _ & _ & Hsome3).
  { rewrite Hag2, Hag1. reflexivity. }
  { rewrite Es2. repeat constructor. }
  { rewrite Es2. repeat constructor. simpl. tauto. }
  destruct (Hsome1 "rgb"%string _ eq_refl) as (p1 & Hg1 & Ha1 & _).
  destruct (Hsome3 "rgb"%string
              (set_transformation_from_spec
                 (mkSensor (mkSceneNode (mkVector3 0 2 0) mn.identity)
                    rgb_spec true)))
    as (p3 & Hg3 & Ha3 & _).
  { rewrite Es2. reflexivity. }
  assert (E1 : arrays w1 (SixDOFPose.position p1) = mkVector3 0 2 0).
  { rewrite Ha1. apply (absolute_translation_root
                          (mkSceneNode (mkVector3 0 2 0) mn.identity)). }
  assert (E3 : arrays w3 (SixDOFPose.position p3) = mkVector3 0 1.5 0).
  { rewrite Ha3, Eb2, absolute_translation_root. simpl.
    apply vector3_eq; simpl; lra. }
  exists w1, (next_state displaced_world), w2, w3, (next_state w2), p1, p3.
  repeat split; try assumption.
  rewrite E1, E3. intro Heq. inversion Heq. lra.
Qed.

(** ** Rotations given as coefficients *)

Lemma norm_nonneg (q : np.quaternion) : 0 <= np.norm q.
Proof. unfold np.norm. nra. Qed.

Lemma norm_scale (k : R) (q : np.quaternion) :
  np.norm (np.scale k q) = k * k * np.norm q.
Proof. unfold np.norm, np.scale; simpl. ring. Qed.

Lemma norm_of_nonzero_coeffs (c : Coeffs) :
  c <> mkCoeffs 0 0 0 0 ->
  0 < np.norm (np.mkquaternion (c3 c) (c0 c) (c1 c) (c2 c)).
Proof.
  intro Hc. destruct c as [a0 a1 a2 a3]. unfold np.norm; simpl.
  destruct (Req_dec a0 0) as [E0 | N0]; [| nra].
  destruct (Req_dec a1 0) as [E1 | N1]; [| nra].
  destruct (Req_dec a2 0) as [E2 | N2]; [| nra].
  destruct (Req_dec a3 0) as [E3 | N3]; [| nra].
  subst. contradiction Hc. reflexivity.
Qed.

Lemma quat_from_coeffs_unit (c : Coeffs) :
  c <> mkCoeffs 0 0 0 0 -> np.abs (quat_from_coeffs c) = 1.
Proof.
  intro Hc. pose proof (norm_of_nonzero_coeffs c Hc) as Hn.
  unfold quat_from_coeffs, np.abs.
  set (q := np.mkquaternion (c3 c) (c0 c) (c1 c) (c2 c)) in *.
  rewrite norm_scale.
  assert (Hs : 0 < sqrt (np.norm q)) by (apply sqrt_lt_R0; exact Hn).
  assert (Hss : sqrt (np.norm q) * sqrt (np.norm q) = np.norm q)
    by (apply sqrt_sqrt; lra).
  replace (/ sqrt (np.norm q) * / sqrt (np.norm q) * np.norm q) with 1.
  - apply sqrt_1.
  - rewrite <- Hss at 3. field. lra.
Qed.

Lemma place_sensors_frame (state : addr) (R : np.quaternion)
  (items : dict SixDOFPose.t) :
  forall w : World,
    AgentState.rotation (states w state) = RotQuaternion R ->
    body (agent (fst (place_sensors state items w))) = body (agent w) /\
    AgentState.rotation (states (fst (place_sensors state items w)) state)
    = RotQuaternion R.
Proof.
  induction items as [| [k v] rest IH]; intros w HR.
  - simpl. split; [reflexivity | exact HR].
  - destruct (dict_get k (_sensors (agent w))) as [s |] eqn:Hs.
    + rewrite (place_sensors_step state k v rest w s R Hs HR).
      pose proof (pose_converted_facts state k v w) as (_ & _ & Hrot1 & _).
      destruct (IH (sensor_placed state k v s w)) as (Hb & Hr).
      * change (states (sensor_placed state k v s w))
          with (states (pose_converted state k v w)).
        rewrite Hrot1. exact HR.
      * split; [rewrite Hb; reflexivity | exact Hr].
    + simpl. unfold bind, get_agent. rewrite Hs. simpl.
      split; [reflexivity | exact HR].
Qed.

(** Whatever the flags, a call on a valid body ends with the body node at
    the base pose and [state.rotation] a quaternion. *)
Lemma set_state_base_pose (state : addr) (reset infer ini : bool) (w : World) :
  is_valid (body (agent w)) = true ->
  exists w' r,
    set_state state reset infer ini w = (w', r) /\
    object (body (agent w')) = base_node w state /\
    AgentState.rotation (states w' state)
    = RotQuaternion (base_rotation w state).
Proof.
  intro Hv.
  destruct (set_state_base_and_reset state reset w)
    as (w2 & Hrun2 & _ & Hst2 & _ & Hag2).
  rewrite (set_state_unfold state reset infer ini w w2 Hv Hrun2).
  assert (HR2 : AgentState.rotation (states w2 state)
                = RotQuaternion (base_rotation w state))
    by (rewrite Hst2; reflexivity).
  assert (Hb2 : object (body (agent w2)) = base_node w state)
    by (rewrite Hag2; reflexivity).
  assert (Hmid : exists w3 r3,
             when (negb infer)
               (s <- read_state state ;;
                place_sensors state (AgentState.sensor_states s)) w2
             = (w3, r3)
             /\ object (body (agent w3)) = base_node w state
             /\ AgentState.rotation (states w3 state)
                = RotQuaternion (base_rotation w state)).
  { destruct infer; simpl.
    - exists w2, (Ok tt). repeat split; assumption.
    - unfold bind, read_state.
      pose proof (place_sensors_frame state (base_rotation w state)
                    (AgentState.sensor_states (states w2 state)) w2 HR2)
        as (Hb & Hr).
      destruct (place_sensors state (AgentState.sensor_states (states w2 state))
                  w2) as [w3 r3].
      simpl in Hb, Hr. exists w3, r3.
      split; [reflexivity |]. split; [rewrite Hb; exact Hb2 | exact Hr]. }
  destruct Hmid as (w3 & r3 & Hrun3 & Hb3 & Hr3).
  unfold bind at 1. rewrite Hrun3.
  destruct r3 as [[] | e].
  - destruct ini; simpl.
    + eexists _, _. split; [reflexivity |]. simpl. split; assumption.
    + exists w3, (Ok tt). repeat split; assumption.
  - exists w3, (Raise e). repeat split; assumption.
Qed.

(** C7: when [state.rotation] arrives as a list or an array of coefficients
    that are not all zero, [set_state] on a valid body, whatever its flags,
    gives the body node the rotation [quat_from_coeffs] makes of them, which
    has length 1, and leaves that quaternion in [state.rotation]. *)
Theorem set_state_normalizes_coefficients
  (state : addr) (reset_sensors infer_sensor_states is_initial : bool)
  (w : World) (c : Coeffs) :
  is_valid (body (agent w)) = true ->
  AgentState.rotation (states w state) = RotList c
  \/ AgentState.rotation (states w state) = RotArray c ->
  c <> mkCoeffs 0 0 0 0 ->
  exists w' r q,
    set_state state reset_sensors infer_sensor_states is_initial w = (w', r) /\
    rotation (object (body (agent w'))) = quat_to_magnum q /\
    AgentState.rotation (states w' state) = RotQuaternion q /\
    q = quat_from_coeffs c /\
    np.abs q = 1.
Proof.
  intros Hv Hrot Hc.
  destruct (set_state_base_pose state reset_sensors infer_sensor_states
              is_initial w Hv) as (w' & r & Hrun & Hb & Hr).
  assert (E : base_rotation w state = quat_from_coeffs c)
    by (unfold base_rotation; destruct Hrot as [-> | ->]; reflexivity).
  exists w', r, (quat_from_coeffs c).
  split; [exact Hrun |].
  split; [rewrite Hb; unfold base_node; rewrite E; reflexivity |].
  split; [rewrite Hr, E; reflexivity |].
  split; [reflexivity | apply quat_from_coeffs_unit; exact Hc].
Qed.

Lemma identity_coeffs_nonzero : identity_coeffs <> mkCoeffs 0 0 0 0.
Proof. intro H. inversion H. lra. Defined.

Lemma set_state_normalizes_coefficients_witness :
  let w := world_with_state in
  let state := 0%nat in
  let c := identity_coeffs in
  is_valid (body (agent w)) = true /\
  AgentState.rotation (states w state) = RotList c /\
  c <> mkCoeffs 0 0 0 0 /\
  exists w' r q,
    set_state state true true false w = (w', r) /\
    rotation (object (body (agent w'))) = quat_to_magnum q /\
    AgentState.rotation (states w' state) = RotQuaternion q /\
    q = quat_from_coeffs c /\
    np.abs q = 1.
Proof.
  split; [reflexivity |].
  split; [reflexivity |].
  split; [exact identity_coeffs_nonzero |].
  apply (set_state_normalizes_coefficients 0%nat true true false
           world_with_state identity_coeffs).
  - reflexivity.
  - left. reflexivity.
  - exact identity_coeffs_nonzero.
Defined.

(** ** Defaults of the state classes *)

(** C9 fails on the code: two [AgentState] built with no argument hold the
    same position array, so after [s1.position[0] = 1] the array of the
    other state, which held (0, 0, 0), holds (1, 0, 0). *)
Theorem AgentState_default_position_is_shared :
  exists w' s1 s2,
    two_default_states_one_written example_world = (w', Ok (s1, s2)) /\
    s1 <> s2 /\
    AgentState.position (states w' s1) = AgentState.position (states w' s2) /\
    arrays example_world (AgentState.position (states w' s2))
    = mkVector3 0 0 0 /\
    arrays w' (AgentState.position (states w' s2)) = mkVector3 1 0 0.
Proof.
  eexists _, 0%nat, 1%nat.
  split; [reflexivity |].
  split; [discriminate |].
  repeat split.
Qed.

(** ** What [set_state] does to its argument *)




(** * Further properties *)

(** ** Quaternion algebra *)

Lemma quaternion_eq (p q : np.quaternion) :
  np.w p = np.w q -> np.x p = np.x q -> np.y p = np.y q -> np.z p = np.z q ->
  p = q.
Proof. destruct p, q; simpl; intros; subst; reflexivity. Qed.

Lemma transformVector_conjugation (q : np.quaternion) (v : Vector3) :
  mn.transformVector (quat_to_magnum q) v
  = vadd (np.imag (np.mul (np.mul q (np.of_imag v)) (np.conjugate q)))
         (vscale (1 - np.norm q) v).
Proof.
  destruct q as [w x y z], v as [a b c].
  apply vector3_eq; unfold np.norm; simpl; ring.
Qed.

Lemma inverse_unit (q : np.quaternion) :
  np.norm q = 1 -> np.inverse q = np.conjugate q.
Proof.
  intro Hn. unfold np.inverse. rewrite Hn.
  apply quaternion_eq; simpl; field.
Qed.

Lemma norm_conjugate (q : np.quaternion) : np.norm (np.conjugate q) = np.norm q.
Proof. unfold np.norm; simpl. ring. Qed.

Lemma conjugate_involutive (q : np.quaternion) :
  np.conjugate (np.conjugate q) = q.
Proof. apply quaternion_eq; simpl; ring. Qed.

Lemma conjugate_transform_conjugate (q : np.quaternion) (t : Vector3) :
  np.imag (np.mul (np.mul (np.conjugate q)
                     (np.of_imag (mn.transformVector (quat_to_magnum q) t)))
             q)
  = vadd (vscale (np.norm q * np.norm q) t)
         (vscale (1 - np.norm q)
            (np.imag (np.mul (np.mul (np.conjugate q) (np.of_imag t)) q))).
Proof.
  destruct q as [w x y z], t as [a b c].
  apply vector3_eq; unfold np.norm; simpl; ring.
Qed.

Lemma transform_conjugate (q : np.quaternion) (d : Vector3) :
  mn.transformVector (quat_to_magnum q)
    (np.imag (np.mul (np.mul (np.conjugate q) (np.of_imag d)) q))
  = vadd (vscale (np.norm q * np.norm q) d)
         (vscale (1 - np.norm q)
            (np.imag (np.mul (np.mul (np.conjugate q) (np.of_imag d)) q))).
Proof.
  destruct q as [w x y z], d as [a b c].
  apply vector3_eq; unfold np.norm; simpl; ring.
Qed.

Lemma rotate_by_inverse_unit (q : np.quaternion) (v : Vector3) :
  np.norm q = 1 ->
  quat_rotate_vector (np.inverse q) v
  = np.imag (np.mul (np.mul (np.conjugate q) (np.of_imag v)) q).
Proof.
  intro Hn. unfold quat_rotate_vector.
  rewrite (inverse_unit q Hn).
  rewrite (inverse_unit (np.conjugate q)) by (rewrite norm_conjugate; exact Hn).
  rewrite conjugate_involutive. reflexivity.
Qed.

Lemma rotate_back_transform (q : np.quaternion) (t : Vector3) :
  np.norm q = 1 ->
  quat_rotate_vector (np.inverse q) (mn.transformVector (quat_to_magnum q) t)
  = t.
Proof.
  intro Hn. rewrite (rotate_by_inverse_unit q _ Hn).
  rewrite conjugate_transform_conjugate, Hn.
  apply vector3_eq; simpl; ring.
Qed.

Lemma transform_rotate_back (q : np.quaternion) (d : Vector3) :
  np.norm q = 1 ->
  mn.transformVector (quat_to_magnum q) (quat_rotate_vector (np.inverse q) d)
  = d.
Proof.
  intro Hn. rewrite (rotate_by_inverse_unit q _ Hn).
  rewrite transform_conjugate, Hn.
  apply vector3_eq; simpl; ring.
Qed.

Lemma mul_inverse_l (q v : np.quaternion) :
  np.norm q <> 0 -> np.mul (np.inverse q) (np.mul q v) = v.
Proof.
  intro Hn. destruct q as [w x y z], v as [a b c d].
  unfold np.norm in Hn. simpl in Hn.
  apply quaternion_eq; simpl; unfold np.norm; simpl; field; exact Hn.
Qed.

Lemma mul_inverse_r (q v : np.quaternion) :
  np.norm q <> 0 -> np.mul q (np.mul (np.inverse q) v) = v.
Proof.
  intro Hn. destruct q as [w x y z], v as [a b c d].
  unfold np.norm in Hn. simpl in Hn.
  apply quaternion_eq; simpl; unfold np.norm; simpl; field; exact Hn.
Qed.

Lemma quat_from_magnum_mul (a b : mn.Quaternion) :
  quat_from_magnum (mn.mul a b)
  = np.mul (quat_from_magnum a) (quat_from_magnum b).
Proof.
  destruct a as [[ax ay az] aw], b as [[bx b_y bz] bw].
  apply quaternion_eq; simpl; unfold vdot; simpl; ring.
Qed.

Lemma quat_from_to_magnum (q : np.quaternion) :
  quat_from_magnum (quat_to_magnum q) = q.
Proof. destruct q. reflexivity. Qed.

(** ** Reconfiguring the sensors *)

Lemma dict_set_absent {V : Type} (k : string) (v : V) (d : dict V) :
  dict_get k d = None -> dict_set k v d = d ++ [(k, v)].
Proof.
  induction d as [| [k' v'] rest IH]; simpl; [reflexivity |].
  destruct (String.eqb k k'); [discriminate |].
  intro Hg. now rewrite IH.
Qed.

Lemma find_snoc {A : Type} (p : A -> bool) (l : list A) (a : A) :
  find p (l ++ [a])
  = match find p l with
    | Some x => Some x
    | None => if p a then Some a else None
    end.
Proof.
  induction l as [| b l IH]; simpl; [reflexivity |].
  destruct (p b); [reflexivity | exact IH].
Qed.

Lemma add_sensors_run (specs : list SensorSpec) (a : Agent) (w : World) :
  is_valid (body a) = true ->
  forall d,
    add_sensors specs (with_agent (with_sensors d a) w)
    = (with_agent
         (with_sensors
            (fold_left
               (fun d' spec =>
                  dict_set (uuid spec)
                    (CameraSensor (create_child (object (body a))) spec) d')
               specs d)
            a)
         w,
       Ok tt).
Proof.
  intro Hv. induction specs as [| spec rest IH]; intro d; simpl.
  - reflexivity.
  - unfold bind at 1. unfold scene_node. unfold bind at 1. unfold get_agent.
    unfold bind at 1. unfold assert_obj_valid. simpl. rewrite Hv.
    unfold ret at 1. unfold ret at 1.
    unfold bind at 1. unfold SensorSuite_add, modify_agent. simpl.
    exact (IH _).
Qed.

Lemma reconfigure_run (config : AgentConfiguration) (w : World) :
  is_valid (body (agent w)) = true ->
  reconfigure config true w
  = (with_agent
       (with_sensors
          (fold_left
             (fun d' spec =>
                dict_set (uuid spec)
                  (CameraSensor (create_child (object (body (agent w)))) spec)
                  d')
             (sensor_specifications config) [])
          (with_agent_config config (agent w)))
       w,
     Ok tt).
Proof.
  intro Hv. unfold reconfigure, bind, get_agent, assert_obj_valid.
  rewrite Hv. simpl. unfold SensorSuite_clear, modify_agent. simpl.
  exact (add_sensors_run (sensor_specifications config)
           (with_agent_config config (agent w)) w Hv []).
Qed.

Lemma dict_get_fold_sensors (parent : SceneNode) (specs : list SensorSpec)
  (k : string) :
  forall d,
    dict_get k
      (fold_left
         (fun d' spec =>
            dict_set (uuid spec) (CameraSensor (create_child parent) spec) d')
         specs d)
    = match configured_sensor parent specs k with
      | Some s => Some s
      | None => dict_get k d
      end.
Proof.
  unfold configured_sensor.
  induction specs as [| spec rest IH]; intro d; simpl; [reflexivity |].
  rewrite IH, find_snoc.
  destruct (find (fun spec0 => String.eqb k (uuid spec0)) (rev rest));
    [reflexivity |].
  destruct (String.eqb k (uuid spec)) eqn:E; simpl.
  - apply String.eqb_eq in E. subst k. apply dict_get_set_same.
  - apply String.eqb_neq in E. apply dict_get_set_other. exact E.
Qed.

(** X1: on a valid body, [reconfigure config True] returns normally, stores
    the configuration, leaves the body node, the initial state and the
    store alone, and attaches under each name the sensor made from the last
    specification of that name; a name without a specification is not
    attached any more, whatever was attached before. *)
Theorem reconfigure_attaches_configured_sensors
  (config : AgentConfiguration) (w : World) :
  is_valid (body (agent w)) = true ->
  exists w',
    reconfigure config true w = (w', Ok tt) /\
    agent_config (agent w') = config /\
    body (agent w') = body (agent w) /\
    initial_state (agent w') = initial_state (agent w) /\
    arrays w' = arrays w /\
    states w' = states w /\
    forall k,
      dict_get k (_sensors (agent w'))
      = configured_sensor (object (body (agent w)))
          (sensor_specifications config) k.
Proof.
  intro Hv. eexists. split; [apply reconfigure_run; exact Hv |].
  simpl. repeat split.
  intro k. rewrite dict_get_fold_sensors. simpl.
  destruct (configured_sensor _ _ k); reflexivity.
Qed.

Lemma reconfigure_attaches_configured_sensors_witness :
  is_valid (body (agent displaced_world)) = true /\
  exists w',
    reconfigure example_config true displaced_world = (w', Ok tt) /\
    agent_config (agent w') = example_config /\
    body (agent w') = body (agent displaced_world) /\
    initial_state (agent w') = initial_state (agent displaced_world) /\
    arrays w' = arrays displaced_world /\
    states w' = states displaced_world /\
    forall k,
      dict_get k (_sensors (agent w'))
      = configured_sensor (object (body (agent displaced_world)))
          (sensor_specifications example_config) k.
Proof.
  split; [reflexivity |].
  apply (reconfigure_attaches_configured_sensors example_config
           displaced_world).
  reflexivity.
Defined.

Lemma fold_sensors_in_order (parent : SceneNode) (specs : list SensorSpec) :
  NoDup (map uuid specs) ->
  forall d,
    (forall spec, In spec specs -> dict_get (uuid spec) d = None) ->
    fold_left
      (fun d' spec =>
         dict_set (uuid spec) (CameraSensor (create_child parent) spec) d')
      specs d
    = d ++ map (fun spec => (uuid spec, CameraSensor (create_child parent) spec))
             specs.
Proof.
  induction specs as [| spec rest IH]; intros Hnd d Hd; simpl.
  - now rewrite app_nil_r.
  - inversion Hnd as [| ? ? Hk Hnd']; subst.
    rewrite dict_set_absent by (apply Hd; left; reflexivity).
    rewrite IH; [now rewrite <- app_assoc | exact Hnd' |].
    intros spec' Hin.
    assert (Hne : uuid spec' <> uuid spec).
    { intro E. apply Hk. rewrite <- E. apply in_map. exact Hin. }
    rewrite <- (dict_set_absent (uuid spec)
                  (CameraSensor (create_child parent) spec) d)
      by (apply Hd; left; reflexivity).
    rewrite dict_get_set_other by exact Hne.
    apply Hd. right. exact Hin.
Qed.

(** X2: when the specifications of the configuration have distinct names,
    the sensors after [reconfigure config True] are exactly one per
    specification, in the order of the list, each filed under the name of
    its specification. *)
Theorem reconfigure_sensors_in_list_order
  (config : AgentConfiguration) (w : World) :
  is_valid (body (agent w)) = true ->
  NoDup (map uuid (sensor_specifications config)) ->
  _sensors (agent (fst (reconfigure config true w)))
  = map (fun spec =>
           (uuid spec,
            CameraSensor (create_child (object (body (agent w)))) spec))
      (sensor_specifications config).
Proof.
  intros Hv Hnd. rewrite (reconfigure_run config w Hv). simpl.
  rewrite fold_sensors_in_order; [reflexivity | exact Hnd |].
  reflexivity.
Qed.

Lemma reconfigure_sensors_in_list_order_witness :
  is_valid (body (agent displaced_world)) = true /\
  NoDup (map uuid (sensor_specifications example_config)) /\
  _sensors (agent (fst (reconfigure example_config true displaced_world)))
  = map (fun spec =>
           (uuid spec,
            CameraSensor (create_child (object (body (agent displaced_world))))
              spec))
      (sensor_specifications example_config).
Proof.
  split; [reflexivity |].
  split; [simpl; repeat constructor; simpl; tauto |].
  apply (reconfigure_sensors_in_list_order example_config displaced_world).
  - reflexivity.
  - simpl. repeat constructor. simpl. tauto.
Defined.

Lemma keys_dict_set {V : Type} (k : string) (v : V) (d : dict V) :
  keys (dict_set k v d) = keys d \/ keys (dict_set k v d) = keys d ++ [k].
Proof.
  destruct (dict_get k d) eqn:E.
  - left. apply keys_dict_set_present.
    apply dict_get_In in E. apply (in_map fst) in E. exact E.
  - right. rewrite dict_set_absent by exact E. unfold keys.
    now rewrite map_app.
Qed.

Lemma NoDup_keys_dict_set {V : Type} (k : string) (v : V) (d : dict V) :
  NoDup (keys d) -> NoDup (keys (dict_set k v d)).
Proof.
  intro Hnd. destruct (dict_get k d) eqn:E.
  - rewrite keys_dict_set_present; [exact Hnd |].
    apply dict_get_In in E. apply (in_map fst) in E. exact E.
  - rewrite dict_set_absent by exact E. unfold keys. rewrite map_app. simpl.
    apply NoDup_app; [exact Hnd | repeat constructor; simpl; tauto |].
    intros a Ha [<- | []]. apply dict_get_None in E. contradiction.
Qed.

Lemma Forall_dict_set {V : Type} (Q : string * V -> Prop) (k : string) (v : V)
  (d : dict V) :
  Forall Q d -> Q (k, v) -> Forall Q (dict_set k v d).
Proof.
  intros Hd Hv. induction d as [| [k' v'] rest IH]; simpl.
  - constructor; [exact Hv | constructor].
  - inversion Hd as [| ? ? Hh Ht]; subst.
    destruct (String.eqb k k') eqn:E.
    + apply String.eqb_eq in E. subst k'. constructor; assumption.
    + constructor; [exact Hh | apply IH; exact Ht].
Qed.

(** X3: after [reconfigure config True] on a valid body, whatever the
    configuration, no two sensors share a name, every sensor is valid, sits
    at the default transform of its specification and is filed under the
    name of its specification. *)
Theorem reconfigure_leaves_sensors_at_default
  (config : AgentConfiguration) (w : World) :
  is_valid (body (agent w)) = true ->
  let sensors := _sensors (agent (fst (reconfigure config true w))) in
  NoDup (keys sensors) /\
  all_sensors_valid sensors /\
  forall k s,
    In (k, s) sensors ->
    set_transformation_from_spec s = s /\ uuid (specification s) = k.
Proof.
  intro Hv. rewrite (reconfigure_run config w Hv). simpl.
  set (step := fun d' spec =>
                 dict_set (uuid spec)
                   (CameraSensor (create_child (object (body (agent w)))) spec)
                   d').
  set (Q := fun kv : string * Sensor =>
              sensor_is_valid (snd kv) = true /\
              set_transformation_from_spec (snd kv) = snd kv /\
              uuid (specification (snd kv)) = fst kv).
  assert (Hinv : forall specs d,
             NoDup (keys d) -> Forall Q d ->
             NoDup (keys (fold_left step specs d))
             /\ Forall Q (fold_left step specs d)).
  { induction specs as [| spec rest IH]; intros d Hnd HQ; simpl.
    - split; assumption.
    - apply IH.
      + apply NoDup_keys_dict_set. exact Hnd.
      + apply Forall_dict_set; [exact HQ |].
        unfold Q; simpl. repeat split. }
  destruct (Hinv (sensor_specifications config) []) as (Hnd & HQ);
    [constructor | constructor |].
  split; [exact Hnd |]. split.
  - unfold all_sensors_valid. eapply Forall_impl; [| exact HQ].
    intros kv (Hval & _). exact Hval.
  - intros k s Hin. rewrite Forall_forall in HQ.
    destruct (HQ (k, s) Hin) as (_ & Hdef & Hname). split; assumption.
Qed.

Lemma reconfigure_leaves_sensors_at_default_witness :
  is_valid (body (agent displaced_world)) = true /\
  let sensors :=
    _sensors (agent (fst (reconfigure example_config true displaced_world))) in
  NoDup (keys sensors) /\
  all_sensors_valid sensors /\
  forall k s,
    In (k, s) sensors ->
    set_transformation_from_spec s = s /\ uuid (specification s) = k.
Proof.
  split; [reflexivity |].
  apply (reconfigure_leaves_sensors_at_default example_config displaced_world).
  reflexivity.
Defined.

(** ** What [get_state] allocates and what it leaves alone *)

Lemma get_sensor_states_step (state : addr) (rot : mn.Quaternion)
  (k : string) (v : Sensor) (rest : dict Sensor) (w : World) :
  sensor_is_valid v = true ->
  get_sensor_states state rot ((k, v) :: rest) w
  = get_sensor_states state rot rest (sensor_read state rot k v w).
Proof.
  intro Hv. simpl. unfold bind at 1. unfold assert_obj_valid. rewrite Hv.
  unfold ret at 1. unfold bind at 1. unfold get_agent at 1.
  unfold bind at 1. unfold np_array at 1.
  unfold bind at 1. unfold set_sensor_state, modify_state. simpl.
  reflexivity.
Qed.

Lemma get_sensor_states_invalid (state : addr) (rot : mn.Quaternion)
  (k : string) (v : Sensor) (rest : dict Sensor) (w : World) :
  sensor_is_valid v = false ->
  get_sensor_states state rot ((k, v) :: rest) w = (w, Raise InvalidObjectError).
Proof.
  intro Hv. simpl. unfold bind at 1. unfold assert_obj_valid. rewrite Hv.
  reflexivity.
Qed.

Lemma get_state_unfold (w : World) :
  is_valid (body (agent w)) = true ->
  get_state w
  = (fst (get_sensor_states (next_state w)
            (rotation (object (body (agent w)))) (_sensors (agent w))
            (state_allocated w)),
     match snd (get_sensor_states (next_state w)
                  (rotation (object (body (agent w)))) (_sensors (agent w))
                  (state_allocated w)) with
     | Ok _ => Ok (next_state w)
     | Raise e => Raise e
     end).
Proof.
  intro Hv. unfold get_state. unfold bind at 1. unfold get_agent at 1.
  unfold bind at 1. unfold assert_obj_valid. rewrite Hv. unfold ret at 1.
  unfold bind at 1. unfold np_array at 1.
  unfold bind at 1. unfold AgentState_init, new_state. simpl.
  unfold bind. fold (state_allocated w).
  destruct (get_sensor_states _ _ _ (state_allocated w)) as [w3 [[] | e]];
    reflexivity.
Qed.

Lemma get_sensor_states_frame (state : addr) (rot : mn.Quaternion)
  (items : dict Sensor) :
  forall w : World,
    let w' := fst (get_sensor_states state rot items w) in
    agent w' = agent w /\
    (next_array w <= next_array w')%nat /\
    (forall a, (a < next_array w)%nat -> arrays w' a = arrays w a) /\
    (forall a, a <> state -> states w' a = states w a) /\
    AgentState.position (states w' state)
    = AgentState.position (states w state).
Proof.
  induction items as [| [k v] rest IH]; intro w.
  - simpl. repeat split; auto.
  - destruct (sensor_is_valid v) eqn:Hv.
    + rewrite (get_sensor_states_step state rot k v rest w Hv).
      destruct (IH (sensor_read state rot k v w))
        as (Hag & Hna & Harr & Hst & Hpos).
      cbv zeta. repeat split.
      * rewrite Hag. reflexivity.
      * simpl in Hna. lia.
      * intros a Ha. rewrite Harr by (simpl; lia). simpl.
        destruct (Nat.eqb a (next_array w)) eqn:E; [| reflexivity].
        apply Nat.eqb_eq in E. lia.
      * intros a Ha. rewrite Hst by exact Ha. simpl.
        apply Nat.eqb_neq in Ha. now rewrite Ha.
      * rewrite Hpos. simpl. rewrite Nat.eqb_refl. reflexivity.
    + rewrite (get_sensor_states_invalid state rot k v rest w Hv).
      simpl. repeat split; auto.
Qed.

(** X4: whether it returns or raises, [get_state] leaves the agent as it
    was and changes no array and no state object that existed before the
    call. *)
Theorem get_state_only_allocates (w : World) :
  agent (fst (get_state w)) = agent w /\
  (forall a, (a < next_array w)%nat -> arrays (fst (get_state w)) a = arrays w a) /\
  (forall a, (a < next_state w)%nat -> states (fst (get_state w)) a = states w a).
Proof.
  destruct (is_valid (body (agent w))) eqn:Hv.
  - rewrite (get_state_unfold w Hv). cbn [fst].
    destruct (get_sensor_states_frame (next_state w)
                (rotation (object (body (agent w)))) (_sensors (agent w))
                (state_allocated w)) as (Hag & _ & Harr & Hst & _).
    split; [rewrite Hag; reflexivity |]. split.
    + intros a Ha. rewrite Harr by (simpl; lia). simpl.
      destruct (Nat.eqb a (next_array w)) eqn:E; [| reflexivity].
      apply Nat.eqb_eq in E. lia.
    + intros a Ha. rewrite Hst by lia. simpl.
      destruct (Nat.eqb a (next_state w)) eqn:E; [| reflexivity].
      apply Nat.eqb_eq in E. lia.
  - unfold get_state, bind, get_agent, assert_obj_valid. rewrite Hv.
    simpl. repeat split.
Qed.

Lemma dict_get_set_cases {V : Type} (k k' : string) (v v' : V) (d : dict V) :
  dict_get k' (dict_set k v d) = Some v' ->
  (k' = k /\ v' = v) \/ dict_get k' d = Some v'.
Proof.
  intro Hg. destruct (String.eqb k' k) eqn:E.
  - apply String.eqb_eq in E. subst k'. rewrite dict_get_set_same in Hg.
    left. split; [reflexivity | congruence].
  - apply String.eqb_neq in E. rewrite dict_get_set_other in Hg by exact E.
    right. exact Hg.
Qed.

Lemma get_sensor_states_fresh (state : addr) (rot : mn.Quaternion)
  (items : dict Sensor) :
  forall (w : World) (k : string) (pose : SixDOFPose.t),
    dict_get k
      (AgentState.sensor_states
         (states (fst (get_sensor_states state rot items w)) state))
    = Some pose ->
    dict_get k (AgentState.sensor_states (states w state)) = Some pose
    \/ (next_array w <= SixDOFPose.position pose)%nat.
Proof.
  induction items as [| [k0 v] rest IH]; intros w k pose Hg.
  - left. exact Hg.
  - destruct (sensor_is_valid v) eqn:Hv.
    + rewrite (get_sensor_states_step state rot k0 v rest w Hv) in Hg.
      destruct (IH _ k pose Hg) as [Hold | Hnew].
      * simpl in Hold. rewrite Nat.eqb_refl in Hold. simpl in Hold.
        apply dict_get_set_cases in Hold.
        destruct Hold as [[_ ->] | Hold]; [right; simpl; lia | left; exact Hold].
      * right. simpl in Hnew. lia.
    + rewrite (get_sensor_states_invalid state rot k0 v rest w Hv) in Hg.
      left. exact Hg.
Qed.

(** X5: the state that [get_state] returns is a new object, and its
    position array and the position array of each of its sensor poses did
    not exist before the call: none of them is shared with the agent or
    with a state read earlier. *)
Theorem get_state_returns_fresh_arrays (w w' : World) (state : addr) :
  get_state w = (w', Ok state) ->
  state = next_state w /\
  (next_array w <= AgentState.position (states w' state))%nat /\
  forall k pose,
    dict_get k (AgentState.sensor_states (states w' state)) = Some pose ->
    (next_array w < SixDOFPose.position pose)%nat.
Proof.
  intro Hrun.
  destruct (is_valid (body (agent w))) eqn:Hv.
  - rewrite (get_state_unfold w Hv) in Hrun.
    set (run := get_sensor_states (next_state w)
                  (rotation (object (body (agent w)))) (_sensors (agent w))
                  (state_allocated w)) in *.
    destruct (snd run) as [[] | e] eqn:Er; [| discriminate].
    inversion Hrun as [[Hw Hs]]. clear Hrun.
    split; [reflexivity |].
    destruct (get_sensor_states_frame (next_state w)
                (rotation (object (body (agent w)))) (_sensors (agent w))
                (state_allocated w)) as (_ & _ & _ & _ & Hpos).
    fold run in Hpos. split.
    + rewrite Hpos. simpl. rewrite Nat.eqb_refl. simpl. lia.
    + intros k pose Hg.
      destruct (get_sensor_states_fresh _ _ _ _ _ _ Hg) as [Hold | Hnew].
      * simpl in Hold. rewrite Nat.eqb_refl in Hold. discriminate.
      * simpl in Hnew. lia.
  - unfold get_state, bind, get_agent, assert_obj_valid in Hrun.
    rewrite Hv in Hrun. discriminate.
Qed.

Lemma get_state_returns_fresh_arrays_witness :
  exists w' state,
    get_state example_world = (w', Ok state) /\
    state = next_state example_world /\
    (next_array example_world <= AgentState.position (states w' state))%nat /\
    forall k pose,
      dict_get k (AgentState.sensor_states (states w' state)) = Some pose ->
      (next_array example_world < SixDOFPose.position pose)%nat.
Proof.
  destruct (get_state_spec example_world eq_refl example_sensors_valid
              example_sensors_nodup) as (w' & Hrun & _).
  exists w', (next_state example_world). split; [exact Hrun |].
  apply (get_state_returns_fresh_arrays example_world w'
           (next_state example_world)).
  exact Hrun.
Defined.

Lemma get_sensor_states_raises (state : addr) (rot : mn.Quaternion)
  (items : dict Sensor) :
  forall w : World,
    (exists kv, In kv items /\ sensor_is_valid (snd kv) = false) ->
    snd (get_sensor_states state rot items w) = Raise InvalidObjectError.
Proof.
  induction items as [| [k v] rest IH]; intros w (kv & Hin & Hbad).
  - destruct Hin.
  - destruct (sensor_is_valid v) eqn:Hv.
    + rewrite (get_sensor_states_step state rot k v rest w Hv).
      apply IH. exists kv. split; [| exact Hbad].
      destruct Hin as [<- | Hin]; [simpl in Hbad; congruence | exact Hin].
    + rewrite (get_sensor_states_invalid state rot k v rest w Hv).
      reflexivity.
Qed.

(** X6: on a valid body, if some attached sensor is no longer valid,
    [get_state] raises InvalidObjectError. *)
Theorem get_state_invalid_sensor_raises (w : World) (k : string) (s : Sensor) :
  is_valid (body (agent w)) = true ->
  In (k, s) (_sensors (agent w)) ->
  sensor_is_valid s = false ->
  snd (get_state w) = Raise InvalidObjectError.
Proof.
  intros Hv Hin Hbad. rewrite (get_state_unfold w Hv). cbn [snd].
  rewrite get_sensor_states_raises; [reflexivity |].
  exists (k, s). split; assumption.
Qed.

Lemma get_state_invalid_sensor_raises_witness :
  is_valid (body (agent stale_sensor_world)) = true /\
  sensor_is_valid
    (mkSensor (mkSceneNode (mkVector3 0 1.5 0) mn.identity) depth_spec false)
  = false /\
  snd (get_state stale_sensor_world) = Raise InvalidObjectError.
Proof.
  split; [reflexivity |]. split; [reflexivity |].
  apply (get_state_invalid_sensor_raises stale_sensor_world "depth"
           (mkSensor (mkSceneNode (mkVector3 0 1.5 0) mn.identity) depth_spec
              false)).
  - reflexivity.
  - simpl. right. left. reflexivity.
  - reflexivity.
Defined.

Lemma get_sensor_states_keys (state : addr) (rot : mn.Quaternion)
  (items : dict Sensor) :
  forall w : World,
    all_sensors_valid items ->
    NoDup (keys (AgentState.sensor_states (states w state)) ++ keys items) ->
    keys (AgentState.sensor_states
            (states (fst (get_sensor_states state rot items w)) state))
    = keys (AgentState.sensor_states (states w state)) ++ keys items.
Proof.
  induction items as [| [k v] rest IH]; intros w Hvalid Hnd.
  - simpl. now rewrite app_nil_r.
  - inversion Hvalid as [| ? ? Hv Hrest]; subst. simpl in Hv.
    rewrite (get_sensor_states_step state rot k v rest w Hv).
    assert (Habsent : dict_get k (AgentState.sensor_states (states w state))
                      = None).
    { apply dict_get_None. intro Hin.
      apply NoDup_remove_2 in Hnd. apply Hnd.
      apply in_or_app. left. exact Hin. }
    assert (E1 : keys (AgentState.sensor_states
                         (states (sensor_read state rot k v w) state))
                 = keys (AgentState.sensor_states (states w state)) ++ [k]).
    { simpl. rewrite Nat.eqb_refl. simpl.
      rewrite dict_set_absent by exact Habsent.
      unfold keys. now rewrite map_app. }
    rewrite IH; [| exact Hrest |].
    + rewrite E1, <- app_assoc. reflexivity.
    + rewrite E1, <- app_assoc. exact Hnd.
Qed.

(** X7: on a valid agent whose sensors are all valid, the state that
    [get_state] returns names exactly the attached sensors, in the order in
    which they are attached. *)
Theorem get_state_names_attached_sensors (w : World) :
  is_valid (body (agent w)) = true ->
  all_sensors_valid (_sensors (agent w)) ->
  NoDup (keys (_sensors (agent w))) ->
  exists w' state,
    get_state w = (w', Ok state) /\
    keys (AgentState.sensor_states (states w' state))
    = keys (_sensors (agent w)).
Proof.
  intros Hv Hvalid Hnd.
  destruct (get_state_spec w Hv Hvalid Hnd) as (w' & Hrun & _).
  exists w', (next_state w). split; [exact Hrun |].
  assert (Ew : w' = fst (get_state w)) by (rewrite Hrun; reflexivity).
  rewrite Ew, (get_state_unfold w Hv). cbn [fst].
  rewrite get_sensor_states_keys.
  - simpl. rewrite Nat.eqb_refl. reflexivity.
  - exact Hvalid.
  - simpl. rewrite Nat.eqb_refl. exact Hnd.
Qed.

Lemma get_state_names_attached_sensors_witness :
  is_valid (body (agent example_world)) = true /\
  all_sensors_valid (_sensors (agent example_world)) /\
  NoDup (keys (_sensors (agent example_world))) /\
  exists w' state,
    get_state example_world = (w', Ok state) /\
    keys (AgentState.sensor_states (states w' state))
    = keys (_sensors (agent example_world)).
Proof.
  split; [reflexivity |].
  split; [exact example_sensors_valid |].
  split; [exact example_sensors_nodup |].
  apply (get_state_names_attached_sensors example_world).
  - reflexivity.
  - exact example_sensors_valid.
  - exact example_sensors_nodup.
Defined.

(** ** Inferred sensor states *)

Lemma set_state_inferred_run (state : addr) (reset ini : bool) (w : World) :
  is_valid (body (agent w)) = true ->
  exists w',
    set_state state reset true ini w = (w', Ok tt) /\
    arrays w' = arrays w /\
    states w' state
    = AgentState.with_rotation (RotQuaternion (base_rotation w state))
        (states w state) /\
    (forall a, a <> state -> states w' a = states w a) /\
    object (body (agent w')) = base_node w state /\
    is_valid (body (agent w')) = true /\
    _sensors (agent w') = sensors_after_reset reset (_sensors (agent w)) /\
    initial_state (agent w')
    = (if ini then Some state else initial_state (agent w)) /\
    agent_config (agent w') = agent_config (agent w).
Proof.
  intro Hv.
  destruct (set_state_base_and_reset state reset w)
    as (w2 & Hrun2 & Harr2 & Hst2 & Hother2 & Hag2).
  rewrite (set_state_unfold state reset true ini w w2 Hv Hrun2).
  destruct ini; simpl.
  - eexists. split; [reflexivity |]. simpl. rewrite Hag2. simpl.
    repeat split; auto.
  - exists w2. split; [reflexivity |]. rewrite Hag2. simpl.
    repeat split; auto.
Qed.

(** X8: on a valid body, [set_state] with [infer_sensor_states] true always
    returns normally, whatever names [state.sensor_states] holds, and does
    not touch that dictionary or any array; the body node has the base
    pose, the sensors are reset to their defaults if [reset_sensors] is set
    and are untouched otherwise, and the initial state changes only if
    [is_initial] is set. *)
Theorem set_state_inferred_ignores_sensor_states
  (state : addr) (reset_sensors is_initial : bool) (w : World) :
  is_valid (body (agent w)) = true ->
  exists w',
    set_state state reset_sensors true is_initial w = (w', Ok tt) /\
    arrays w' = arrays w /\
    AgentState.sensor_states (states w' state)
    = AgentState.sensor_states (states w state) /\
    object (body (agent w'))
    = set_rotation (quat_to_magnum (base_rotation w state))
        (translate (base_position w state)
           (reset_transformation (object (body (agent w))))) /\
    _sensors (agent w')
    = (if reset_sensors
       then map (fun kv => (fst kv, set_transformation_from_spec (snd kv)))
              (_sensors (agent w))
       else _sensors (agent w)) /\
    initial_state (agent w')
    = (if is_initial then Some state else initial_state (agent w)).
Proof.
  intro Hv.
  destruct (set_state_inferred_run state reset_sensors is_initial w Hv)
    as (w' & Hrun & Harr & Hst & _ & Hb & _ & Hs & Hi & _).
  exists w'. split; [exact Hrun |]. split; [exact Harr |].
  split; [rewrite Hst; reflexivity |].
  split; [exact Hb |]. split; [exact Hs | exact Hi].
Qed.

Lemma set_state_inferred_ignores_sensor_states_witness :
  let w := world_with_unknown_sensor in
  let state := 0%nat in
  is_valid (body (agent w)) = true /\
  exists w',
    set_state state false true true w = (w', Ok tt) /\
    arrays w' = arrays w /\
    AgentState.sensor_states (states w' state)
    = AgentState.sensor_states (states w state) /\
    object (body (agent w'))
    = set_rotation (quat_to_magnum (base_rotation w state))
        (translate (base_position w state)
           (reset_transformation (object (body (agent w))))) /\
    _sensors (agent w') = _sensors (agent w) /\
    initial_state (agent w') = Some state.
Proof.
  split; [reflexivity |].
  apply (set_state_inferred_ignores_sensor_states 0%nat false true
           world_with_unknown_sensor).
  reflexivity.
Defined.

Lemma sensors_after_reset_keys (reset : bool) (d : dict Sensor) :
  keys (sensors_after_reset reset d) = keys d.
Proof.
  destruct reset; simpl; [| reflexivity].
  unfold keys. rewrite map_map. reflexivity.
Qed.

Lemma sensors_after_reset_valid (reset : bool) (d : dict Sensor) :
  all_sensors_valid d -> all_sensors_valid (sensors_after_reset reset d).
Proof.
  destruct reset; simpl; [| auto].
  unfold all_sensors_valid. intro Hd. apply Forall_map.
  eapply Forall_impl; [| exact Hd]. intros [k s] Hs. exact Hs.
Qed.

Lemma dict_get_sensors_after_reset (reset : bool) (d : dict Sensor)
  (k : string) :
  dict_get k (sensors_after_reset reset d)
  = option_map (if reset then set_transformation_from_spec else fun s => s)
      (dict_get k d).
Proof.
  destruct reset; simpl.
  - apply dict_get_map.
  - destruct (dict_get k d); reflexivity.
Qed.

Lemma base_node_translation (w : World) (state : addr) :
  translation (base_node w state) = base_position w state.
Proof. unfold base_node; simpl. apply vadd_zero_l. Qed.

(** Writing a state with inferred sensor states, then reading. *)
Lemma set_then_get_state (state : addr) (reset ini : bool) (w : World) :
  is_valid (body (agent w)) = true ->
  all_sensors_valid (_sensors (agent w)) ->
  NoDup (keys (_sensors (agent w))) ->
  exists w1 w2 state',
    set_state state reset true ini w = (w1, Ok tt) /\
    get_state w1 = (w2, Ok state') /\
    base_position w2 state' = base_position w state /\
    AgentState.rotation (states w2 state')
    = RotQuaternion (base_rotation w state) /\
    forall k v,
      dict_get k (_sensors (agent w)) = Some v ->
      exists pose,
        dict_get k (AgentState.sensor_states (states w2 state')) = Some pose /\
        arrays w2 (SixDOFPose.position pose)
        = vadd (base_position w state)
            (mn.transformVector (quat_to_magnum (base_rotation w state))
               (translation
                  (node ((if reset then set_transformation_from_spec
                          else fun s => s) v)))) /\
        SixDOFPose.rotation pose
        = PoseQuaternion
            (np.mul (base_rotation w state)
               (quat_from_magnum
                  (rotation
                     (node ((if reset then set_transformation_from_spec
                             else fun s => s) v))))).
Proof.
  intros Hv Hvalid Hnd.
  destruct (set_state_inferred_run state reset ini w Hv)
    as (w1 & Hrun1 & _ & _ & _ & Hb1 & Hv1 & Hs1 & _).
  destruct (get_state_spec w1) as
    (w2 & Hrun2 & _ & _ & _ & Hpos2 & Hrot2 & _ & Hsome2).
  { exact Hv1. }
  { rewrite Hs1. apply sensors_after_reset_valid. exact Hvalid. }
  { rewrite Hs1, sensors_after_reset_keys. exact Hnd. }
  exists w1, w2, (next_state w1).
  split; [exact Hrun1 |]. split; [exact Hrun2 |].
  split.
  { unfold base_position at 1.
    rewrite Hpos2, Hb1, absolute_translation_root.
    apply base_node_translation. }
  split.
  { rewrite Hrot2, Hb1. unfold base_node; simpl.
    rewrite quat_from_to_magnum. reflexivity. }
  intros k v Hk.
  destruct (Hsome2 k ((if reset then set_transformation_from_spec
                       else fun s => s) v)) as (pose & Hg & Ha & Hr).
  { rewrite Hs1, dict_get_sensors_after_reset, Hk. reflexivity. }
  exists pose. split; [exact Hg |]. split.
  - rewrite Ha, Hb1. unfold absolute_translation.
    rewrite base_node_translation. reflexivity.
  - rewrite Hr, Hb1. unfold reported_rotation.
    rewrite quat_from_magnum_mul. unfold base_node; simpl.
    rewrite quat_from_to_magnum. reflexivity.
Qed.

(** X9: a base pose written by [set_state] with inferred sensor states is
    the base pose that [get_state] reads next: the same position and the
    quaternion that [state.rotation] holds after the call. *)
Theorem get_state_reads_written_base_pose
  (state : addr) (reset_sensors is_initial : bool) (w : World) :
  is_valid (body (agent w)) = true ->
  all_sensors_valid (_sensors (agent w)) ->
  NoDup (keys (_sensors (agent w))) ->
  exists w1 w2 state',
    set_state state reset_sensors true is_initial w = (w1, Ok tt) /\
    get_state w1 = (w2, Ok state') /\
    arrays w2 (AgentState.position (states w2 state'))
    = arrays w (AgentState.position (states w state)) /\
    AgentState.rotation (states w2 state')
    = AgentState.rotation (states w1 state).
Proof.
  intros Hv Hvalid Hnd.
  destruct (set_then_get_state state reset_sensors is_initial w Hv Hvalid Hnd)
    as (w1 & w2 & state' & Hrun1 & Hrun2 & Hpos & Hrot & _).
  exists w1, w2, state'. split; [exact Hrun1 |]. split; [exact Hrun2 |].
  split; [exact Hpos |].
  destruct (set_state_inferred_run state reset_sensors is_initial w Hv)
    as (w1' & Hrun1' & _ & Hst & _).
  rewrite Hrun1 in Hrun1'. inversion Hrun1'; subst w1'.
  rewrite Hrot, Hst. reflexivity.
Qed.

(** X10: after [set_state] with inferred sensor states, [get_state] reports
    each sensor at the new base position plus the new base rotation applied
    to the sensor node's own translation, with the rotation new base
    rotation times the node's own rotation; the node is the one before the
    call, or the default of the specification if [reset_sensors] is set. *)
Theorem get_state_infers_sensor_poses
  (state : addr) (reset_sensors is_initial : bool) (w : World)
  (k : string) (v : Sensor) :
  is_valid (body (agent w)) = true ->
  all_sensors_valid (_sensors (agent w)) ->
  NoDup (keys (_sensors (agent w))) ->
  dict_get k (_sensors (agent w)) = Some v ->
  exists w1 w2 state' pose,
    set_state state reset_sensors true is_initial w = (w1, Ok tt) /\
    get_state w1 = (w2, Ok state') /\
    dict_get k (AgentState.sensor_states (states w2 state')) = Some pose /\
    arrays w2 (SixDOFPose.position pose)
    = vadd (base_position w state)
        (mn.transformVector (quat_to_magnum (base_rotation w state))
           (translation
              (node (if reset_sensors then set_transformation_from_spec v
                     else v)))) /\
    SixDOFPose.rotation pose
    = PoseQuaternion
        (np.mul (base_rotation w state)
           (quat_from_magnum
              (rotation
                 (node (if reset_sensors then set_transformation_from_spec v
                        else v))))).
Proof.
  intros Hv Hvalid Hnd Hk.
  destruct (set_then_get_state state reset_sensors is_initial w Hv Hvalid Hnd)
    as (w1 & w2 & state' & Hrun1 & Hrun2 & _ & _ & Hposes).
  destruct (Hposes k v Hk) as (pose & Hg & Ha & Hr).
  exists w1, w2, state', pose.
  split; [exact Hrun1 |]. split; [exact Hrun2 |]. split; [exact Hg |].
  destruct reset_sensors; split; assumption.
Qed.

Lemma get_state_reads_written_base_pose_witness :
  let w := world_with_state in
  is_valid (body (agent w)) = true /\
  all_sensors_valid (_sensors (agent w)) /\
  NoDup (keys (_sensors (agent w))) /\
  exists w1 w2 state',
    set_state 0%nat true true false w = (w1, Ok tt) /\
    get_state w1 = (w2, Ok state') /\
    arrays w2 (AgentState.position (states w2 state'))
    = arrays w (AgentState.position (states w 0%nat)) /\
    AgentState.rotation (states w2 state')
    = AgentState.rotation (states w1 0%nat).
Proof.
  split; [reflexivity |].
  split; [exact example_sensors_valid |].
  split; [exact example_sensors_nodup |].
  apply (get_state_reads_written_base_pose 0%nat true false world_with_state).
  - reflexivity.
  - exact example_sensors_valid.
  - exact example_sensors_nodup.
Defined.

Lemma get_state_infers_sensor_poses_witness :
  let w := world_with_state in
  let v := CameraSensor (create_child root) rgb_spec in
  is_valid (body (agent w)) = true /\
  all_sensors_valid (_sensors (agent w)) /\
  NoDup (keys (_sensors (agent w))) /\
  dict_get "rgb" (_sensors (agent w)) = Some v /\
  exists w1 w2 state' pose,
    set_state 0%nat false true false w = (w1, Ok tt) /\
    get_state w1 = (w2, Ok state') /\
    dict_get "rgb" (AgentState.sensor_states (states w2 state')) = Some pose /\
    arrays w2 (SixDOFPose.position pose)
    = vadd (base_position w 0%nat)
        (mn.transformVector (quat_to_magnum (base_rotation w 0%nat))
           (translation (node v))) /\
    SixDOFPose.rotation pose
    = PoseQuaternion
        (np.mul (base_rotation w 0%nat)
           (quat_from_magnum (rotation (node v)))).
Proof.
  split; [reflexivity |].
  split; [exact example_sensors_valid |].
  split; [exact example_sensors_nodup |].
  split; [reflexivity |].
  apply (get_state_infers_sensor_poses 0%nat false false world_with_state
           "rgb" (CameraSensor (create_child root) rgb_spec)).
  - reflexivity.
  - exact example_sensors_valid.
  - exact example_sensors_nodup.
  - reflexivity.
Defined.

(** ** Explicit placement and reading back *)

Lemma place_sensors_keeps_names (state : addr) (R : np.quaternion)
  (items : dict SixDOFPose.t) :
  forall w : World,
    AgentState.rotation (states w state) = RotQuaternion R ->
    keys (_sensors (agent (fst (place_sensors state items w))))
    = keys (_sensors (agent w)) /\
    (all_sensors_valid (_sensors (agent w)) ->
     all_sensors_valid (_sensors (agent (fst (place_sensors state items w))))) /\
    arrays (fst (place_sensors state items w)) = arrays w /\
    agent_config (agent (fst (place_sensors state items w)))
    = agent_config (agent w).
Proof.
  induction items as [| [k v] rest IH]; intros w HR.
  - simpl. repeat split; auto.
  - destruct (dict_get k (_sensors (agent w))) as [s |] eqn:Hs.
    + rewrite (place_sensors_step state k v rest w s R Hs HR).
      pose proof (pose_converted_facts state k v w)
        as (Harr1 & _ & Hrot1 & _).
      destruct (IH (sensor_placed state k v s w)) as (Hk & Hval & Harr & Hcfg).
      { change (states (sensor_placed state k v s w))
          with (states (pose_converted state k v w)).
        rewrite Hrot1. exact HR. }
      split; [| split; [| split]].
      * rewrite Hk. unfold sensor_placed; simpl.
        apply keys_dict_set_present.
        apply dict_get_In in Hs. apply (in_map fst) in Hs. exact Hs.
      * intro Hall. apply Hval. unfold sensor_placed; simpl.
        apply Forall_dict_set; [exact Hall |]. simpl.
        apply dict_get_In in Hs. unfold all_sensors_valid in Hall.
        rewrite Forall_forall in Hall. exact (Hall (k, s) Hs).
      * rewrite Harr. exact Harr1.
      * rewrite Hcfg. reflexivity.
    + simpl. unfold bind, get_agent. rewrite Hs. simpl.
      repeat split; auto.
Qed.

Lemma set_state_explicit_run (state : addr) (reset ini : bool) (w : World) :
  is_valid (body (agent w)) = true ->
  NoDup (keys (AgentState.sensor_states (states w state))) ->
  (forall k, In k (keys (AgentState.sensor_states (states w state))) ->
     dict_get k (_sensors (agent w)) <> None) ->
  exists w',
    set_state state reset false ini w = (w', Ok tt) /\
    object (body (agent w')) = base_node w state /\
    is_valid (body (agent w')) = true /\
    keys (_sensors (agent w')) = keys (_sensors (agent w)) /\
    (all_sensors_valid (_sensors (agent w)) ->
     all_sensors_valid (_sensors (agent w'))) /\
    (forall k v,
       dict_get k (AgentState.sensor_states (states w state)) = Some v ->
       exists s,
         dict_get k (_sensors (agent w)) = Some s /\
         dict_get k (_sensors (agent w'))
         = Some (with_node
                   (place_node (base_rotation w state) (base_position w state)
                      (arrays w (SixDOFPose.position v))
                      (pose_quaternion (SixDOFPose.rotation v)) (node s))
                   s)) /\
    (forall k,
       dict_get k (AgentState.sensor_states (states w state)) = None ->
       dict_get k (_sensors (agent w'))
       = dict_get k (sensors_after_reset reset (_sensors (agent w)))).
Proof.
  intros Hv Hnd Hatt.
  destruct (set_state_base_and_reset state reset w)
    as (w2 & Hrun2 & Harr2 & Hst2 & Hother2 & Hag2).
  rewrite (set_state_unfold state reset false ini w w2 Hv Hrun2).
  set (R := base_rotation w state).
  assert (HR2 : AgentState.rotation (states w2 state) = RotQuaternion R)
    by (rewrite Hst2; reflexivity).
  assert (Ess : AgentState.sensor_states (states w2 state)
                = AgentState.sensor_states (states w state))
    by (rewrite Hst2; reflexivity).
  assert (Es2 : _sensors (agent w2)
                = sensors_after_reset reset (_sensors (agent w)))
    by (rewrite Hag2; reflexivity).
  destruct (place_sensors_ok state R
              (AgentState.sensor_states (states w2 state)) w2)
    as (w3 & Hrun3 & Harr3 & Hbody3 & _ & _ & _ & _ & _ & Hout & Hin & _).
  { exact HR2. }
  { rewrite Ess. exact Hnd. }
  { intros k Hk. rewrite Ess in Hk.
    rewrite Es2, dict_get_sensors_after_reset.
    specialize (Hatt k Hk).
    destruct (dict_get k (_sensors (agent w))); [discriminate | contradiction]. }
  { intros k v Hk. apply NoDup_dict_get; [rewrite Ess; exact Hnd | exact Hk]. }
  pose proof (place_sensors_keeps_names state R
                (AgentState.sensor_states (states w2 state)) w2 HR2)
    as (Hkeys & Hval & _ & _).
  rewrite Hrun3 in Hkeys, Hval. simpl in Hkeys, Hval.
  assert (Hend : exists w',
             (when ini (modify_agent (with_initial_state (Some state))))
               w3 = (w', Ok tt)
             /\ body (agent w') = body (agent w3)
             /\ _sensors (agent w') = _sensors (agent w3)).
  { destruct ini; simpl; eexists; repeat split. }
  destruct Hend as (w' & Hrun' & Hbody' & Hsens').
  exists w'.
  split.
  { simpl. unfold bind at 1. unfold bind at 1. unfold read_state at 1.
    rewrite Hrun3. exact Hrun'. }
  split; [rewrite Hbody', Hbody3, Hag2; reflexivity |].
  split; [rewrite Hbody', Hbody3, Hag2; exact Hv |].
  split; [rewrite Hsens', Hkeys, Es2; apply sensors_after_reset_keys |].
  split.
  { intro Hall. rewrite Hsens'. apply Hval. rewrite Es2.
    apply sensors_after_reset_valid. exact Hall. }
  split.
  - intros k v Hk. rewrite <- Ess in Hk. apply dict_get_In in Hk.
    destruct (Hin k v Hk) as (s2 & Hs2 & Hs3).
    rewrite Es2, dict_get_sensors_after_reset in Hs2.
    destruct (dict_get k (_sensors (agent w))) as [s |] eqn:Hs;
      [| discriminate].
    simpl in Hs2. inversion Hs2 as [Es]. clear Hs2.
    assert (Ebp : base_position w2 state = base_position w state).
    { unfold base_position. rewrite Harr2, Hst2. reflexivity. }
    rewrite Ebp, Harr2 in Hs3.
    exists s. split; [reflexivity |]. rewrite Hsens', Hs3.
    subst s2. destruct reset; destruct s; reflexivity.
  - intros k Hk. rewrite Hsens', Hout.
    + rewrite Es2. reflexivity.
    + rewrite Ess. apply dict_get_None. exact Hk.
Qed.

Lemma vsub_vadd_l (a b : Vector3) : vsub (vadd a b) a = b.
Proof. apply vector3_eq; simpl; ring. Qed.

Lemma vadd_vsub_r (p v : Vector3) : vadd p (vsub v p) = v.
Proof. apply vector3_eq; simpl; ring. Qed.

Lemma get_state_result_keys (w : World) :
  is_valid (body (agent w)) = true ->
  all_sensors_valid (_sensors (agent w)) ->
  NoDup (keys (_sensors (agent w))) ->
  keys (AgentState.sensor_states (states (fst (get_state w)) (next_state w)))
  = keys (_sensors (agent w)).
Proof.
  intros Hv Hvalid Hnd. rewrite (get_state_unfold w Hv). cbn [fst].
  rewrite get_sensor_states_keys.
  - simpl. rewrite Nat.eqb_refl. reflexivity.
  - exact Hvalid.
  - simpl. rewrite Nat.eqb_refl. exact Hnd.
Qed.

Lemma place_node_of_read_pose (b s : SceneNode) (n : SceneNode) :
  np.norm (quat_from_magnum (rotation b)) = 1 ->
  place_node (quat_from_magnum (rotation b)) (absolute_translation root b)
    (absolute_translation b s)
    (quat_from_magnum (mn.mul (rotation b) (rotation s))) n
  = s.
Proof.
  intro Hn. unfold place_node, set_rotation, translate, reset_transformation.
  simpl. rewrite vadd_zero_l, absolute_translation_root.
  unfold absolute_translation. rewrite vsub_vadd_l.
  rewrite <- (quat_to_from_magnum (rotation b)) at 2.
  rewrite (rotate_back_transform _ _ Hn).
  rewrite quat_from_magnum_mul, mul_inverse_l by (rewrite Hn; lra).
  rewrite quat_to_from_magnum. destruct s; reflexivity.
Qed.

(** X11: on a valid agent whose body rotation has length 1,
    [set_state(get_state())] with [infer_sensor_states] false gives back
    the agent as it was: the same body node and, under every name, the same
    sensor with the same node, also for sensors that are not at their
    default and also when [reset_sensors] is set. *)
Theorem explicit_set_state_of_get_state (reset_sensors : bool) (w : World) :
  is_valid (body (agent w)) = true ->
  all_sensors_valid (_sensors (agent w)) ->
  NoDup (keys (_sensors (agent w))) ->
  np.norm (quat_from_magnum (rotation (object (body (agent w))))) = 1 ->
  exists w1 state w2,
    get_state w = (w1, Ok state) /\
    set_state state reset_sensors false false w1 = (w2, Ok tt) /\
    body (agent w2) = body (agent w) /\
    forall k, dict_get k (_sensors (agent w2)) = dict_get k (_sensors (agent w)).
Proof.
  intros Hv Hvalid Hnd Hunit.
  destruct (get_state_spec w Hv Hvalid Hnd)
    as (w1 & Hrun1 & Hag1 & _ & _ & Hpos1 & Hrot1 & Hnone1 & Hsome1).
  pose proof (get_state_result_keys w Hv Hvalid Hnd) as Hkeys.
  rewrite Hrun1 in Hkeys. cbn [fst] in Hkeys.
  set (state := next_state w) in *.
  assert (EbR : base_rotation w1 state
                = quat_from_magnum (rotation (object (body (agent w)))))
    by (unfold base_rotation; rewrite Hrot1; reflexivity).
  assert (Ebp : base_position w1 state
                = absolute_translation root (object (body (agent w))))
    by (unfold base_position; exact Hpos1).
  destruct (set_state_explicit_run state reset_sensors false w1)
    as (w2 & Hrun2 & Hb2 & Hv2 & _ & _ & Hnamed & Hunnamed).
  { rewrite Hag1. exact Hv. }
  { rewrite Hkeys. exact Hnd. }
  { intros k Hk. rewrite Hkeys in Hk. rewrite Hag1.
    intro Hnone. apply dict_get_None in Hnone. contradiction. }
  exists w1, state, w2.
  split; [exact Hrun1 |]. split; [exact Hrun2 |].
  split.
  { assert (Eo : object (body (agent w2)) = object (body (agent w))).
    { rewrite Hb2. unfold base_node. rewrite EbR, Ebp, Hag1.
      apply base_node_of_read_pose. }
    destruct (body (agent w2)) as [o2 v2], (body (agent w)) as [o v].
    simpl in *. subst. reflexivity. }
  intro k.
  destruct (dict_get k (_sensors (agent w))) as [v |] eqn:Hk.
  - destruct (Hsome1 k v Hk) as (pose & Hg & Ha & Hr).
    destruct (Hnamed k pose Hg) as (s & Hs & Hs').
    rewrite Hag1, Hk in Hs. inversion Hs; subst s.
    rewrite Hs', EbR, Ebp, Ha, Hr. unfold reported_rotation. simpl.
    rewrite (place_node_of_read_pose _ (node v) (node v) Hunit).
    destruct v; reflexivity.
  - rewrite (Hunnamed k (Hnone1 k Hk)), dict_get_sensors_after_reset.
    rewrite Hag1, Hk. reflexivity.
Qed.

Lemma displaced_unit_rotation :
  np.norm (quat_from_magnum (rotation (object (body (agent displaced_world)))))
  = 1.
Proof. unfold np.norm; simpl. ring. Defined.

Lemma explicit_set_state_of_get_state_witness :
  let w := displaced_world in
  is_valid (body (agent w)) = true /\
  np.norm (quat_from_magnum (rotation (object (body (agent w))))) = 1 /\
  exists w1 state w2,
    get_state w = (w1, Ok state) /\
    set_state state true false false w1 = (w2, Ok tt) /\
    body (agent w2) = body (agent w) /\
    forall k, dict_get k (_sensors (agent w2)) = dict_get k (_sensors (agent w)).
Proof.
  split; [reflexivity |].
  split; [exact displaced_unit_rotation |].
  apply (explicit_set_state_of_get_state true displaced_world).
  - reflexivity.
  - repeat constructor.
  - repeat constructor. simpl. tauto.
  - exact displaced_unit_rotation.
Defined.

(** X12: when the base rotation has length 1, a sensor pose that
    [set_state] places with [infer_sensor_states] false is the pose that
    [get_state] reads next under that name: the same position and the same
    quaternion. *)
Theorem get_state_reads_placed_sensor_pose
  (state : addr) (reset_sensors is_initial : bool) (w : World)
  (k : string) (v : SixDOFPose.t) :
  is_valid (body (agent w)) = true ->
  all_sensors_valid (_sensors (agent w)) ->
  NoDup (keys (_sensors (agent w))) ->
  NoDup (keys (AgentState.sensor_states (states w state))) ->
  (forall k', In k' (keys (AgentState.sensor_states (states w state))) ->
     dict_get k' (_sensors (agent w)) <> None) ->
  np.norm (base_rotation w state) = 1 ->
  dict_get k (AgentState.sensor_states (states w state)) = Some v ->
  exists w1 w2 state' pose,
    set_state state reset_sensors false is_initial w = (w1, Ok tt) /\
    get_state w1 = (w2, Ok state') /\
    dict_get k (AgentState.sensor_states (states w2 state')) = Some pose /\
    arrays w2 (SixDOFPose.position pose) = arrays w (SixDOFPose.position v) /\
    SixDOFPose.rotation pose
    = PoseQuaternion (pose_quaternion (SixDOFPose.rotation v)).
Proof.
  intros Hv Hvalid Hnd Hnds Hatt Hunit Hk.
  destruct (set_state_explicit_run state reset_sensors is_initial w Hv Hnds Hatt)
    as (w1 & Hrun1 & Hb1 & Hv1 & Hkeys1 & Hval1 & Hnamed & _).
  destruct (get_state_spec w1) as
    (w2 & Hrun2 & _ & _ & _ & _ & _ & _ & Hsome2).
  { exact Hv1. }
  { apply Hval1. exact Hvalid. }
  { rewrite Hkeys1. exact Hnd. }
  destruct (Hnamed k v Hk) as (s & Hs & Hs').
  destruct (Hsome2 k _ Hs') as (pose & Hg & Ha & Hr).
  exists w1, w2, (next_state w1), pose.
  split; [exact Hrun1 |]. split; [exact Hrun2 |]. split; [exact Hg |].
  split.
  - rewrite Ha, Hb1. unfold absolute_translation.
    rewrite base_node_translation. simpl.
    rewrite vadd_zero_l, (transform_rotate_back _ _ Hunit).
    apply vadd_vsub_r.
  - rewrite Hr, Hb1. unfold reported_rotation. simpl.
    rewrite quat_from_magnum_mul, !quat_from_to_magnum.
    rewrite mul_inverse_r by (rewrite Hunit; lra). reflexivity.
Qed.

Lemma world_with_state_unit_rotation :
  np.norm (base_rotation world_with_state 0%nat) = 1.
Proof.
  unfold base_rotation. simpl.
  assert (E : np.abs (quat_from_coeffs identity_coeffs) = 1)
    by (apply quat_from_coeffs_unit; exact identity_coeffs_nonzero).
  unfold np.abs in E.
  rewrite <- (sqrt_sqrt (np.norm (quat_from_coeffs identity_coeffs)))
    by apply norm_nonneg.
  rewrite E. ring.
Defined.

Lemma get_state_reads_placed_sensor_pose_witness :
  let w := world_with_state in
  let v := SixDOFPose_init (Some 7%nat) (Some (PoseList identity_coeffs)) in
  is_valid (body (agent w)) = true /\
  np.norm (base_rotation w 0%nat) = 1 /\
  dict_get "rgb" (AgentState.sensor_states (states w 0%nat)) = Some v /\
  exists w1 w2 state' pose,
    set_state 0%nat true false false w = (w1, Ok tt) /\
    get_state w1 = (w2, Ok state') /\
    dict_get "rgb" (AgentState.sensor_states (states w2 state')) = Some pose /\
    arrays w2 (SixDOFPose.position pose) = arrays w (SixDOFPose.position v) /\
    SixDOFPose.rotation pose
    = PoseQuaternion (pose_quaternion (SixDOFPose.rotation v)).
Proof.
  split; [reflexivity |].
  split; [exact world_with_state_unit_rotation |].
  split; [reflexivity |].
  apply (get_state_reads_placed_sensor_pose 0%nat true false world_with_state
           "rgb" (SixDOFPose_init (Some 7%nat) (Some (PoseList identity_coeffs)))).
  - reflexivity.
  - exact example_sensors_valid.
  - exact example_sensors_nodup.
  - exact world_with_state_nodup.
  - exact world_with_state_attached.
  - exact world_with_state_unit_rotation.
  - reflexivity.
Defined.

(** ** What [set_state] never changes *)

(** X13: whatever the flags and whether it returns or raises, [set_state]
    writes to no array (the position arrays of the state and of its poses
    are only read), attaches and detaches no sensor, and leaves the
    configuration alone. *)
Theorem set_state_frame
  (state : addr) (reset_sensors infer_sensor_states is_initial : bool)
  (w : World) :
  let w' :=
    fst (set_state state reset_sensors infer_sensor_states is_initial w) in
  arrays w' = arrays w /\
  keys (_sensors (agent w')) = keys (_sensors (agent w)) /\
  agent_config (agent w') = agent_config (agent w).
Proof.
  destruct (is_valid (body (agent w))) eqn:Hv.
  - destruct (set_state_base_and_reset state reset_sensors w)
      as (w2 & Hrun2 & Harr2 & Hst2 & _ & Hag2).
    rewrite (set_state_unfold state reset_sensors infer_sensor_states
               is_initial w w2 Hv Hrun2).
    assert (Hk2 : keys (_sensors (agent w2)) = keys (_sensors (agent w)))
      by (rewrite Hag2; simpl; apply sensors_after_reset_keys).
    assert (Hc2 : agent_config (agent w2) = agent_config (agent w))
      by (rewrite Hag2; reflexivity).
    assert (Hmid :
              let w3 :=
                fst (when (negb infer_sensor_states)
                       (s <- read_state state ;;
                        place_sensors state (AgentState.sensor_states s)) w2) in
              arrays w3 = arrays w /\
              keys (_sensors (agent w3)) = keys (_sensors (agent w)) /\
              agent_config (agent w3) = agent_config (agent w)).
    { destruct infer_sensor_states; simpl.
      - repeat split; assumption.
      - unfold bind, read_state.
        pose proof (place_sensors_keeps_names state (base_rotation w state)
                      (AgentState.sensor_states (states w2 state)) w2)
          as (Hk & _ & Ha & Hc); [rewrite Hst2; reflexivity |].
        destruct (place_sensors state
                    (AgentState.sensor_states (states w2 state)) w2)
          as [w3 [[] | e]]; simpl in *;
          (split; [rewrite Ha; exact Harr2 |
                   split; [rewrite Hk; exact Hk2 | rewrite Hc; exact Hc2]]). }
    cbv zeta in Hmid. unfold bind at 1.
    destruct (when (negb infer_sensor_states) _ w2) as [w3 [[] | e]];
      simpl in Hmid.
    + destruct is_initial; simpl; exact Hmid.
    + simpl. exact Hmid.
  - unfold set_state, bind, get_agent, assert_obj_valid. rewrite Hv. simpl.
    repeat split.
Qed.

(** ** Actions *)

Section ActFacts.

Context {S : Type} `{Controls S} `{Simulator S}.

Lemma act_on_sensors_step (action : ActionSpec) (k : string) (v : Sensor)
  (rest : dict Sensor) (w : World) :
  sensor_is_valid v = true ->
  act_on_sensors action ((k, v) :: rest) w
  = act_on_sensors action rest
      (with_agent
         (with_sensors (dict_set k (sensor_acted action v) (_sensors (agent w)))
            (agent w))
         w).
Proof.
  intro Hv. simpl. unfold bind at 1. unfold assert_obj_valid. rewrite Hv.
  reflexivity.
Qed.

Lemma act_on_sensors_invalid (action : ActionSpec) (k : string) (v : Sensor)
  (rest : dict Sensor) (w : World) :
  sensor_is_valid v = false ->
  act_on_sensors action ((k, v) :: rest) w = (w, Raise InvalidObjectError).
Proof.
  intro Hv. simpl. unfold bind at 1. unfold assert_obj_valid. rewrite Hv.
  reflexivity.
Qed.

Lemma act_on_sensors_frame (action : ActionSpec) (items : dict Sensor) :
  forall w : World,
    (forall k, In k (keys items) -> In k (keys (_sensors (agent w)))) ->
    let w' := fst (act_on_sensors action items w) in
    arrays w' = arrays w /\
    states w' = states w /\
    body (agent w') = body (agent w) /\
    agent_config (agent w') = agent_config (agent w) /\
    initial_state (agent w') = initial_state (agent w) /\
    gripped_object_id (agent w') = gripped_object_id (agent w) /\
    gripped_object_transformation (agent w')
    = gripped_object_transformation (agent w) /\
    keys (_sensors (agent w')) = keys (_sensors (agent w)).
Proof.
  induction items as [| [k v] rest IH]; intros w Hsub.
  - simpl. repeat split.
  - destruct (sensor_is_valid v) eqn:Hv.
    + rewrite (act_on_sensors_step action k v rest w Hv).
      assert (Ek : keys (dict_set k (sensor_acted action v)
                           (_sensors (agent w)))
                   = keys (_sensors (agent w))).
      { apply keys_dict_set_present. apply Hsub. left. reflexivity. }
      match goal with
      | |- context [act_on_sensors action rest ?w1] =>
          destruct (IH w1) as (Ha & Hs & Hb & Hc & Hi & Hg & Ht & Hk)
      end.
      { intros k' Hk'. simpl. rewrite Ek. apply Hsub. right. exact Hk'. }
      cbv zeta. rewrite Ha, Hs, Hb, Hc, Hi, Hg, Ht, Hk. simpl.
      repeat split. exact Ek.
    + rewrite (act_on_sensors_invalid action k v rest w Hv). simpl.
      repeat split.
Qed.

Lemma act_on_sensors_ok (action : ActionSpec) (items : dict Sensor) :
  forall w : World,
    all_sensors_valid items ->
    NoDup (keys items) ->
    (forall k v, In (k, v) items ->
       dict_get k (_sensors (agent w)) = Some v) ->
    exists w',
      act_on_sensors action items w = (w', Ok tt) /\
      (forall k, ~ In k (keys items) ->
         dict_get k (_sensors (agent w')) = dict_get k (_sensors (agent w))) /\
      (forall k v, In (k, v) items ->
         dict_get k (_sensors (agent w')) = Some (sensor_acted action v)).
Proof.
  induction items as [| [k v] rest IH]; intros w Hvalid Hnd Hget.
  - exists w. simpl. unfold ret. repeat split. intros k v [].
  - inversion Hvalid as [| ? ? Hv Hrest]; subst. simpl in Hv.
    inversion Hnd as [| ? ? Hk Hnd']; subst.
    rewrite (act_on_sensors_step action k v rest w Hv).
    match goal with
    | |- context [act_on_sensors action rest ?w1] =>
        destruct (IH w1 Hrest Hnd') as (w' & Hrun & Hout & Hin)
    end.
    { intros k' v' Hin'. simpl. rewrite dict_get_set_other.
      - apply Hget. right. exact Hin'.
      - intros ->. apply Hk. apply (in_map fst) in Hin'. exact Hin'. }
    exists w'. split; [exact Hrun |]. split.
    + intros k' Hk'. simpl in Hk'. rewrite Hout by tauto. simpl.
      apply dict_get_set_other. intro; subst; tauto.
    + intros k' v' [Heq | Hin'].
      * inversion Heq; subst k' v'. rewrite Hout by exact Hk. simpl.
        apply dict_get_set_same.
      * apply Hin. exact Hin'.
Qed.

Lemma act_on_sensors_raises (action : ActionSpec) (items : dict Sensor) :
  forall w : World,
    (exists kv, In kv items /\ sensor_is_valid (snd kv) = false) ->
    snd (act_on_sensors action items w) = Raise InvalidObjectError.
Proof.
  induction items as [| [k v] rest IH]; intros w (kv & Hin & Hbad).
  - destruct Hin.
  - destruct (sensor_is_valid v) eqn:Hv.
    + rewrite (act_on_sensors_step action k v rest w Hv).
      apply IH. exists kv. split; [| exact Hbad].
      destruct Hin as [<- | Hin]; [simpl in Hbad; congruence | exact Hin].
    + rewrite (act_on_sensors_invalid action k v rest w Hv). reflexivity.
Qed.

(** X14: an action that the controls class neither as a body action nor as
    an interact action is applied, without the collision filter, to the
    node of every attached sensor; the body node, the store and the
    simulator are untouched, and [act] reports no collision. *)
Theorem act_sensor_action_moves_every_sensor
  (fuel : nat) (action_id : string) (action : ActionSpec) (sim : option S)
  (w : World) :
  is_valid (body (agent w)) = true ->
  dict_get action_id (action_space (agent_config (agent w))) = Some action ->
  is_body_action (name action) = false ->
  is_interact_action (name action) = false ->
  all_sensors_valid (_sensors (agent w)) ->
  NoDup (keys (_sensors (agent w))) ->
  exists w',
    act fuel action_id sim w = (w', sim, Ok false) /\
    body (agent w') = body (agent w) /\
    arrays w' = arrays w /\
    states w' = states w /\
    forall k,
      dict_get k (_sensors (agent w'))
      = option_map (sensor_acted action) (dict_get k (_sensors (agent w))).
Proof.
  intros Hv Ha Hb Hi Hvalid Hnd.
  destruct (act_on_sensors_ok action (_sensors (agent w)) w Hvalid Hnd)
    as (w' & Hrun & Hout & Hin).
  { intros k v Hkv. apply NoDup_dict_get; assumption. }
  pose proof (act_on_sensors_frame action (_sensors (agent w)) w
                (fun k Hk => Hk)) as Hframe.
  rewrite Hrun in Hframe. cbv zeta in Hframe. cbn [fst] in Hframe.
  destruct Hframe as (Harr & Hst & Hbody & _).
  exists w'. split.
  { unfold act. rewrite Hv, Ha, Hb, Hi. simpl. rewrite Hrun. reflexivity. }
  split; [exact Hbody |]. split; [exact Harr |]. split; [exact Hst |].
  intro k. destruct (dict_get k (_sensors (agent w))) as [v |] eqn:Hk.
  - simpl. apply Hin. apply dict_get_In. exact Hk.
  - simpl. rewrite Hout; [exact Hk | apply dict_get_None; exact Hk].
Qed.

(** X15: a sensor action on an agent one of whose sensors is no longer
    valid raises InvalidObjectError; the body node and the store are
    untouched. *)
Theorem act_sensor_action_invalid_sensor
  (fuel : nat) (action_id : string) (action : ActionSpec) (sim : option S)
  (w : World) (k : string) (s : Sensor) :
  is_valid (body (agent w)) = true ->
  dict_get action_id (action_space (agent_config (agent w))) = Some action ->
  is_body_action (name action) = false ->
  is_interact_action (name action) = false ->
  In (k, s) (_sensors (agent w)) ->
  sensor_is_valid s = false ->
  exists w',
    act fuel action_id sim w = (w', sim, Raise InvalidObjectError) /\
    body (agent w') = body (agent w) /\
    arrays w' = arrays w /\
    states w' = states w.
Proof.
  intros Hv Ha Hb Hi Hin Hbad.
  pose proof (act_on_sensors_raises action (_sensors (agent w)) w
                (ex_intro _ (k, s) (conj Hin Hbad))) as Hr.
  pose proof (act_on_sensors_frame action (_sensors (agent w)) w
                (fun k Hk => Hk)) as Hframe.
  cbv zeta in Hframe. destruct Hframe as (Harr & Hst & Hbody & _).
  destruct (act_on_sensors action (_sensors (agent w)) w) as [w' r] eqn:Hrun.
  simpl in *. subst r.
  exists w'. split.
  { unfold act. rewrite Hv, Ha, Hb, Hi. simpl. rewrite Hrun. reflexivity. }
  repeat split; assumption.
Qed.

End ActFacts.

Section ActInvariants.

Context {S : Type} `{Controls S} `{Simulator S}.

Lemma act_interact_untouched (fuel : nat) (action : ActionSpec) (sim : S)
  (w : World) :
  let w' := fst (fst (act_interact fuel action sim w)) in
  act_untouched w w' /\
  _sensors (agent w') = _sensors (agent w) /\
  (grip_consistent (agent w) -> grip_consistent (agent w')).
Proof.
  unfold act_interact, act_untouched, grip_consistent.
  destruct (controls_interact _ _ _ sim _) as [[n sim1] nearest].
  cbn [with_body_object gripped_object_id gripped_object_transformation].
  destruct (Z.eqb (gripped_object_id (agent w)) (-1)) eqn:Eg; cbn [negb].
  - destruct (Z.eqb nearest (-1)) eqn:En; cbn [negb]; simpl.
    + repeat split; auto.
    + repeat split; auto. intros _. right. discriminate.
  - destruct (find_floor_position_under_crosshair sim1 _ _) as [f |].
    + destruct (gripped_object_transformation (agent w)) as [t |] eqn:Et.
      * destruct (add_object_by_handle sim1 _) as [sim2 new_id].
        destruct (lift_until_free fuel _ _ new_id) as [sim4 |]; simpl.
        -- repeat split; auto.
        -- repeat split; auto. rewrite Et. intuition.
      * simpl. repeat split; auto. rewrite Et. intuition.
    + simpl. repeat split; auto.
Qed.

(** X16: whatever the action and whether it returns or raises, [act]
    changes no array and no state object, keeps the configuration, the
    initial state and the validity of the body, and attaches and detaches
    no sensor. *)
Theorem act_frame (fuel : nat) (action_id : string) (sim : option S)
  (w : World) :
  let w' := fst (fst (act fuel action_id sim w)) in
  arrays w' = arrays w /\
  states w' = states w /\
  agent_config (agent w') = agent_config (agent w) /\
  initial_state (agent w') = initial_state (agent w) /\
  is_valid (body (agent w')) = is_valid (body (agent w)) /\
  keys (_sensors (agent w')) = keys (_sensors (agent w)).
Proof.
  unfold act.
  destruct (is_valid (body (agent w))) eqn:Hv; cbn [negb];
    [| simpl; repeat split; exact Hv].
  destruct (dict_get action_id _) as [action |];
    [| simpl; repeat split; exact Hv].
  destruct (is_body_action (name action)).
  - destruct (controls_action _ _ _ true) as [n c]. simpl.
    repeat split. exact Hv.
  - destruct (is_interact_action (name action)).
    + destruct sim as [s |]; [| simpl; repeat split; exact Hv].
      pose proof (act_interact_untouched fuel action s w) as Hi.
      destruct (act_interact fuel action s w) as [[w' s'] r].
      cbv zeta in Hi. simpl in Hi. simpl.
      destruct Hi as ((Ha & Hs & Hc & Hi & Hval) & Hsens & _).
      rewrite Hsens. repeat split; try assumption; congruence.
    + pose proof (act_on_sensors_frame action (_sensors (agent w)) w
                    (fun k Hk => Hk)) as Hf.
      destruct (act_on_sensors action (_sensors (agent w)) w) as [w' r].
      cbv zeta in Hf. simpl in Hf. simpl.
      destruct Hf as (Ha & Hs & Hb & Hc & Hi & _ & _ & Hk).
      rewrite Hb. repeat split; try assumption.
Qed.

(** X17: [act] keeps the agent's hold consistent: if before the call the
    agent either holds nothing or has the held object's transformation on
    record, the same is true after the call, whatever the action and the
    outcome. *)
Theorem act_keeps_grip_consistent (fuel : nat) (action_id : string)
  (sim : option S) (w : World) :
  grip_consistent (agent w) ->
  grip_consistent (agent (fst (fst (act fuel action_id sim w)))).
Proof.
  intro Hg. unfold act.
  destruct (is_valid (body (agent w))); cbn [negb]; [| exact Hg].
  destruct (dict_get action_id _) as [action |]; [| exact Hg].
  destruct (is_body_action (name action)).
  - destruct (controls_action _ _ _ true) as [n c]. exact Hg.
  - destruct (is_interact_action (name action)).
    + destruct sim as [s |]; [| exact Hg].
      pose proof (act_interact_untouched fuel action s w) as Hi.
      destruct (act_interact fuel action s w) as [[w' s'] r].
      cbv zeta in Hi. simpl in Hi. simpl. apply Hi. exact Hg.
    + pose proof (act_on_sensors_frame action (_sensors (agent w)) w
                    (fun k Hk => Hk)) as Hf.
      destruct (act_on_sensors action (_sensors (agent w)) w) as [w' r].
      cbv zeta in Hf. simpl in Hf. simpl.
      destruct Hf as (_ & _ & _ & _ & _ & Hid & Ht & _).
      unfold grip_consistent in *. rewrite Hid, Ht. exact Hg.
Qed.

End ActInvariants.

Section ActOutcome.

Context {S : Type} `{Controls S} `{Simulator S}.

Lemma raised_zero (p : Vector3) : raised p 0 = p.
Proof. destruct p. apply vector3_eq; simpl; ring. Qed.

Lemma raised_step (p : Vector3) (i : nat) :
  mkVector3 (vx (raised p i)) (vy (raised p i) + 0.25) (vz (raised p i))
  = raised p (Datatypes.S i).
Proof.
  apply vector3_eq; try reflexivity.
  cbn [raised vy]. rewrite S_INR. ring.
Qed.

Lemma lift_until_free_round (fuel : nat) (sim : S) (q : Vector3) (id : Z) :
  lift_until_free (Datatypes.S fuel) sim q id
  = if contact_test sim id
    then lift_until_free fuel
           (set_translation sim (mkVector3 (vx q) (vy q + 0.25) (vz q)) id)
           (mkVector3 (vx q) (vy q + 0.25) (vz q)) id
    else Some sim.
Proof. reflexivity. Qed.

Lemma lift_until_free_from (fuel : nat) :
  forall (i : nat) (sim sim' : S) (p : Vector3) (id : Z),
    lift_until_free fuel sim (raised p i) id = Some sim' ->
    exists n,
      (n < fuel)%nat /\
      sim' = lifted_from i n sim p id /\
      contact_test sim' id = false /\
      forall m, (m < n)%nat -> contact_test (lifted_from i m sim p id) id = true.
Proof.
  induction fuel as [| fuel IH]; intros i sim sim' p id Hrun.
  - discriminate.
  - rewrite lift_until_free_round in Hrun.
    destruct (contact_test sim id) eqn:Ec.
    + rewrite raised_step in Hrun.
      destruct (IH _ _ _ _ _ Hrun) as (n & Hn & Hs & Hfree & Hbusy).
      exists (Datatypes.S n). split; [lia |]. split; [exact Hs |].
      split; [exact Hfree |].
      intros [| m] Hm; [exact Ec | apply Hbusy; lia].
    + inversion Hrun; subst sim'. exists 0%nat.
      split; [lia |]. split; [reflexivity |]. split; [exact Ec |].
      intros m Hm. lia.
Qed.

(** X18: when the loop that lifts a placed object ends, it has moved the
    object to the heights 0.25, 0.5, ... above the starting position, one
    after the other, for some number [n] of rounds below the bound; the
    object is out of contact after the [n]-th move and was in contact
    after each earlier one, so [n] is the first height at which it is
    free. *)
Theorem lift_until_free_stops_at_first_free_height
  (fuel : nat) (sim sim' : S) (p : Vector3) (id : Z) :
  lift_until_free fuel sim p id = Some sim' ->
  exists n,
    (n < fuel)%nat /\
    sim' = lifted_from 0 n sim p id /\
    contact_test sim' id = false /\
    forall m, (m < n)%nat -> contact_test (lifted_from 0 m sim p id) id = true.
Proof.
  intro Hrun. apply (lift_until_free_from fuel 0 sim sim' p id).
  rewrite raised_zero. exact Hrun.
Qed.

(** X19: for an action that is not a body action, [act] returns true only
    in one case: the action is an interact action, the agent holds an
    object, and no floor position is found under the crosshair; the agent
    then still holds the object. *)
Theorem act_true_without_body_action
  (fuel : nat) (action_id : string) (action : ActionSpec) (sim sim' : option S)
  (w w' : World) :
  dict_get action_id (action_space (agent_config (agent w))) = Some action ->
  is_body_action (name action) = false ->
  act fuel action_id sim w = (w', sim', Ok true) ->
  is_interact_action (name action) = true /\
  gripped_object_id (agent w) <> (-1)%Z /\
  gripped_object_id (agent w') = gripped_object_id (agent w) /\
  exists s,
    sim = Some s /\
    find_floor_position_under_crosshair
      (snd (fst (controls_interact (object (body (agent w))) (name action)
                   (actuation action) s
                   (absolute_translation root (object (body (agent w)))))))
      (crosshair_direction s)
      (absolute_translation root (object (body (agent w))))
    = None.
Proof.
  intros Ha Hb Hrun. unfold act in Hrun.
  destruct (is_valid (body (agent w))); cbn [negb] in Hrun; [| discriminate].
  rewrite Ha, Hb in Hrun.
  destruct (is_interact_action (name action)).
  - destruct sim as [s |]; [| discriminate].
    unfold act_interact in Hrun.
    destruct (controls_interact _ _ _ s _) as [[n sim1] nearest] eqn:Ec.
    cbn [with_body_object gripped_object_id gripped_object_transformation]
      in Hrun.
    destruct (Z.eqb (gripped_object_id (agent w)) (-1)) eqn:Eg;
      cbn [negb] in Hrun.
    + destruct (Z.eqb nearest (-1)); cbn [negb] in Hrun; discriminate.
    + apply Z.eqb_neq in Eg.
      destruct (find_floor_position_under_crosshair sim1 _ _) as [f |] eqn:Ef.
      * destruct (gripped_object_transformation (agent w)); [| discriminate].
        destruct (add_object_by_handle sim1 _) as [sim2 new_id].
        destruct (lift_until_free fuel _ _ new_id); discriminate.
      * inversion Hrun; subst. split; [reflexivity |].
        split; [exact Eg |]. split; [reflexivity |].
        exists s. split; [reflexivity |]. rewrite Ec. simpl. exact Ef.
  - destruct (act_on_sensors action (_sensors (agent w)) w) as [w1 [[] | e]];
      discriminate.
Qed.

End ActOutcome.

Lemma lift_until_free_stops_at_first_free_height_witness :
  lift_until_free 5 0%nat vzero 0%Z = Some 2%nat /\
  exists n,
    (n < 5)%nat /\
    2%nat = lifted_from 0 n 0%nat vzero 0%Z /\
    contact_test 2%nat 0%Z = false /\
    forall m, (m < n)%nat ->
      contact_test (lifted_from 0 m 0%nat vzero 0%Z) 0%Z = true.
Proof.
  split; [reflexivity |].
  apply (lift_until_free_stops_at_first_free_height 5 0%nat 2%nat vzero 0%Z).
  reflexivity.
Defined.

Lemma act_true_without_body_action_witness :
  let w := holding_world in
  let action := mkActionSpec "grab_release" None in
  dict_get "grab_release" (action_space (agent_config (agent w))) = Some action /\
  is_body_action (name action) = false /\
  act 1 "grab_release" (Some tt) w = (w, Some tt, Ok true) /\
  is_interact_action (name action) = true /\
  gripped_object_id (agent w) <> (-1)%Z /\
  gripped_object_id (agent w) = gripped_object_id (agent w) /\
  exists s,
    Some tt = Some s /\
    find_floor_position_under_crosshair
      (snd (fst (controls_interact (object (body (agent w))) (name action)
                   (actuation action) s
                   (absolute_translation root (object (body (agent w)))))))
      (crosshair_direction s)
      (absolute_translation root (object (body (agent w))))
    = None.
Proof.
  split; [reflexivity |]. split; [reflexivity |]. split; [reflexivity |].
  apply (act_true_without_body_action 1 "grab_release"
           (mkActionSpec "grab_release" None) (Some tt) (Some tt)
           holding_world holding_world); reflexivity.
Defined.

Lemma acting_sensors_valid : all_sensors_valid (_sensors (agent acting_world)).
Proof. repeat constructor. Defined.

Lemma acting_sensors_nodup : NoDup (keys (_sensors (agent acting_world))).
Proof. repeat constructor. simpl. tauto. Defined.

Lemma act_sensor_action_moves_every_sensor_witness :
  let w := acting_world in
  let action := mkActionSpec "look_up" (Some (mkActuationSpec 10)) in
  is_valid (body (agent w)) = true /\
  dict_get "look_up" (action_space (agent_config (agent w))) = Some action /\
  is_body_action (name action) = false /\
  is_interact_action (name action) = false /\
  exists w',
    act 0 "look_up" (Some tt) w = (w', Some tt, Ok false) /\
    body (agent w') = body (agent w) /\
    arrays w' = arrays w /\
    states w' = states w /\
    forall k,
      dict_get k (_sensors (agent w'))
      = option_map (sensor_acted action) (dict_get k (_sensors (agent w))).
Proof.
  split; [reflexivity |]. split; [reflexivity |].
  split; [reflexivity |]. split; [reflexivity |].
  apply (act_sensor_action_moves_every_sensor 0 "look_up"
           (mkActionSpec "look_up" (Some (mkActuationSpec 10))) (Some tt)
           acting_world).
  - reflexivity.
  - reflexivity.
  - reflexivity.
  - reflexivity.
  - exact acting_sensors_valid.
  - exact acting_sensors_nodup.
Defined.

Lemma act_sensor_action_invalid_sensor_witness :
  let w := acting_stale_world in
  let action := mkActionSpec "look_up" (Some (mkActuationSpec 10)) in
  let s :=
    mkSensor (mkSceneNode (mkVector3 0 1.5 0) mn.identity) depth_spec false in
  is_valid (body (agent w)) = true /\
  dict_get "look_up" (action_space (agent_config (agent w))) = Some action /\
  In ("depth"%string, s) (_sensors (agent w)) /\
  sensor_is_valid s = false /\
  exists w',
    act 0 "look_up" (Some tt) w = (w', Some tt, Raise InvalidObjectError) /\
    body (agent w') = body (agent w) /\
    arrays w' = arrays w /\
    states w' = states w.
Proof.
  split; [reflexivity |]. split; [reflexivity |].
  split; [simpl; right; left; reflexivity |]. split; [reflexivity |].
  apply (act_sensor_action_invalid_sensor 0 "look_up"
           (mkActionSpec "look_up" (Some (mkActuationSpec 10))) (Some tt)
           acting_stale_world "depth"
           (mkSensor (mkSceneNode (mkVector3 0 1.5 0) mn.identity) depth_spec
              false)).
  - reflexivity.
  - reflexivity.
  - reflexivity.
  - reflexivity.
  - simpl. right. left. reflexivity.
  - reflexivity.
Defined.

Lemma holding_world_consistent : grip_consistent (agent holding_world).
Proof. right. discriminate. Defined.

Lemma act_keeps_grip_consistent_witness :
  grip_consistent (agent holding_world) /\
  grip_consistent
    (agent (fst (fst (act 1 "grab_release" (Some tt) holding_world)))).
Proof.
  split; [exact holding_world_consistent |].
  apply (act_keeps_grip_consistent 1 "grab_release" (Some tt) holding_world).
  exact holding_world_consistent.
Defined.

(** ** Construction *)

(** X20: built on a valid node, an agent has the configuration it was given
    (the default one if none), the node as its body with the node's
    transform untouched, no initial state, no held object, and under each
    name the sensor made from the last specification of that name in its
    configuration; the sensors handed to the constructor and the agent that
    was there before play no part. *)
Theorem Agent_init_builds_sensors_from_config
  (default_spec : SensorSpec) (scene_node : SceneNode)
  (config : option AgentConfiguration) (sensors : option (dict Sensor))
  (w : World) :
  exists w',
    Agent_init default_spec (mkFeature scene_node true) config sensors w
    = (w', Ok tt) /\
    agent_config (agent w')
    = or_default config (AgentConfiguration_default default_spec) /\
    body (agent w') = mkFeature scene_node true /\
    initial_state (agent w') = None /\
    gripped_object_id (agent w') = (-1)%Z /\
    arrays w' = arrays w /\
    states w' = states w /\
    forall k,
      dict_get k (_sensors (agent w'))
      = configured_sensor scene_node
          (sensor_specifications
             (or_default config (AgentConfiguration_default default_spec)))
          k.
Proof.
  unfold Agent_init.
  set (cfg := or_default config (AgentConfiguration_default default_spec)).
  unfold bind at 1. unfold modify_agent at 1.
  unfold bind at 1. rewrite reconfigure_run by reflexivity.
  eexists. split; [reflexivity |]. simpl.
  repeat split.
  intro k. rewrite dict_get_fold_sensors.
  destruct (configured_sensor _ _ k); reflexivity.
Qed.

(** ** Explicit placement, name by name *)

Lemma place_sensors_prefix (state : addr) (R : np.quaternion)
  (pre rest : dict SixDOFPose.t) :
  forall w : World,
    AgentState.rotation (states w state) = RotQuaternion R ->
    (forall k, In k (keys pre) -> dict_get k (_sensors (agent w)) <> None) ->
    place_sensors state (pre ++ rest) w
    = place_sensors state rest (fst (place_sensors state pre w)) /\
    snd (place_sensors state pre w) = Ok tt.
Proof.
  induction pre as [| [k v] pre IH]; intros w HR Hatt.
  - simpl. split; reflexivity.
  - destruct (dict_get k (_sensors (agent w))) as [s |] eqn:Hs;
      [| exfalso; apply (Hatt k); [left; reflexivity | exact Hs]].
    simpl app.
    rewrite (place_sensors_step state k v (pre ++ rest) w s R Hs HR).
    rewrite (place_sensors_step state k v pre w s R Hs HR).
    pose proof (pose_converted_facts state k v w) as (_ & _ & Hrot1 & _).
    apply IH.
    + change (states (sensor_placed state k v s w))
        with (states (pose_converted state k v w)).
      rewrite Hrot1. exact HR.
    + intros k' Hk'. unfold sensor_placed; simpl.
      destruct (String.eqb k' k) eqn:E.
      * apply String.eqb_eq in E. subst k'. rewrite dict_get_set_same.
        discriminate.
      * apply String.eqb_neq in E. rewrite dict_get_set_other by exact E.
        apply Hatt. right. exact Hk'.
Qed.

(** C1, amended: on a valid body, [set_state] with [infer_sensor_states]
    false sets the base pose, runs the reset pass if asked, and then goes
    through the names of [state.sensor_states] in order.  With [pre] the
    names before the first one that is not attached and [rest] the names
    from it on, the call returns normally when [rest] is empty and raises
    UnknownSensorError otherwise; every sensor named in [pre] has its node
    reset to the identity, translated by the inverse of the base rotation
    applied to the pose's position minus the base position, and given the
    rotation inverse base rotation times pose rotation, whether or not the
    reset pass ran; every other sensor, also one named in [rest], is as the
    reset pass left it. *)
Theorem set_state_places_sensors_in_order
  (state : addr) (reset_sensors is_initial : bool) (w : World)
  (pre rest : dict SixDOFPose.t) :
  is_valid (body (agent w)) = true ->
  AgentState.sensor_states (states w state) = pre ++ rest ->
  NoDup (keys (pre ++ rest)) ->
  (forall k, In k (keys pre) -> dict_get k (_sensors (agent w)) <> None) ->
  (rest = [] \/
   exists k v rest',
     rest = (k, v) :: rest' /\ dict_get k (_sensors (agent w)) = None) ->
  exists w',
    set_state state reset_sensors false is_initial w
    = (w', match rest with [] => Ok tt | _ :: _ => Raise UnknownSensorError end)
    /\
    object (body (agent w'))
    = set_rotation (quat_to_magnum (base_rotation w state))
        (translate (base_position w state)
           (reset_transformation (object (body (agent w))))) /\
    (forall k v,
       In (k, v) pre ->
       exists s s',
         dict_get k (_sensors (agent w)) = Some s /\
         dict_get k (_sensors (agent w')) = Some s' /\
         specification s' = specification s /\
         node s'
         = set_rotation
             (quat_to_magnum
                (np.mul (np.inverse (base_rotation w state))
                   (pose_quaternion (SixDOFPose.rotation v))))
             (translate
                (quat_rotate_vector (np.inverse (base_rotation w state))
                   (vsub (arrays w (SixDOFPose.position v))
                      (base_position w state)))
                (reset_transformation (node s)))) /\
    (forall k,
       ~ In k (keys pre) ->
       dict_get k (_sensors (agent w'))
       = option_map
           (if reset_sensors then set_transformation_from_spec else fun s => s)
           (dict_get k (_sensors (agent w)))).
Proof.
  intros Hv Hss Hnd Hatt Hrest.
  destruct (set_state_base_and_reset state reset_sensors w)
    as (w2 & Hrun2 & Harr2 & Hst2 & Hother2 & Hag2).
  rewrite (set_state_unfold state reset_sensors false is_initial w w2 Hv Hrun2).
  set (R := base_rotation w state).
  assert (HR2 : AgentState.rotation (states w2 state) = RotQuaternion R)
    by (rewrite Hst2; reflexivity).
  assert (Ess : AgentState.sensor_states (states w2 state) = pre ++ rest)
    by (rewrite Hst2; exact Hss).
  assert (Es2 : _sensors (agent w2)
                = sensors_after_reset reset_sensors (_sensors (agent w)))
    by (rewrite Hag2; reflexivity).
  assert (Hatt2 : forall k, In k (keys pre) ->
                    dict_get k (_sensors (agent w2)) <> None).
  { intros k Hk. rewrite Es2, dict_get_sensors_after_reset.
    specialize (Hatt k Hk).
    destruct (dict_get k (_sensors (agent w))); [discriminate | contradiction]. }
  assert (Hndpre : NoDup (keys pre)).
  { unfold keys in Hnd. rewrite map_app in Hnd.
    apply NoDup_app_remove_r in Hnd. exact Hnd. }
  destruct (place_sensors_ok state R pre w2 HR2 Hndpre Hatt2)
    as (w3 & Hrun3 & Harr3 & Hbody3 & Hinit3 & _ & HR3 & _ & _ & Hout & Hin & _).
  { intros k v Hk. rewrite Ess.
    apply NoDup_dict_get; [exact Hnd | apply in_or_app; left; exact Hk]. }
  destruct (place_sensors_prefix state R pre rest w2 HR2 Hatt2) as (Hsplit & _).
  rewrite Hrun3 in Hsplit. cbn [fst] in Hsplit.
  assert (Ebp : base_position w2 state = base_position w state).
  { unfold base_position. rewrite Harr2, Hst2. reflexivity. }
  assert (Hnamed : forall k v,
             In (k, v) pre ->
             exists s s',
               dict_get k (_sensors (agent w)) = Some s /\
               dict_get k (_sensors (agent w3)) = Some s' /\
               specification s' = specification s /\
               node s'
               = set_rotation
                   (quat_to_magnum
                      (np.mul (np.inverse R)
                         (pose_quaternion (SixDOFPose.rotation v))))
                   (translate
                      (quat_rotate_vector (np.inverse R)
                         (vsub (arrays w (SixDOFPose.position v))
                            (base_position w state)))
                      (reset_transformation (node s)))).
  { intros k v Hk. destruct (Hin k v Hk) as (s2 & Hs2 & Hs3).
    rewrite Es2, dict_get_sensors_after_reset in Hs2.
    destruct (dict_get k (_sensors (agent w))) as [s |] eqn:Hs;
      [| discriminate].
    simpl in Hs2. inversion Hs2 as [Es]. clear Hs2.
    rewrite Ebp, Harr2 in Hs3.
    eexists s, _. split; [reflexivity |]. split; [exact Hs3 |].
    subst s2. split; destruct reset_sensors; reflexivity. }
  assert (Hothers : forall k,
             ~ In k (keys pre) ->
             dict_get k (_sensors (agent w3))
             = option_map
                 (if reset_sensors then set_transformation_from_spec
                  else fun s => s)
                 (dict_get k (_sensors (agent w)))).
  { intros k Hk. rewrite (Hout k Hk), Es2.
    apply dict_get_sensors_after_reset. }
  assert (Hb3 : object (body (agent w3))
                = set_rotation (quat_to_magnum R)
                    (translate (base_position w state)
                       (reset_transformation (object (body (agent w))))))
    by (rewrite Hbody3, Hag2; reflexivity).
  destruct Hrest as [-> | (k0 & v0 & rest' & -> & Hnone)].
  - assert (Hend : exists w',
               (when is_initial (modify_agent (with_initial_state (Some state))))
                 w3 = (w', Ok tt)
               /\ body (agent w') = body (agent w3)
               /\ _sensors (agent w') = _sensors (agent w3)).
    { destruct is_initial; simpl; eexists; repeat split. }
    destruct Hend as (w' & Hrun' & Hbody' & Hsens').
    exists w'. split.
    { simpl negb. cbn [when]. unfold bind at 1. unfold bind at 1.
      unfold read_state at 1. rewrite Ess, Hsplit. simpl. exact Hrun'. }
    split; [rewrite Hbody'; exact Hb3 |].
    split; [intros k v Hk; rewrite Hsens'; apply Hnamed; exact Hk |].
    intros k Hk. rewrite Hsens'. apply Hothers. exact Hk.
  - exists w3. split.
    { simpl negb. cbn [when]. unfold bind at 1. unfold bind at 1.
      unfold read_state at 1. rewrite Ess, Hsplit.
      assert (Hn3 : dict_get k0 (_sensors (agent w3)) = None).
      { rewrite Hothers.
        - rewrite Hnone. reflexivity.
        - intro Hk. unfold keys in Hnd. rewrite map_app in Hnd.
          simpl in Hnd. apply NoDup_remove_2 in Hnd. apply Hnd.
          apply in_or_app. left. exact Hk. }
      simpl. unfold bind at 1. unfold get_agent. rewrite Hn3. reflexivity. }
    split; [exact Hb3 |]. split; [exact Hnamed | exact Hothers].
Qed.

Lemma world_known_then_unknown_nodup :
  NoDup
    (keys ([("rgb"%string, SixDOFPose_init (Some 7%nat) None)]
           ++ [("depth"%string, SixDOFPose_init (Some 7%nat) None)])).
Proof. simpl. repeat constructor; simpl; intuition discriminate. Defined.

Lemma world_known_then_unknown_attached :
  forall k,
    In k (keys [("rgb"%string, SixDOFPose_init (Some 7%nat) None)]) ->
    dict_get k (_sensors (agent world_known_then_unknown)) <> None.
Proof. simpl. intros k [<- | []]. discriminate. Defined.

Lemma set_state_places_sensors_in_order_witness :
  let w := world_known_then_unknown in
  let state := 0%nat in
  let pre := [("rgb"%string, SixDOFPose_init (Some 7%nat) None)] in
  let rest := [("depth"%string, SixDOFPose_init (Some 7%nat) None)] in
  is_valid (body (agent w)) = true /\
  AgentState.sensor_states (states w state) = pre ++ rest /\
  NoDup (keys (pre ++ rest)) /\
  dict_get "depth" (_sensors (agent w)) = None /\
  exists w',
    set_state state true false false w = (w', Raise UnknownSensorError) /\
    object (body (agent w'))
    = set_rotation (quat_to_magnum (base_rotation w state))
        (translate (base_position w state)
           (reset_transformation (object (body (agent w))))) /\
    (forall k v,
       In (k, v) pre ->
       exists s s',
         dict_get k (_sensors (agent w)) = Some s /\
         dict_get k (_sensors (agent w')) = Some s' /\
         specification s' = specification s /\
         node s'
         = set_rotation
             (quat_to_magnum
                (np.mul (np.inverse (base_rotation w state))
                   (pose_quaternion (SixDOFPose.rotation v))))
             (translate
                (quat_rotate_vector (np.inverse (base_rotation w state))
                   (vsub (arrays w (SixDOFPose.position v))
                      (base_position w state)))
                (reset_transformation (node s)))) /\
    (forall k,
       ~ In k (keys pre) ->
       dict_get k (_sensors (agent w'))
       = option_map set_transformation_from_spec
           (dict_get k (_sensors (agent w)))).
Proof.
  split; [reflexivity |].
  split; [reflexivity |].
  split; [exact world_known_then_unknown_nodup |].
  split; [reflexivity |].
  apply (set_state_places_sensors_in_order 0%nat true false
           world_known_then_unknown
           [("rgb"%string, SixDOFPose_init (Some 7%nat) None)]
           [("depth"%string, SixDOFPose_init (Some 7%nat) None)]).
  - reflexivity.
  - reflexivity.
  - exact world_known_then_unknown_nodup.
  - exact world_known_then_unknown_attached.
  - right. eexists _, _, _. split; reflexivity.
Defined.

Lemma rotate_by_inverse_of_one (v : Vector3) :
  quat_rotate_vector (np.inverse np.one) v = v.
Proof.
  rewrite rotate_by_inverse_unit by (unfold np.norm; simpl; ring).
  destruct v as [a b c]. apply vector3_eq; simpl; ring.
Qed.

(** C1 as stated fails: the state of [world_unknown_then_known] names
    "depth", which is not attached, and then "rgb", which is; the call
    raises at "depth" and the node of "rgb" is left where it was, 1.5 above
    the body, not at the placement the claim describes, 2 above it. *)
Lemma set_state_skips_names_after_unattached :
  let w := world_unknown_then_known in
  let state := 0%nat in
  exists w' v s s',
    set_state state false false false w = (w', Raise UnknownSensorError) /\
    dict_get "rgb" (AgentState.sensor_states (states w state)) = Some v /\
    dict_get "rgb" (_sensors (agent w)) = Some s /\
    dict_get "rgb" (_sensors (agent w')) = Some s' /\
    s' = s /\
    node s'
    <> set_rotation
         (quat_to_magnum
            (np.mul (np.inverse (base_rotation w state))
               (pose_quaternion (SixDOFPose.rotation v))))
         (translate
            (quat_rotate_vector (np.inverse (base_rotation w state))
               (vsub (arrays w (SixDOFPose.position v))
                  (base_position w state)))
            (reset_transformation (node s))).
Proof.
  cbv zeta.
  destruct (set_state_base_and_reset 0%nat false world_unknown_then_known)
    as (w2 & Hrun2 & _ & Hst2 & _ & Hag2).
  exists w2, (SixDOFPose_init (Some 7%nat) None),
    (CameraSensor (create_child root) rgb_spec),
    (CameraSensor (create_child root) rgb_spec).
  split.
  { rewrite (set_state_unfold 0%nat false false false
               world_unknown_then_known w2 eq_refl Hrun2).
    simpl negb. cbn [when]. unfold bind at 1. unfold bind at 1.
    unfold read_state at 1. rewrite Hst2.
    change (AgentState.sensor_states
              (AgentState.with_rotation
                 (RotQuaternion (base_rotation world_unknown_then_known 0%nat))
                 (states world_unknown_then_known 0%nat)))
      with [("depth"%string, SixDOFPose_init (Some 7%nat) None);
            ("rgb"%string, SixDOFPose_init (Some 7%nat) None)].
    simpl. unfold bind at 1. unfold get_agent. rewrite Hag2. reflexivity. }
  split; [reflexivity |]. split; [reflexivity |].
  split; [rewrite Hag2; reflexivity |]. split; [reflexivity |].
  change (base_rotation world_unknown_then_known 0%nat) with np.one.
  rewrite rotate_by_inverse_of_one.
  intro E. apply (f_equal (fun n => vy (translation n))) in E.
  simpl in E. lra.
Qed.

(** ** Reading a state and writing it back, sensor by sensor *)

(** C3, amended: on any valid agent, [set_state(get_state())] with the
    default flags returns normally and leaves the body node as it was, so
    the base position and rotation read afterwards are those read before;
    every sensor is left at the default transform of its specification; a
    sensor that sat at that default is therefore unchanged and its pose
    read afterwards is the pose read before, while a sensor that was away
    from its default is put back to it. *)
Theorem set_state_of_get_state_reproduces (w : World) :
  is_valid (body (agent w)) = true ->
  all_sensors_valid (_sensors (agent w)) ->
  NoDup (keys (_sensors (agent w))) ->
  exists w1 state w2 w3 state',
    get_state w = (w1, Ok state) /\
    set_state state true true false w1 = (w2, Ok tt) /\
    get_state w2 = (w3, Ok state') /\
    body (agent w2) = body (agent w) /\
    base_position w3 state' = base_position w1 state /\
    AgentState.rotation (states w3 state')
    = AgentState.rotation (states w1 state) /\
    (forall k,
       dict_get k (_sensors (agent w2))
       = option_map set_transformation_from_spec
           (dict_get k (_sensors (agent w)))) /\
    (forall k s,
       dict_get k (_sensors (agent w)) = Some s ->
       set_transformation_from_spec s = s ->
       dict_get k (_sensors (agent w2)) = Some s /\
       pose_value w3
         (dict_get k (AgentState.sensor_states (states w3 state')))
       = pose_value w1
           (dict_get k (AgentState.sensor_states (states w1 state)))).
Proof.
  intros Hv Hvalid Hnd.
  destruct (get_state_spec w Hv Hvalid Hnd)
    as (w1 & Hrun1 & Hag1 & _ & _ & Hpos1 & Hrot1 & _ & Hsome1).
  assert (Hv1 : is_valid (body (agent w1)) = true) by (rewrite Hag1; exact Hv).
  destruct (set_state_default (next_state w) w1 Hv1)
    as (w2 & Hrun2 & _ & _ & _ & Hag2).
  assert (Eb : body (agent w2) = body (agent w)).
  { rewrite Hag2, Hag1. unfold base_node, base_rotation, base_position.
    rewrite Hrot1, Hpos1, Hag1. simpl rotation_quaternion.
    rewrite base_node_of_read_pose.
    destruct (agent w) as [c s [o v] i g t]. reflexivity. }
  assert (Es : _sensors (agent w2)
               = sensors_after_reset true (_sensors (agent w)))
    by (rewrite Hag2, Hag1; reflexivity).
  assert (Hsens : forall k,
             dict_get k (_sensors (agent w2))
             = option_map set_transformation_from_spec
                 (dict_get k (_sensors (agent w)))).
  { intro k. rewrite Es. apply (dict_get_sensors_after_reset true). }
  destruct (get_state_spec w2) as
    (w3 & Hrun3 & _ & _ & _ & Hpos3 & Hrot3 & _ & Hsome3).
  { rewrite Eb. exact Hv. }
  { rewrite Es. apply sensors_after_reset_valid. exact Hvalid. }
  { rewrite Es, sensors_after_reset_keys. exact Hnd. }
  exists w1, (next_state w), w2, w3, (next_state w2).
  split; [exact Hrun1 |]. split; [exact Hrun2 |]. split; [exact Hrun3 |].
  split; [exact Eb |].
  split; [unfold base_position; rewrite Hpos3, Hpos1, Eb; reflexivity |].
  split; [rewrite Hrot3, Hrot1, Eb; reflexivity |].
  split; [exact Hsens |].
  intros k s Hk Hdef.
  assert (Hk2 : dict_get k (_sensors (agent w2)) = Some s)
    by (rewrite Hsens, Hk; simpl; rewrite Hdef; reflexivity).
  split; [exact Hk2 |].
  destruct (Hsome1 k s Hk) as (p1 & Hg1 & Ha1 & Hr1).
  destruct (Hsome3 k s Hk2) as (p3 & Hg3 & Ha3 & Hr3).
  rewrite Hg1, Hg3. simpl. rewrite Ha1, Ha3, Hr1, Hr3, Eb. reflexivity.
Qed.

Lemma displaced_sensors_valid :
  all_sensors_valid (_sensors (agent displaced_world)).
Proof. repeat constructor. Defined.

Lemma displaced_sensors_nodup :
  NoDup (keys (_sensors (agent displaced_world))).
Proof. repeat constructor. simpl. tauto. Defined.

Lemma set_state_of_get_state_reproduces_witness :
  let w := displaced_world in
  is_valid (body (agent w)) = true /\
  all_sensors_valid (_sensors (agent w)) /\
  NoDup (keys (_sensors (agent w))) /\
  exists w1 state w2 w3 state',
    get_state w = (w1, Ok state) /\
    set_state state true true false w1 = (w2, Ok tt) /\
    get_state w2 = (w3, Ok state') /\
    body (agent w2) = body (agent w) /\
    base_position w3 state' = base_position w1 state /\
    AgentState.rotation (states w3 state')
    = AgentState.rotation (states w1 state) /\
    (forall k,
       dict_get k (_sensors (agent w2))
       = option_map set_transformation_from_spec
           (dict_get k (_sensors (agent w)))) /\
    (forall k s,
       dict_get k (_sensors (agent w)) = Some s ->
       set_transformation_from_spec s = s ->
       dict_get k (_sensors (agent w2)) = Some s /\
       pose_value w3
         (dict_get k (AgentState.sensor_states (states w3 state')))
       = pose_value w1
           (dict_get k (AgentState.sensor_states (states w1 state)))).
Proof.
  split; [reflexivity |].
  split; [exact displaced_sensors_valid |].
  split; [exact displaced_sensors_nodup |].
  apply (set_state_of_get_state_reproduces displaced_world).
  - reflexivity.
  - exact displaced_sensors_valid.
  - exact displaced_sensors_nodup.
Defined.
